(** * MiniMart-MS data generators: a shallow embedding and its properties

    The three scripts under [scripts/] ([generate_history_v2.py],
    [generate_history_v3.py], [generate_suppliers.py]) are embedded as Rocq
    functions.  The embedding follows the Python text:

    - Python [float]s are values of a type [F] that carries the operations of
      the class [PyFloat].  Two instances are given: IEEE binary64 (the
      kernel's primitive floats, which is what CPython computes with) and
      exact rationals.  Every definition of the scripts is written once, over
      any [F]; structural theorems hold for every instance, numeric bounds
      are proved over the rationals, and closed evaluations are run on
      binary64.
    - The module [random] is a state: a family of draw sequences indexed by
      the seed, the current seed and the position in its sequence.  Every
      call of [random.*] consumes one draw, so quantifying over the state
      quantifies over every outcome of the random choices.
    - Exceptions are the constructor [Raise] of [result].
    - A [datetime] is its proleptic Gregorian ordinal and its second of the
      day; year, month, day and weekday are computed from the ordinal as
      CPython's [datetime.py] does. *)

From Stdlib Require Import ZArith QArith Qround Floats List Lia Lra Psatz String Ascii Bool.
From Stdlib Require Import Sorted.
Import ListNotations.
Open Scope Z_scope.

(** ** The Python layer *)

Module Py.

(** *** Exceptions and results *)

Inductive exn : Set :=
| ZeroDivisionError
| IndexError
| KeyError
| ValueError
| OverflowError.

Inductive result (A : Type) : Type :=
| Ok (a : A)
| Raise (e : exn).

Arguments Ok {A} a.
Arguments Raise {A} e.

Class Monad (M : Type -> Type) : Type := {
  ret : forall {A : Type}, A -> M A;
  bind : forall {A B : Type}, M A -> (A -> M B) -> M B
}.

Declare Scope py_scope.
Delimit Scope py_scope with py.

Notation "x <- c ;; k" := (bind c (fun x => k))
  (at level 61, c at next level, right associativity) : py_scope.
Notation "' pat <- c ;; k" := (bind c (fun x => match x with pat => k end))
  (at level 61, pat pattern, c at next level, right associativity) : py_scope.

Open Scope py_scope.

#[export] Instance result_monad : Monad result := {
  ret := fun A a => Ok a;
  bind := fun A B c k => match c with Ok a => k a | Raise e => Raise e end
}.

(** *** Python floats *)

Class PyFloat (F : Type) : Type := {
  of_int : Z -> F;                 (* float(n) *)
  dec : Z -> nat -> F;             (* the literal m * 10^-k *)
  fadd : F -> F -> F;
  fsub : F -> F -> F;
  fmul : F -> F -> F;
  fdiv : F -> F -> F;              (* the quotient, for a divisor that is not zero *)
  feqb : F -> F -> bool;
  fltb : F -> F -> bool;
  fleb : F -> F -> bool;
  to_int : F -> result Z;          (* int(x): truncation toward zero; raises on inf, nan *)
  round_nd : F -> nat -> F         (* round(x, ndigits) *)
}.

Notation "x ⊕ y" := (fadd x y) (at level 50, left associativity) : py_scope.
Notation "x ⊖ y" := (fsub x y) (at level 50, left associativity) : py_scope.
Notation "x ⊗ y" := (fmul x y) (at level 40, left associativity) : py_scope.

(** Rounding half to even of the rational [n / d], [d > 0]. *)
Definition round_half_even (n d : Z) : Z :=
  let q := n / d in
  let r := n mod d in
  if 2 * r <? d then q
  else if d <? 2 * r then q + 1
  else if Z.even q then q else q + 1.

(** **** Exact rationals *)

Definition Q_of_dec (m : Z) (k : nat) : Q := Qred (m # Pos.of_nat (Nat.pow 10 k)).

Definition Q_to_int (x : Q) : result Z := Ok (Z.quot (Qnum x) (Zpos (Qden x))).

Definition Q_round_nd (x : Q) (k : nat) : Q :=
  let p := Pos.of_nat (Nat.pow 10 k) in
  Qred (round_half_even (Qnum x * Zpos p) (Zpos (Qden x)) # p).

#[export] Instance Q_float : PyFloat Q := {
  of_int := inject_Z;
  dec := Q_of_dec;
  fadd := fun x y => Qred (x + y);
  fsub := fun x y => Qred (x - y);
  fmul := fun x y => Qred (x * y);
  fdiv := fun x y => Qred (x / y);
  feqb := Qeq_bool;
  fltb := fun x y => negb (Qle_bool y x);
  fleb := Qle_bool;
  to_int := Q_to_int;
  round_nd := Q_round_nd
}.

(** **** IEEE binary64 *)

(** [float(n)]: the binary64 value nearest to the integer [n]. *)
Definition b64_of_int (z : Z) : float :=
  SF2Prim (binary_normalize prec emax z 0 false).

(** A decimal literal whose digits and power of ten are both below [2^53]
    is the correctly rounded quotient of the two. *)
Definition b64_of_dec (m : Z) (k : nat) : float :=
  PrimFloat.div (b64_of_int m) (b64_of_int (10 ^ Z.of_nat k)).

(** [int(x)]: [OverflowError] on an infinity, [ValueError] on a NaN. *)
Definition b64_to_int (x : float) : result Z :=
  match Prim2SF x with
  | S754_zero _ => Ok 0
  | S754_finite s m e =>
      let v := if 0 <=? e then Zpos m * 2 ^ e else Zpos m / 2 ^ (- e) in
      Ok (if s then - v else v)
  | S754_infinity _ => Raise OverflowError
  | S754_nan => Raise ValueError
  end.

(** The binary64 nearest to [q / p], ties to even, for [0 <= q] and
    [0 < p]: the quotient is taken with three bits more than the format
    holds at least, and a sticky bit for the remainder. *)
Definition b64_of_ratio (q p : Z) : float :=
  let s := Z.max 0 (56 + Z.log2 p - Z.log2 q) in
  let n := (q * 2 ^ s) / p in
  let sticky := if (q * 2 ^ s) mod p =? 0 then 0 else 1 in
  SF2Prim (binary_normalize prec emax (2 * n + sticky) (- s - 1) false).

(** [round(x, k)], [k >= 0]: the exact value of [x] is rounded half to
    even to [k] decimals, and the decimal obtained is read back as the
    nearest binary64.  An [x] without fractional bits, an infinity and a
    NaN are returned as they are. *)
Definition b64_round_nd (x : float) (k : nat) : float :=
  match Prim2SF x with
  | S754_finite s m e =>
      if 0 <=? e then x
      else
        let p := 10 ^ Z.of_nat k in
        let q := round_half_even (Zpos m * p) (2 ^ (- e)) in
        let r := b64_of_ratio q p in
        if s then PrimFloat.opp r else r
  | _ => x
  end.

#[export] Instance b64_float : PyFloat float := {
  of_int := b64_of_int;
  dec := b64_of_dec;
  fadd := PrimFloat.add;
  fsub := PrimFloat.sub;
  fmul := PrimFloat.mul;
  fdiv := PrimFloat.div;
  feqb := PrimFloat.eqb;
  fltb := PrimFloat.ltb;
  fleb := PrimFloat.leb;
  to_int := b64_to_int;
  round_nd := b64_round_nd
}.

Section FloatOps.
Context {F : Type} `{PyFloat F}.

(** [x / y] raises [ZeroDivisionError] on a zero divisor. *)
Definition truediv (x y : F) : result F :=
  if feqb y (of_int 0) then Raise ZeroDivisionError else Ok (fdiv x y).

(** [x / n] and [a / b] for ints [n], [a], [b]: [float(n)] is zero exactly
    when [n] is. *)
Definition truediv_int (x : F) (n : Z) : result F :=
  if n =? 0 then Raise ZeroDivisionError else Ok (fdiv x (of_int n)).

Definition int_truediv (a b : Z) : result F :=
  if b =? 0 then Raise ZeroDivisionError else Ok (fdiv (of_int a) (of_int b)).

(** [sum(xs)]: the integer [0], then the elements from left to right. *)
Definition sum (xs : list F) : F := fold_left fadd xs (of_int 0).
End FloatOps.


(** *** The module [random]

    The generator's state: [draws s i] is the [i]-th raw draw of the
    sequence seeded with [s]; [cur] and [pos] say where the generator
    stands; [reseeds] counts the calls of [random.seed()] (each takes fresh
    entropy from the operating system). *)

Inductive seed : Set :=
| SeedInt (z : Z)
| SeedOS (n : nat).

Record rng_state : Type := {
  draws : seed -> nat -> Z;
  cur : seed;
  pos : nat;
  reseeds : nat
}.

Definition rand (A : Type) : Type := rng_state -> result (A * rng_state).

#[export] Instance rand_monad : Monad rand := {
  ret := fun A a g => Ok (a, g);
  bind := fun A B c k g =>
    match c g with
    | Ok (a, g') => k a g'
    | Raise e => Raise e
    end
}.

Definition raise {A : Type} (e : exn) : rand A := fun _ => Raise e.

Definition lift {A : Type} (r : result A) : rand A :=
  fun g => match r with Ok a => Ok (a, g) | Raise e => Raise e end.

Definition next_draw : rand Z :=
  fun g => Ok (draws g (cur g) (pos g),
               {| draws := draws g; cur := cur g; pos := S (pos g); reseeds := reseeds g |}).

(** [random.seed(z)] *)
Definition seed_int (z : Z) : rand unit :=
  fun g => Ok (tt, {| draws := draws g; cur := SeedInt z; pos := O; reseeds := reseeds g |}).

(** [random.seed()] *)
Definition seed_os : rand unit :=
  fun g => Ok (tt, {| draws := draws g; cur := SeedOS (reseeds g); pos := O;
                      reseeds := S (reseeds g) |}).

(** [_randbelow(n)], [n > 0]: any of [0 .. n-1]. *)
Definition randbelow (n : Z) : rand Z :=
  x <- next_draw ;; ret (x mod n).

(** [random.randint(a, b)] *)
Definition randint (a b : Z) : rand Z :=
  if 0 <? b + 1 - a then (j <- randbelow (b + 1 - a) ;; ret (a + j))
  else raise ValueError.

(** [random.choice(seq)] *)
Definition choice {A : Type} (seq : list A) : rand A :=
  match seq with
  | [] => raise IndexError
  | _ :: _ =>
      j <- randbelow (Z.of_nat (List.length seq)) ;;
      match nth_error seq (Z.to_nat j) with
      | Some x => ret x
      | None => raise IndexError
      end
  end.

(** [x[i], x[j] = x[j], x[i]] *)
Fixpoint set_nth {A : Type} (i : nat) (v : A) (l : list A) : list A :=
  match l, i with
  | [], _ => []
  | _ :: t, O => v :: t
  | h :: t, S i' => h :: set_nth i' v t
  end.

Definition swap {A : Type} (i j : nat) (l : list A) : list A :=
  match nth_error l i, nth_error l j with
  | Some a, Some b => set_nth j a (set_nth i b l)
  | _, _ => l
  end.

(** [random.shuffle(x)]: for [i] from [len(x) - 1] down to [1], swap
    [x[i]] with [x[_randbelow(i + 1)]]. *)
Fixpoint shuffle_from {A : Type} (i : nat) (x : list A) : rand (list A) :=
  match i with
  | O => ret x
  | S i' =>
      j <- randbelow (Z.of_nat i + 1) ;;
      shuffle_from i' (swap i (Z.to_nat j) x)
  end.

Definition shuffle {A : Type} (x : list A) : rand (list A) :=
  shuffle_from (List.length x - 1) x.

Section RandomFloats.
Context {F : Type} `{PyFloat F}.

(** [random.random()]: a multiple of [2^-53] in [[0, 1)]. *)
Definition random : rand F :=
  x <- next_draw ;; ret (fdiv (of_int (x mod 2 ^ 53)) (of_int (2 ^ 53))).

(** [random.uniform(a, b)] is [a + (b - a) * random()]. *)
Definition uniform (a b : F) : rand F :=
  r <- random ;; ret (a ⊕ (b ⊖ a) ⊗ r).

(** [itertools.accumulate(weights)] *)
Fixpoint accumulate_from (acc : F) (ws : list F) : list F :=
  match ws with
  | [] => []
  | w :: ws' => (acc ⊕ w) :: accumulate_from (acc ⊕ w) ws'
  end.

Definition accumulate (ws : list F) : list F :=
  match ws with
  | [] => []
  | w :: ws' => w :: accumulate_from w ws'
  end.

(** [bisect(a, x, 0, hi)] on a non-decreasing [a]: the first index below
    [hi] whose entry exceeds [x], else [hi]. *)
Fixpoint bisect (a : list F) (x : F) (hi : nat) : nat :=
  match hi, a with
  | O, _ => O
  | _, [] => O
  | S hi', v :: a' => if fltb x v then O else S (bisect a' x hi')
  end.

(** [random.choices(population, weights=weights, k=1)[0]] *)
Definition choices1 {A : Type} (population : list A) (weights : list F) : rand A :=
  let cum_weights := accumulate weights in
  if negb (List.length cum_weights =? List.length population)%nat then raise ValueError
  else
    match rev cum_weights with
    | [] => raise IndexError
    | last :: _ =>
        let total := last ⊕ dec 0 1 in
        if fleb total (dec 0 1) then raise ValueError
        else
          r <- random ;;
          match nth_error population
                  (bisect cum_weights (r ⊗ total) (List.length population - 1)) with
          | Some x => ret x
          | None => raise IndexError
          end
    end.
End RandomFloats.

(** *** [datetime] *)

Record datetime : Set := {
  ordinal : Z;   (* toordinal() *)
  seconds : Z    (* second of the day, 0 .. 86399 *)
}.

Definition DAYS_IN_MONTH (m : Z) : Z :=
  nth (Z.to_nat m) [-1; 31; 28; 31; 30; 31; 30; 31; 31; 30; 31; 30; 31] 0.

Definition DAYS_BEFORE_MONTH (m : Z) : Z :=
  nth (Z.to_nat m) [-1; 0; 31; 59; 90; 120; 151; 181; 212; 243; 273; 304; 334] 0.

Definition is_leap (y : Z) : bool :=
  (y mod 4 =? 0) && (negb (y mod 100 =? 0) || (y mod 400 =? 0)).

Definition days_before_year (year : Z) : Z :=
  let y := year - 1 in y * 365 + y / 4 - y / 100 + y / 400.

Definition days_before_month (year month : Z) : Z :=
  DAYS_BEFORE_MONTH month + (if (2 <? month) && is_leap year then 1 else 0).

Definition ymd2ord (year month day : Z) : Z :=
  days_before_year year + days_before_month year month + day.

Definition ord2ymd (n : Z) : Z * Z * Z :=
  let n := n - 1 in
  let n400 := n / 146097 in
  let n := n mod 146097 in
  let year := n400 * 400 + 1 in
  let n100 := n / 36524 in
  let n := n mod 36524 in
  let n4 := n / 1461 in
  let n := n mod 1461 in
  let n1 := n / 365 in
  let n := n mod 365 in
  let year := year + n100 * 100 + n4 * 4 + n1 in
  if (n1 =? 4) || (n100 =? 4) then (year - 1, 12, 31)
  else
    let leapyear := (n1 =? 3) && (negb (n4 =? 24) || (n100 =? 3)) in
    let month := Z.shiftr (n + 50) 5 in
    let preceding :=
      DAYS_BEFORE_MONTH month + (if (2 <? month) && leapyear then 1 else 0) in
    if n <? preceding then
      let month := month - 1 in
      let preceding :=
        preceding - (DAYS_IN_MONTH month + (if (month =? 2) && leapyear then 1 else 0)) in
      (year, month, n - preceding + 1)
    else (year, month, n - preceding + 1).

(** [datetime(year, month, day, hour, minute, second)] for a valid date. *)
Definition mk_datetime (year month day hour minute second : Z) : datetime :=
  {| ordinal := ymd2ord year month day;
     seconds := hour * 3600 + minute * 60 + second |}.

Definition year (d : datetime) : Z := fst (fst (ord2ymd (ordinal d))).
Definition month (d : datetime) : Z := snd (fst (ord2ymd (ordinal d))).
Definition day (d : datetime) : Z := snd (ord2ymd (ordinal d)).
Definition weekday (d : datetime) : Z := (ordinal d + 6) mod 7.
Definition toordinal (d : datetime) : Z := ordinal d.

(** [a <= b] and [a < b] on datetimes *)
Definition dt_leb (a b : datetime) : bool :=
  (ordinal a <? ordinal b) || ((ordinal a =? ordinal b) && (seconds a <=? seconds b)).

Definition dt_ltb (a b : datetime) : bool :=
  (ordinal a <? ordinal b) || ((ordinal a =? ordinal b) && (seconds a <? seconds b)).

(** [d + timedelta(days=n)] *)
Definition add_days (d : datetime) (n : Z) : datetime :=
  {| ordinal := ordinal d + n; seconds := seconds d |}.

(** [(a - b).days] *)
Definition days_between (a b : datetime) : Z :=
  ((ordinal a - ordinal b) * 86400 + (seconds a - seconds b)) / 86400.

(** *** Formatting *)

Definition digit (d : Z) : ascii := ascii_of_nat (48 + Z.to_nat d).

(** The [w] low decimal digits of [n], put before [acc]. *)
Fixpoint zero_padded (w : nat) (n : Z) (acc : string) : string :=
  match w with
  | O => acc
  | S w' => zero_padded w' (n / 10) (String (digit (n mod 10)) acc)
  end.

(** The least width from [k] on that holds [n]. *)
Fixpoint width_from (fuel k : nat) (n : Z) : nat :=
  match fuel with
  | O => k
  | S fuel' => if n <? 10 ^ Z.of_nat k then k else width_from fuel' (S k) n
  end.

(** [f"{n:04d}"], [n >= 0] *)
Definition format_04d (n : Z) : string :=
  zero_padded (width_from (Z.to_nat n) 4 n) n "".

(** [d.strftime("%Y%m%d")], for a year of four digits *)
Definition strftime_Ymd (d : datetime) : string :=
  zero_padded 4 (year d) (zero_padded 2 (month d) (zero_padded 2 (day d) "")).

(** [d.strftime("%Y-%m-%d")] *)
Definition strftime_Y_m_d (d : datetime) : string :=
  zero_padded 4 (year d)
    (String "-" (zero_padded 2 (month d) (String "-" (zero_padded 2 (day d) "")))).

(** [d.strftime("%H:%M:%S")] *)
Definition strftime_HMS (d : datetime) : string :=
  zero_padded 2 (seconds d / 3600)
    (String ":" (zero_padded 2 (seconds d / 60 mod 60)
       (String ":" (zero_padded 2 (seconds d mod 60) "")))).

(** [x in xs] for strings *)
Definition str_in (x : string) (xs : list string) : bool :=
  existsb (String.eqb x) xs.

(** [xs * n] for lists *)
Fixpoint list_times {A : Type} (xs : list A) (n : nat) : list A :=
  match n with
  | O => []
  | S n' => xs ++ list_times xs n'
  end.

(** [datetime.strptime(s, "%Y-%m-%d")], for the strings [strftime] writes:
    four, two and two digits between dashes. *)
Definition digit_value (c : ascii) : option Z :=
  let n := Z.of_nat (nat_of_ascii c) in
  if (48 <=? n) && (n <=? 57) then Some (n - 48) else None.

Fixpoint digits_value (s : string) (acc : Z) : option Z :=
  match s with
  | EmptyString => Some acc
  | String c s' =>
      match digit_value c with
      | Some d => digits_value s' (10 * acc + d)
      | None => None
      end
  end.

Definition strptime_Y_m_d (s : string) : result datetime :=
  match digits_value (substring 0 4 s) 0,
        digits_value (substring 5 2 s) 0,
        digits_value (substring 8 2 s) 0 with
  | Some y, Some m, Some d =>
      if (String.length s =? 10)%nat
         && String.eqb (substring 4 1 s) "-" && String.eqb (substring 7 1 s) "-"
         && (1 <=? y) && (1 <=? m) && (m <=? 12) && (1 <=? d)
         && (d <=? DAYS_IN_MONTH m + (if (m =? 2) && is_leap y then 1 else 0))
      then Ok (mk_datetime y m d 0 0 0)
      else Raise ValueError
  | _, _, _ => Raise ValueError
  end.

(** [sorted(xs)] for strings, and a stable sort by decreasing count. *)
Fixpoint insert_sorted (x : string) (xs : list string) : list string :=
  match xs with
  | [] => [x]
  | y :: ys => if String.leb x y then x :: xs else y :: insert_sorted x ys
  end.

Definition sorted (xs : list string) : list string :=
  fold_right insert_sorted [] xs.

(** [len(set(xs))] for strings *)
Definition count_distinct (xs : list string) : Z :=
  Z.of_nat (List.length (nodup string_dec xs)).

(** [s.split()] and [s.upper()], for ASCII text *)
Definition is_space (c : ascii) : bool :=
  let n := nat_of_ascii c in
  ((9 <=? n) && (n <=? 13) || (28 <=? n) && (n <=? 32))%nat.

Fixpoint split_from (s : string) (word : string) : list string :=
  match s with
  | EmptyString => match word with EmptyString => [] | _ => [word] end
  | String c s' =>
      if is_space c
      then match word with
           | EmptyString => split_from s' EmptyString
           | _ => word :: split_from s' EmptyString
           end
      else split_from s' (word ++ String c EmptyString)
  end.

Definition split (s : string) : list string := split_from s EmptyString.

Definition upper_char (c : ascii) : ascii :=
  let n := nat_of_ascii c in
  if ((97 <=? n) && (n <=? 122))%nat then ascii_of_nat (n - 32) else c.

Fixpoint upper (s : string) : string :=
  match s with
  | EmptyString => EmptyString
  | String c s' => String (upper_char c) (upper s')
  end.

(** [d[k] = v] *)
Fixpoint dict_set {V : Type} (d : list (string * V)) (k : string) (v : V)
    : list (string * V) :=
  match d with
  | [] => [(k, v)]
  | (k', v') :: d' =>
      if String.eqb k' k then (k', v) :: d' else (k', v') :: dict_set d' k v
  end.

(** A [dict] with string keys, in insertion order. *)
Fixpoint dict_get {V : Type} (d : list (string * V)) (k : string) : option V :=
  match d with
  | [] => None
  | (k', v) :: d' => if String.eqb k' k then Some v else dict_get d' k
  end.

(** [datetime(year, month, day)]: [ValueError] unless the date exists. *)
Definition datetime_ymd (year month day : Z) : result datetime :=
  if (1 <=? year) && (year <=? 9999) && (1 <=? month) && (month <=? 12) && (1 <=? day)
     && (day <=? DAYS_IN_MONTH month + (if (month =? 2) && is_leap year then 1 else 0))
  then Ok (mk_datetime year month day 0 0 0)
  else Raise ValueError.

(** [x in s] and [s.add(x)] for a set of ints, kept as the list of its
    elements. *)
Definition set_mem (x : Z) (s : list Z) : bool := existsb (Z.eqb x) s.

Definition set_add (x : Z) (s : list Z) : list Z :=
  if set_mem x s then s else (s ++ [x])%list.

(** What the body of a [while] loop hands back: go on with the next
    iteration ([continue], or the end of the body) or leave the loop
    ([break]). *)
Inductive loop_ctl (S : Type) : Type :=
| Continue (s : S)
| Break (s : S).

Arguments Continue {S} s.
Arguments Break {S} s.

End Py.

(** ** [scripts/generate_history_v3.py] *)

Module HistoryV3.
Import Py.

Inductive EventSource : Set :=
| NONE
| STORE_DISCOUNT
| MANUFACTURER_CAMPAIGN
| HOLIDAY.

Definition EventSource_value (s : EventSource) : string :=
  match s with
  | NONE => ""
  | STORE_DISCOUNT => "STORE_DISCOUNT"
  | MANUFACTURER_CAMPAIGN => "MANUFACTURER_CAMPAIGN"
  | HOLIDAY => "HOLIDAY"
  end.

Module BrandCampaign.
Record t {F : Type} : Type := mk {
  name : string;
  brand : string;
  start_date : datetime;
  end_date : datetime;
  multiplier : F;
  source : EventSource
}.
Arguments t : clear implicits.
Arguments mk {F}.
End BrandCampaign.

Module StorePromo.
Record t {F : Type} : Type := mk {
  name : string;
  product_barcodes : list string;
  start_date : datetime;
  end_date : datetime;
  multiplier : F;
  source : EventSource
}.
Arguments t : clear implicits.
Arguments mk {F}.
End StorePromo.

Module Holiday.
Record t {F : Type} : Type := mk {
  name : string;
  date : datetime;
  duration_days : Z;
  multiplier : F;
  source : EventSource
}.
Arguments t : clear implicits.
Arguments mk {F}.
End Holiday.

(** An entry of [PRODUCTS]; an absent [wholesale_only] or [never_sell] key
    reads as [False], an absent [hero_boost] as [None]. *)
Module Product.
Record t {F : Type} : Type := mk {
  barcode : string;
  name : string;
  brand : string;
  category : string;
  base_retail : F;
  base_cost : F;
  wholesale_only : bool;
  never_sell : bool;
  hero_boost : option F
}.
Arguments t : clear implicits.
Arguments mk {F}.
End Product.

(** [{**p, "retail_price": retail, "cost_price": cost}] *)
Module Priced.
Record t {F : Type} : Type := mk {
  product : Product.t F;
  retail_price : F;
  cost_price : F
}.
Arguments t : clear implicits.
Arguments mk {F}.
End Priced.

(** [{**product, "quantity": qty, "subtotal": ..., "cost_total": ...}] *)
Module Item.
Record t {F : Type} : Type := mk {
  priced : Priced.t F;
  quantity : Z;
  subtotal : F;
  cost_total : F
}.
Arguments t : clear implicits.
Arguments mk {F}.
End Item.

(** A line of the sales history. *)
Module Row.
Record t {F : Type} : Type := mk {
  transaction_id : string;
  date : string;
  time : string;
  customer_type : string;
  barcode : string;
  product_name : string;
  brand : string;
  category : string;
  quantity : Z;
  unit_price : F;
  cost_price : F;
  subtotal : F;
  cost_total : F;
  profit : F;
  payment_method : string;
  is_event : bool;
  event_source : string;
  event_name : string;
  inflation_factor : F
}.
Arguments t : clear implicits.
Arguments mk {F}.
End Row.

Module ProfileConfig.
Record t {F : Type} : Type := mk {
  weight : F;
  items_range : Z * Z;
  ticket_range : Z * Z;
  qty_per_item : Z * Z
}.
Arguments t : clear implicits.
Arguments mk {F}.
End ProfileConfig.

(** What one iteration of the transaction loop computes: the totals and the
    lines appended to the history. *)
Module Tx.
Record t {F : Type} : Type := mk {
  tx_total : F;
  tx_cost : F;
  rows : list (Row.t F)
}.
Arguments t : clear implicits.
Arguments mk {F}.
End Tx.

Definition START_DATE : datetime := mk_datetime 2024 1 1 0 0 0.

Definition BASE_DAILY_REVENUE_TARGET : Z := 82500.

Definition BASE_DAILY_TRANSACTIONS : Z := 110.

Definition PAYMENT_METHODS : list string :=
  (list_times ["CASH"%string] 7 ++ list_times ["GCASH"%string] 3)%list.

Section Generator.
Context {F : Type} `{PyFloat F}.
Local Open Scope string_scope.
Local Open Scope Z_scope.

Definition ANNUAL_INFLATION_RATE : F := dec 45 3.

Definition CUSTOMER_PROFILES : list (string * ProfileConfig.t F) :=
  [ ("SNACKER", ProfileConfig.mk (dec 70 2) (1, 2) (15, 150) (1, 1));
    ("HOUSEHOLD", ProfileConfig.mk (dec 20 2) (3, 8) (300, 1500) (1, 2));
    ("VENDOR", ProfileConfig.mk (dec 10 2) (5, 15) (1500, 8000) (3, 12)) ].

Let mkProduct := @Product.mk F.

Definition PRODUCTS : list (Product.t F) := [
  mkProduct "544900000099" "Coca-Cola Mismo 295ml" "Coca-Cola" "SODA"
    (dec 2000 2) (dec 1800 2) false false None;
  mkProduct "480198112005" "Sprite 500ml" "Coca-Cola" "SODA"
    (dec 2500 2) (dec 2250 2) false false None;
  mkProduct "480198112010" "Royal Tru Orange 500ml" "Coca-Cola" "SODA"
    (dec 2500 2) (dec 2250 2) false false None;
  mkProduct "480198112000" "Coke 500ml" "Coca-Cola" "SODA"
    (dec 2500 2) (dec 2250 2) false false None;
  mkProduct "480392525114" "Mountain Dew 500ml" "Pepsi" "SODA"
    (dec 2200 2) (dec 2000 2) false false None;
  mkProduct "480392525110" "Pepsi 500ml" "Pepsi" "SODA"
    (dec 2200 2) (dec 2000 2) false false None;
  mkProduct "480198111607" "Coke 1.5L" "Coca-Cola" "SODA"
    (dec 6000 2) (dec 5400 2) false false None;
  mkProduct "480198118062" "Sprite 1.5L" "Coca-Cola" "SODA"
    (dec 6000 2) (dec 5400 2) false false None;
  mkProduct "480191198062" "Royal Tru Orange 1.5L" "Coca-Cola" "SODA"
    (dec 6000 2) (dec 5400 2) false false None;
  mkProduct "480392515114" "Mountain Dew 1.5L" "Pepsi" "SODA"
    (dec 5500 2) (dec 5000 2) false false None;
  mkProduct "480392515110" "Pepsi 1.5L" "Pepsi" "SODA"
    (dec 5500 2) (dec 5000 2) false false None;
  mkProduct "480198111664" "Coke Zero 1.5L" "Coca-Cola" "SODA"
    (dec 6000 2) (dec 5400 2) false false None;
  mkProduct "480392515112" "7-up 1.5L" "Pepsi" "SODA"
    (dec 5500 2) (dec 5000 2) false false None;
  mkProduct "480198109722" "Royal Tru Strawberry 1.5L" "Coca-Cola" "SODA"
    (dec 6000 2) (dec 5400 2) false false None;
  mkProduct "480392515116" "Mirinda Orange 1.5L" "Pepsi" "SODA"
    (dec 6000 2) (dec 5400 2) false false None;
  mkProduct "480198111696" "Coke Light 1.5L" "Coca-Cola" "SODA"
    (dec 6500 2) (dec 5850 2) false false None;
  mkProduct "480198112717" "Coke Swakto 195ml (1 Case)" "Coca-Cola" "SOFTDRINKS_CASE"
    (dec 12500 2) (dec 11200 2) true false None;
  mkProduct "480198112720" "Royal Swakto 195ml (1 Case)" "Coca-Cola" "SOFTDRINKS_CASE"
    (dec 12500 2) (dec 11200 2) true false None;
  mkProduct "480198102719" "Sprite Swakto 195ml (1 Case)" "Coca-Cola" "SOFTDRINKS_CASE"
    (dec 12500 2) (dec 11200 2) true false None;
  mkProduct "480392513032" "Mountain Dew 290ml (1 Case)" "Pepsi" "SOFTDRINKS_CASE"
    (dec 20000 2) (dec 18000 2) true false None;
  mkProduct "480374937310" "Coke 1L (1 Case)" "Coca-Cola" "SOFTDRINKS_CASE"
    (dec 35000 2) (dec 31500 2) true false None;
  mkProduct "480611352020" "Juicy Lemon 237 ml (1 Bundle)" "Coca-Cola" "SOFTDRINKS_CASE"
    (dec 14100 2) (dec 12700 2) true false None;
  mkProduct "480732471900" "Sprite 1L (1 Case)" "Coca-Cola" "SOFTDRINKS_CASE"
    (dec 35000 2) (dec 31500 2) true false None;
  mkProduct "542353276241" "Royal 1L (1 Case)" "Coca-Cola" "SOFTDRINKS_CASE"
    (dec 35000 2) (dec 31500 2) true false None;
  mkProduct "955600121722" "Milo 22g Sachet" "Nestle" "BEVERAGES"
    (dec 1200 2) (dec 1050 2) false false None;
  mkProduct "480036141081" "Nestle Bear Brand Fortified 33g" "Nestle" "BEVERAGES"
    (dec 1150 2) (dec 1000 2) false false None;
  mkProduct "480864731007" "Tang Orange 250g" "Tang" "BEVERAGES"
    (dec 21600 2) (dec 19500 2) false false None;
  mkProduct "965412919731" "Energen Cereal Milk Chocolate Drink 40g" "Energen" "BEVERAGES"
    (dec 900 2) (dec 800 2) false false None;
  mkProduct "965412919613" "Energen Cereal Drink Mix Vanilla Hanger 40g" "Energen" "BEVERAGES"
    (dec 860 2) (dec 750 2) false false None;
  mkProduct "489120804013" "Oishi Prawn Crackers 60g" "Oishi" "SNACK"
    (dec 1760 2) (dec 1550 2) false false None;
  mkProduct "893921341445" "San Sky Flakes Crackers Original 25g x 10s" "M.Y. San" "SNACK"
    (dec 5840 2) (dec 5250 2) false false None;
  mkProduct "893951811445" "Hansel Mocha Sandwich" "Rebisco" "SNACK"
    (dec 6020 2) (dec 5400 2) false false None;
  mkProduct "748485200019" "555 Sardines in Tomato Sauce 155g" "555" "CANNED_GOODS"
    (dec 2500 2) (dec 2200 2) false false None;
  mkProduct "748485800035" "Argentina Corned Beef 260g" "Argentina" "CANNED_GOODS"
    (dec 5750 2) (dec 5200 2) false false None;
  mkProduct "480002201028" "Hunts Pork & Beans 100g Doy" "Hunts" "CANNED_GOODS"
    (dec 1450 2) (dec 1300 2) false false None;
  mkProduct "480057511015" "Alaska Classic Evaporated Filled Milk 140ml" "Alaska" "DAIRY"
    (dec 2820 2) (dec 2550 2) false false None;
  mkProduct "480057513016" "Alaska Condensada Sweetened Condensed Creamer 168ml" "Alaska" "DAIRY"
    (dec 3900 2) (dec 3500 2) false false None;
  mkProduct "480864702009" "Eden Cheese 165g" "Mondelez" "DAIRY"
    (dec 7800 2) (dec 7000 2) false false None;
  mkProduct "480535824701" "Dari Creme Butter Milk 100g" "Dari Creme" "DAIRY"
    (dec 4100 2) (dec 3700 2) false false None;
  mkProduct "000008586780" "Datu Puti Patis 1L" "Datu Puti" "CONDIMENTS"
    (dec 8085 2) (dec 7300 2) false false None;
  mkProduct "642611907726" "Ajinomoto Seasoning Mix 50g" "Ajinomoto" "CONDIMENTS"
    (dec 1300 2) (dec 1150 2) false false None;
  mkProduct "642647382226" "Sisters Night Plus Cottony Napkin" "Sisters" "PERSONAL_CARE"
    (dec 4450 2) (dec 4000 2) false false None;
  mkProduct "642321541122" "Sisters Overnight Dry" "Sisters" "PERSONAL_CARE"
    (dec 11700 2) (dec 10500 2) false false None;
  mkProduct "672329634182" "Whisper Cottony Soft Clean X-Long Overnight" "Whisper" "PERSONAL_CARE"
    (dec 12800 2) (dec 11500 2) false false None;
  mkProduct "480088814685" "Sunsilk Strong & Long 350ml" "Sunsilk" "PERSONAL_CARE"
    (dec 15000 2) (dec 13500 2) false false None;
  mkProduct "870021639476" "Downy Sunrise Fresh Fabric Conditioner Sachet 20ml" "Downy" "HOUSEHOLD"
    (dec 700 2) (dec 600 2) false false None;
  mkProduct "480004784003" "Zonrox Original Bleach 250ml" "Zonrox" "HOUSEHOLD"
    (dec 3800 2) (dec 3400 2) false false None;
  mkProduct "037000359562" "Ariel With a Touch of Downy Freshness Powder" "Ariel" "HOUSEHOLD"
    (dec 66000 2) (dec 59500 2) false false None;
  mkProduct "490243086729" "Joy Dishwashing Liquid Lemon 475ml" "Joy" "HOUSEHOLD"
    (dec 13400 2) (dec 12000 2) false false None;
  mkProduct "490243078997" "Joy Dishwashing Liquid Lemon Sachet 40ml" "Joy" "HOUSEHOLD"
    (dec 1200 2) (dec 1050 2) false false None;
  mkProduct "480004210014" "UFC Premium Banana Ketchup 320g" "UFC" "DEAD_STOCK"
    (dec 6500 2) (dec 5800 2) false true None;
  mkProduct "489310100015" "Lucky Me Pancit Canton with Kalamnsi 60g" "Lucky Me" "INSTANT_NOODLES"
    (dec 1250 2) (dec 1100 2) false false (Some (dec 30 1))
].

(** *** Inflation *)

Definition get_inflation_factor (date : datetime) : F :=
  let days_from_start := days_between date START_DATE in
  let years_from_start := fdiv (of_int days_from_start) (dec 36525 2) in
  of_int 1 ⊕ (ANNUAL_INFLATION_RATE ⊗ years_from_start).

Definition get_inflated_prices (product : Product.t F) (date : datetime) : F * F :=
  let factor := get_inflation_factor date in
  let retail := round_nd (Product.base_retail product ⊗ factor) 2 in
  let cost := round_nd (Product.base_cost product ⊗ factor) 2 in
  (retail, cost).

Definition get_daily_revenue_target (date : datetime) : F :=
  let factor := get_inflation_factor date in
  of_int BASE_DAILY_REVENUE_TARGET ⊗ factor.

(** *** Multipliers *)

Definition get_seasonality_multiplier (date : datetime) (category : string) : F :=
  let month := month date in
  if month =? 12 then dec 15 1
  else if month =? 11 then dec 12 1
  else if ((month =? 4) || (month =? 5))
          && str_in category ["BEVERAGES"; "SODA"; "SOFTDRINKS_CASE"] then dec 14 1
  else if (month =? 3) || (month =? 4) then dec 11 1
  else if month =? 8 then dec 115 2
  else dec 10 1.

Definition get_payday_multiplier (date : datetime) : F :=
  let day := day date in
  if (day =? 15) || (day =? 30) || (day =? 31) then dec 14 1
  else if (day =? 14) || (day =? 16) || (day =? 29) then dec 12 1
  else dec 10 1.

Definition get_day_of_week_multiplier (date : datetime) : F :=
  let day := weekday date in
  if day =? 5 then dec 13 1
  else if day =? 6 then dec 125 2
  else if day =? 4 then dec 115 2
  else dec 10 1.

Fixpoint is_within_campaign (date : datetime) (campaigns : list (BrandCampaign.t F))
    (brand : string) : bool * option (BrandCampaign.t F) :=
  match campaigns with
  | [] => (false, None)
  | campaign :: rest =>
      if String.eqb (BrandCampaign.brand campaign) brand
         && dt_leb (BrandCampaign.start_date campaign) date
         && dt_leb date (BrandCampaign.end_date campaign)
      then (true, Some campaign)
      else is_within_campaign date rest brand
  end.

Fixpoint is_within_store_promo (date : datetime) (promos : list (StorePromo.t F))
    (barcode : string) : bool * option (StorePromo.t F) :=
  match promos with
  | [] => (false, None)
  | promo :: rest =>
      if str_in barcode (StorePromo.product_barcodes promo)
         && dt_leb (StorePromo.start_date promo) date
         && dt_leb date (StorePromo.end_date promo)
      then (true, Some promo)
      else is_within_store_promo date rest barcode
  end.

Fixpoint is_within_holiday (date : datetime) (holidays : list (Holiday.t F))
    : bool * option (Holiday.t F) :=
  match holidays with
  | [] => (false, None)
  | holiday :: rest =>
      let end_date := add_days (Holiday.date holiday) (Holiday.duration_days holiday) in
      if dt_leb (Holiday.date holiday) date && dt_leb date end_date
      then (true, Some holiday)
      else is_within_holiday date rest
  end.

(** *** Transaction time and customer profile *)

Definition hour_weights : list (Z * F) :=
  [ (8, dec 5 1); (9, dec 7 1); (10, dec 9 1); (11, dec 12 1);
    (12, dec 15 1); (13, dec 13 1); (14, dec 10 1); (15, dec 11 1);
    (16, dec 12 1); (17, dec 14 1); (18, dec 13 1) ].

Definition generate_transaction_time (date : datetime) : rand datetime :=
  let hours := map fst hour_weights in
  let weights := map snd hour_weights in
  hour <- choices1 hours weights ;;
  minute <- randint 0 59 ;;
  second <- randint 0 59 ;;
  ret (mk_datetime (year date) (month date) (day date) hour minute second).

Definition select_customer_profile : rand string :=
  let profiles := map fst CUSTOMER_PROFILES in
  let weights := map (fun kv => ProfileConfig.weight (snd kv)) CUSTOMER_PROFILES in
  choices1 profiles weights.

(** *** Basket selection *)

(** The loop over [PRODUCTS] that fills [product_pool] and
    [wholesale_pool]. *)
Definition price_pools (date : datetime) : list (Priced.t F) * list (Priced.t F) :=
  fold_left
    (fun pools p =>
       let '(product_pool, wholesale_pool) := pools in
       if Product.never_sell p then pools
       else
         let '(retail, cost) := get_inflated_prices p date in
         let product_with_prices := Priced.mk p retail cost in
         if Product.wholesale_only p
         then (product_pool, (wholesale_pool ++ [product_with_prices])%list)
         else ((product_pool ++ [product_with_prices])%list, wholesale_pool))
    PRODUCTS ([], []).

(** [p.get("hero_boost", 1)] *)
Definition hero_boost_or_1 (p : Priced.t F) : F :=
  match Product.hero_boost (Priced.product p) with
  | Some b => b
  | None => of_int 1
  end.

(** [int(p.get("hero_boost", 1))] *)
Definition int_hero_boost (p : Priced.t F) : result Z :=
  match Product.hero_boost (Priced.product p) with
  | Some b => to_int b
  | None => Ok 1
  end.

(** The loop that fills [weighted_pool]: each product once, then
    [hero_boost - 1] times more. *)
Fixpoint weighted_pool_of (product_pool : list (Priced.t F))
    : result (list (Priced.t F)) :=
  match product_pool with
  | [] => ret []
  | p :: rest =>
      hero_boost <- int_hero_boost p ;;
      weighted_pool <- weighted_pool_of rest ;;
      ret (p :: repeat p (Z.to_nat (hero_boost - 1)) ++ weighted_pool)%list
  end.

(** The hero products appended to the selection pool. *)
Fixpoint hero_extras (product_pool : list (Priced.t F)) : result (list (Priced.t F)) :=
  match product_pool with
  | [] => ret []
  | p :: rest =>
      extras <- (if fltb (of_int 1) (hero_boost_or_1 p)
                 then (hero_boost <- int_hero_boost p ;;
                       ret (repeat p (Z.to_nat hero_boost)))
                 else ret []) ;;
      more <- hero_extras rest ;;
      ret (extras ++ more)%list
  end.

Definition selection_pool_of (profile : string) (date : datetime)
    : result (list (Priced.t F)) :=
  let '(product_pool, wholesale_pool) := price_pools date in
  let cheap_products :=
    filter (fun p => fleb (Priced.retail_price p) (of_int 30)) product_pool in
  let mid_products :=
    filter (fun p => fltb (of_int 30) (Priced.retail_price p)
                     && fleb (Priced.retail_price p) (of_int 80)) product_pool in
  let expensive_products :=
    filter (fun p => fltb (of_int 80) (Priced.retail_price p)) product_pool in
  weighted_pool <- weighted_pool_of product_pool ;;
  let selection_pool :=
    if String.eqb profile "SNACKER" then
      match cheap_products with
      | [] => weighted_pool
      | _ :: _ => (list_times cheap_products 4 ++ mid_products)%list
      end
    else if String.eqb profile "HOUSEHOLD" then
      (list_times cheap_products 2 ++ list_times mid_products 2 ++ expensive_products)%list
    else (weighted_pool ++ list_times wholesale_pool 3)%list in
  extras <- hero_extras product_pool ;;
  ret (selection_pool ++ extras)%list.

Definition item_barcode (item : Item.t F) : string :=
  Product.barcode (Priced.product (Item.priced item)).

(** One pass through the body of the selection loop, after
    [attempts += 1]. *)
Definition select_step (profile : string) (date : datetime)
    (campaigns : list (BrandCampaign.t F)) (promos : list (StorePromo.t F))
    (min_qty max_qty : Z) (target_max : F) (selection_pool : list (Priced.t F))
    (st : list (Item.t F) * F) : rand (loop_ctl (list (Item.t F) * F)) :=
  let '(selected_items, current_total) := st in
  match selection_pool with
  | [] => ret (Break st)
  | _ :: _ =>
      product <- choice selection_pool ;;
      let retail := Priced.retail_price product in
      qty <- (if Product.wholesale_only (Priced.product product)
              then randint 1 3
              else randint min_qty max_qty) ;;
      let '(in_campaign, _) :=
        is_within_campaign date campaigns (Product.brand (Priced.product product)) in
      let '(in_promo, _) :=
        is_within_store_promo date promos (Product.barcode (Priced.product product)) in
      let qty :=
        if (in_campaign || in_promo) && negb (String.eqb profile "SNACKER")
        then Z.min (qty + 1) (max_qty + 2)
        else qty in
      let item_total := retail ⊗ of_int qty in
      fitted <-
        (if fltb target_max (current_total ⊕ item_total) then
           if String.eqb profile "SNACKER" then ret None
           else
             q <- lift (truediv (target_max ⊖ current_total) retail) ;;
             n <- lift (to_int q) ;;
             let qty := Z.max 1 n in
             if qty <=? 0 then ret None
             else ret (Some (qty, retail ⊗ of_int qty))
         else ret (Some (qty, item_total))) ;;
      match fitted with
      | None => ret (Continue st)
      | Some (qty, item_total) =>
          if existsb
               (fun item =>
                  String.eqb (item_barcode item) (Product.barcode (Priced.product product)))
               selected_items
          then ret (Continue st)
          else
            let selected_items :=
              (selected_items ++
               [Item.mk product qty (round_nd item_total 2)
                  (round_nd (Priced.cost_price product ⊗ of_int qty) 2)])%list in
            let current_total := current_total ⊕ item_total in
            if fleb target_max current_total
            then ret (Break (selected_items, current_total))
            else ret (Continue (selected_items, current_total))
      end
  end.

(** [while len(selected_items) < num_items and attempts < max_attempts],
    by recursion on [max_attempts - attempts]. *)
Fixpoint select_loop (profile : string) (date : datetime)
    (campaigns : list (BrandCampaign.t F)) (promos : list (StorePromo.t F))
    (min_qty max_qty : Z) (target_max : F) (selection_pool : list (Priced.t F))
    (num_items : Z) (remaining : nat) (st : list (Item.t F) * F)
    : rand (list (Item.t F) * F) :=
  match remaining with
  | O => ret st
  | S remaining' =>
      if Z.of_nat (List.length (fst st)) <? num_items then
        c <- select_step profile date campaigns promos min_qty max_qty target_max
               selection_pool st ;;
        match c with
        | Continue st' =>
            select_loop profile date campaigns promos min_qty max_qty target_max
              selection_pool num_items remaining' st'
        | Break st' => ret st'
        end
      else ret st
  end.

Definition get_products_for_profile (profile : string) (date : datetime)
    (campaigns : list (BrandCampaign.t F)) (promos : list (StorePromo.t F))
    : rand (list (Item.t F)) :=
  match dict_get CUSTOMER_PROFILES profile with
  | None => raise KeyError
  | Some config =>
      let '(min_items, max_items) := ProfileConfig.items_range config in
      let '(target_min, target_max) := ProfileConfig.ticket_range config in
      let '(min_qty, max_qty) := ProfileConfig.qty_per_item config in
      let inflation := get_inflation_factor date in
      let target_min := of_int target_min ⊗ inflation in
      let target_max := of_int target_max ⊗ inflation in
      num_items <- randint min_items max_items ;;
      selection_pool <- lift (selection_pool_of profile date) ;;
      selection_pool <- shuffle selection_pool ;;
      let max_attempts := num_items * 5 in
      st <- select_loop profile date campaigns promos min_qty max_qty target_max
              selection_pool num_items (Z.to_nat max_attempts) ([], of_int 0) ;;
      ret (fst st)
  end.

(** *** Daily transactions *)

Definition get_daily_transaction_count (date : datetime) (holidays : list (Holiday.t F))
    : rand Z :=
  let base_count := BASE_DAILY_TRANSACTIONS in
  let seasonality := get_seasonality_multiplier date "" in
  let dow_mult := get_day_of_week_multiplier date in
  let '(in_holiday, holiday) := is_within_holiday date holidays in
  let holiday_mult :=
    match in_holiday, holiday with
    | true, Some h => Holiday.multiplier h
    | _, _ => dec 10 1
    end in
  let payday_mult := get_payday_multiplier date in
  let adjusted_count :=
    of_int base_count ⊗ seasonality ⊗ dow_mult ⊗ holiday_mult ⊗ payday_mult in
  noise <- uniform (dec 85 2) (dec 115 2) ;;
  let adjusted_count := adjusted_count ⊗ noise in
  n <- lift (to_int adjusted_count) ;;
  ret (Z.max 50 n).

(** The line appended for one item of a transaction. *)
Definition transaction_row (date : datetime) (campaigns : list (BrandCampaign.t F))
    (promos : list (StorePromo.t F)) (in_holiday : bool) (holiday : option (Holiday.t F))
    (transaction_id : string) (tx_time : datetime) (profile payment : string)
    (item : Item.t F) : Row.t F :=
  let product := Priced.product (Item.priced item) in
  let '(in_campaign, campaign) :=
    is_within_campaign date campaigns (Product.brand product) in
  let '(in_promo, promo) :=
    is_within_store_promo date promos (Product.barcode product) in
  let is_event := in_campaign || in_promo || in_holiday in
  let '(event_source, event_name) :=
    if in_campaign then
      (EventSource_value MANUFACTURER_CAMPAIGN,
       match campaign with Some c => BrandCampaign.name c | None => "" end)
    else if in_promo then
      (EventSource_value STORE_DISCOUNT,
       match promo with Some p => StorePromo.name p | None => "" end)
    else if in_holiday then
      (EventSource_value HOLIDAY,
       match holiday with Some h => Holiday.name h | None => "" end)
    else ("", "") in
  Row.mk transaction_id (strftime_Y_m_d date) (strftime_HMS tx_time) profile
    (Product.barcode product) (Product.name product) (Product.brand product)
    (Product.category product) (Item.quantity item)
    (Priced.retail_price (Item.priced item)) (Priced.cost_price (Item.priced item))
    (Item.subtotal item) (Item.cost_total item)
    (round_nd (Item.subtotal item ⊖ Item.cost_total item) 2)
    payment is_event event_source event_name
    (round_nd (get_inflation_factor date) 4).

(** The body of [for tx_counter in range(1, target_transactions + 1)];
    [None] is the [continue] taken on an empty basket. *)
Definition generate_transaction (date : datetime) (campaigns : list (BrandCampaign.t F))
    (promos : list (StorePromo.t F)) (in_holiday : bool) (holiday : option (Holiday.t F))
    (transaction_id_base : string) (tx_counter : Z) : rand (option (Tx.t F)) :=
  profile <- select_customer_profile ;;
  items <- get_products_for_profile profile date campaigns promos ;;
  match items with
  | [] => ret None
  | _ :: _ =>
      let tx_total := sum (map Item.subtotal items) in
      let tx_cost := sum (map Item.cost_total items) in
      tx_time <- generate_transaction_time date ;;
      payment <- (if String.eqb profile "SNACKER"
                  then choices1 ["CASH"; "GCASH"] [dec 8 1; dec 2 1]
                  else choice PAYMENT_METHODS) ;;
      let transaction_id :=
        "TX-" ++ transaction_id_base ++ "-" ++ format_04d tx_counter in
      ret (Some (Tx.mk tx_total tx_cost
                   (map (transaction_row date campaigns promos in_holiday holiday
                           transaction_id tx_time profile payment) items)))
  end.

Fixpoint transactions_loop (date : datetime) (campaigns : list (BrandCampaign.t F))
    (promos : list (StorePromo.t F)) (in_holiday : bool) (holiday : option (Holiday.t F))
    (transaction_id_base : string) (n : nat) (tx_counter : Z)
    (transactions : list (Row.t F)) : rand (list (Row.t F)) :=
  match n with
  | O => ret transactions
  | S n' =>
      tx <- generate_transaction date campaigns promos in_holiday holiday
              transaction_id_base tx_counter ;;
      transactions_loop date campaigns promos in_holiday holiday transaction_id_base
        n' (tx_counter + 1)
        (match tx with
         | Some t => (transactions ++ Tx.rows t)%list
         | None => transactions
         end)
  end.

Definition generate_daily_transactions (date : datetime)
    (campaigns : list (BrandCampaign.t F)) (promos : list (StorePromo.t F))
    (holidays : list (Holiday.t F)) : rand (list (Row.t F)) :=
  let '(in_holiday, holiday) := is_within_holiday date holidays in
  target_transactions <- get_daily_transaction_count date holidays ;;
  let transaction_id_base := strftime_Ymd date in
  transactions_loop date campaigns promos in_holiday holiday transaction_id_base
    (Z.to_nat target_transactions) 1 [].

(** *** Summary statistics

    [print_summary_stats] prints; the embedding returns the numbers it
    prints, in the order it computes them. *)

(** [by_year]: the years in order of first appearance, each with its
    lines. *)
Definition row_year (s : Row.t F) : string := substring 0 4 (Row.date s).

Definition by_year_keys (sales : list (Row.t F)) : list string :=
  nodup string_dec (map row_year sales).

Definition by_year_get (sales : list (Row.t F)) (year : string) : list (Row.t F) :=
  filter (fun s => String.eqb (row_year s) year) sales.

(** The seven numbers of one line of the year table; [None] when
    [prev_revenue] is [None] or zero. *)
Definition year_stats (prev_revenue : option F) (year_sales : list (Row.t F))
    : result (F * F * F * F * Z * F * option F) :=
  let revenue := sum (map Row.subtotal year_sales) in
  let cost := sum (map Row.cost_total year_sales) in
  let profit := sum (map Row.profit year_sales) in
  margin <- (if fltb (of_int 0) revenue
             then (q <- truediv profit revenue ;; ret (q ⊗ of_int 100))
             else ret (of_int 0)) ;;
  let unique_tx := count_distinct (map Row.transaction_id year_sales) in
  avg_tx <- (if 0 <? unique_tx then truediv_int revenue unique_tx else ret (of_int 0)) ;;
  growth <- match prev_revenue with
            | None => ret None
            | Some prev =>
                if feqb prev (of_int 0) then ret None
                else (q <- truediv (revenue ⊖ prev) prev ;; ret (Some (q ⊗ of_int 100)))
            end ;;
  ret (revenue, cost, profit, margin, unique_tx, avg_tx, growth).

Fixpoint year_table (sales : list (Row.t F)) (years : list string) (prev_revenue : option F)
    : result (list (string * (F * F * F * F * Z * F * option F))) :=
  match years with
  | [] => ret []
  | year :: rest =>
      line <- year_stats prev_revenue (by_year_get sales year) ;;
      let '(revenue, _, _, _, _, _, _) := line in
      lines <- year_table sales rest (Some revenue) ;;
      ret ((year, line) :: lines)
  end.

(** One line of the profile table: count, share of transactions, revenue,
    share of revenue, average ticket. *)
Definition profile_stats (sales : list (Row.t F)) (total_transactions : Z)
    (total_revenue : F) (profile : string) : result (Z * F * F * F * F) :=
  let mine := filter (fun s => String.eqb (Row.customer_type s) profile) sales in
  let tx_count := count_distinct (map Row.transaction_id mine) in
  tx_pct <- (if 0 <? total_transactions
             then (q <- int_truediv tx_count total_transactions ;; ret (q ⊗ of_int 100))
             else ret (of_int 0)) ;;
  let rev := fold_left fadd (map Row.subtotal mine) (dec 0 1) in
  rev_pct <- (if fltb (of_int 0) total_revenue
              then (q <- truediv rev total_revenue ;; ret (q ⊗ of_int 100))
              else ret (of_int 0)) ;;
  avg_ticket <- (if 0 <? tx_count then truediv_int rev tx_count else ret (of_int 0)) ;;
  ret (tx_count, tx_pct, rev, rev_pct, avg_ticket).

Fixpoint profile_table (sales : list (Row.t F)) (total_transactions : Z)
    (total_revenue : F) (profiles : list string) : result (list (Z * F * F * F * F)) :=
  match profiles with
  | [] => ret []
  | profile :: rest =>
      line <- profile_stats sales total_transactions total_revenue profile ;;
      lines <- profile_table sales total_transactions total_revenue rest ;;
      ret (line :: lines)
  end.

Record Summary : Type := {
  years : list (string * (F * F * F * F * Z * F * option F));
  total_revenue : F;
  total_transactions : Z;
  total_units : Z;
  total_cost : F;
  total_profit : F;
  average_margin : F;
  average_transaction_value : F;
  profiles : list (Z * F * F * F * F);
  end_inflation_factor : F;
  cumulative_increase : F;
  event_records : Z;
  event_share : F;
  organic_records : Z;
  organic_share : F;
  event_revenue : option (F * F)
}.

Definition print_summary_stats (sales : list (Row.t F)) : result Summary :=
  years <- year_table sales (sorted (by_year_keys sales)) None ;;
  let total_revenue := sum (map Row.subtotal sales) in
  let total_cost := sum (map Row.cost_total sales) in
  let total_profit := sum (map Row.profit sales) in
  let total_units := fold_left Z.add (map Row.quantity sales) 0 in
  let total_transactions := count_distinct (map Row.transaction_id sales) in
  q <- truediv total_profit total_revenue ;;
  let average_margin := q ⊗ of_int 100 in
  average_transaction_value <- truediv_int total_revenue total_transactions ;;
  profiles <- profile_table sales total_transactions total_revenue
                ["SNACKER"; "HOUSEHOLD"; "VENDOR"] ;;
  first_date <- match sales with
           | [] => Raise IndexError
           | s :: _ => strptime_Y_m_d (Row.date s)
           end ;;
  last_date <- match rev sales with
               | [] => Raise IndexError
               | s :: _ => strptime_Y_m_d (Row.date s)
               end ;;
  let end_factor := get_inflation_factor last_date in
  let increase := (get_inflation_factor last_date ⊖ of_int 1) ⊗ of_int 100 in
  let event_sales := filter (fun s => Row.is_event s) sales in
  let organic_sales := filter (fun s => negb (Row.is_event s)) sales in
  let n := Z.of_nat (List.length sales) in
  e <- int_truediv (Z.of_nat (List.length event_sales)) n ;;
  o <- int_truediv (Z.of_nat (List.length organic_sales)) n ;;
  event_revenue <-
    match event_sales with
    | [] => ret None
    | _ :: _ =>
        let event_revenue := sum (map Row.subtotal event_sales) in
        q <- truediv event_revenue total_revenue ;;
        ret (Some (event_revenue, q ⊗ of_int 100))
    end ;;
  ret {| years := years;
         total_revenue := total_revenue;
         total_transactions := total_transactions;
         total_units := total_units;
         total_cost := total_cost;
         total_profit := total_profit;
         average_margin := average_margin;
         average_transaction_value := average_transaction_value;
         profiles := profiles;
         end_inflation_factor := end_factor;
         cumulative_increase := increase;
         event_records := Z.of_nat (List.length event_sales);
         event_share := e ⊗ of_int 100;
         organic_records := Z.of_nat (List.length organic_sales);
         organic_share := o ⊗ of_int 100;
         event_revenue := event_revenue |}.

(** *** The day loop of [generate_all_sales]

    [END_DATE] is [datetime.now().replace(hour=23, minute=59, second=59)],
    a value of the run. *)
Variable END_DATE : datetime.

Fixpoint sales_loop (all_campaigns : list (BrandCampaign.t F))
    (all_promos : list (StorePromo.t F)) (all_holidays : list (Holiday.t F))
    (fuel : nat) (current_date : datetime) (all_sales : list (Row.t F))
    : rand (list (Row.t F)) :=
  match fuel with
  | O => ret all_sales
  | S fuel' =>
      if dt_leb current_date END_DATE then
        daily_transactions <-
          generate_daily_transactions current_date all_campaigns all_promos all_holidays ;;
        sales_loop all_campaigns all_promos all_holidays fuel'
          (add_days current_date 1) (all_sales ++ daily_transactions)%list
      else ret all_sales
  end.

(** [generate_all_sales], from [current_date = START_DATE] on, for the
    event lists drawn before the loop; the loop runs once per day up to
    [END_DATE]. *)
Definition generate_all_sales_days (all_campaigns : list (BrandCampaign.t F))
    (all_promos : list (StorePromo.t F)) (all_holidays : list (Holiday.t F))
    : rand (list (Row.t F)) :=
  sales_loop all_campaigns all_promos all_holidays
    (Z.to_nat (ordinal END_DATE - ordinal START_DATE + 1)) START_DATE [].
End Generator.

(** *** Event generators *)

Definition CAMPAIGN_BRANDS : list string :=
  ["Coca-Cola"; "Pepsi"; "Nestle"; "Oishi"; "Alaska"; "Ariel"; "Joy"; "555";
   "Lucky Me"]%string.

Section Events.
Context {F : Type} `{PyFloat F}.
Local Open Scope string_scope.
Local Open Scope Z_scope.

Definition campaign_names (brand : string) : list string :=
  [ brand ++ " TV Commercial Blitz";
    brand ++ " Summer Promo";
    brand ++ " Back to School";
    brand ++ " Holiday Special";
    brand ++ " Anniversary Sale";
    brand ++ " New Product Launch" ].

(** [for _ in range(num_campaigns)], by recursion on the iterations
    left; the [break] returns the campaigns made so far. *)
Fixpoint campaigns_loop (year : Z) (n : nat) (campaigns : list (BrandCampaign.t F))
    (used_months : list Z) : rand (list (BrandCampaign.t F)) :=
  match n with
  | O => ret campaigns
  | S n' =>
      brand <- choice CAMPAIGN_BRANDS ;;
      let available_months :=
        filter (fun m => negb (set_mem m used_months))
          [1; 2; 3; 4; 5; 6; 7; 8; 9; 10; 11; 12] in
      match available_months with
      | [] => ret campaigns
      | _ :: _ =>
          month <- choice available_months ;;
          let used_months := set_add month used_months in
          day <- randint 1 21 ;;
          start_date <- lift (datetime_ymd year month day) ;;
          let end_date := add_days start_date 7 in
          name <- choice (campaign_names brand) ;;
          campaigns_loop year n'
            (campaigns ++
             [BrandCampaign.mk name brand start_date end_date (dec 30 1)
                MANUFACTURER_CAMPAIGN])%list
            used_months
      end
  end.

Definition generate_brand_campaigns (year num_campaigns : Z)
    : rand (list (BrandCampaign.t F)) :=
  campaigns_loop year (Z.to_nat num_campaigns) [] [].

Definition generate_holidays (year : Z) : result (list (Holiday.t F)) :=
  d1 <- datetime_ymd year 1 1 ;;
  d2 <- datetime_ymd year 2 14 ;;
  d3 <- datetime_ymd year 3 28 ;;
  d4 <- datetime_ymd year 5 1 ;;
  d5 <- datetime_ymd year 6 12 ;;
  d6 <- datetime_ymd year 11 1 ;;
  d7 <- datetime_ymd year 11 30 ;;
  d8 <- datetime_ymd year 12 24 ;;
  d9 <- datetime_ymd year 12 25 ;;
  d10 <- datetime_ymd year 12 31 ;;
  ret [ Holiday.mk "New Year's Day" d1 2 (dec 16 1) HOLIDAY;
        Holiday.mk "Valentine's Day" d2 2 (dec 14 1) HOLIDAY;
        Holiday.mk "Holy Week" d3 4 (dec 15 1) HOLIDAY;
        Holiday.mk "Labor Day" d4 1 (dec 13 1) HOLIDAY;
        Holiday.mk "Independence Day" d5 1 (dec 13 1) HOLIDAY;
        Holiday.mk "All Saints Day" d6 2 (dec 14 1) HOLIDAY;
        Holiday.mk "Bonifacio Day" d7 1 (dec 13 1) HOLIDAY;
        Holiday.mk "Christmas Eve" d8 2 (dec 20 1) HOLIDAY;
        Holiday.mk "Christmas Day" d9 2 (dec 18 1) HOLIDAY;
        Holiday.mk "New Year's Eve" d10 1 (dec 19 1) HOLIDAY ].
End Events.

End HistoryV3.

(** ** [scripts/generate_history_v2.py] *)

Module HistoryV2.
Import Py.

Inductive EventSource : Set :=
| NONE
| STORE_DISCOUNT
| MANUFACTURER_CAMPAIGN
| HOLIDAY.

Definition EventSource_value (s : EventSource) : string :=
  match s with
  | NONE => ""
  | STORE_DISCOUNT => "STORE_DISCOUNT"
  | MANUFACTURER_CAMPAIGN => "MANUFACTURER_CAMPAIGN"
  | HOLIDAY => "HOLIDAY"
  end.

Definition is_NONE (s : EventSource) : bool :=
  match s with NONE => true | _ => false end.

Module BrandCampaign.
Record t {F : Type} : Type := mk {
  name : string;
  brand : string;
  start_date : datetime;
  end_date : datetime;
  multiplier : F;
  source : EventSource
}.
Arguments t : clear implicits.
Arguments mk {F}.
End BrandCampaign.

Module StorePromo.
Record t {F : Type} : Type := mk {
  name : string;
  product_barcodes : list string;
  start_date : datetime;
  end_date : datetime;
  multiplier : F;
  source : EventSource
}.
Arguments t : clear implicits.
Arguments mk {F}.
End StorePromo.

Module Holiday.
Record t {F : Type} : Type := mk {
  name : string;
  date : datetime;
  duration_days : Z;
  multiplier : F;
  source : EventSource
}.
Arguments t : clear implicits.
Arguments mk {F}.
End Holiday.

Module Product.
Record t {F : Type} : Type := mk {
  barcode : string;
  name : string;
  brand : string;
  category : string;
  retail_price : F;
  cost_price : F
}.
Arguments t : clear implicits.
Arguments mk {F}.
End Product.

(** The record [generate_daily_sales] returns. *)
Module Sale.
Record t {F : Type} : Type := mk {
  date : string;
  barcode : string;
  product_name : string;
  brand : string;
  category : string;
  quantity : Z;
  retail_price : F;
  cost_price : F;
  subtotal : F;
  cost_total : F;
  profit : F;
  payment_method : string;
  is_event : bool;
  event_source : string;
  event_name : string;
  seasonality_multiplier : F;
  total_multiplier : F
}.
Arguments t : clear implicits.
Arguments mk {F}.
End Sale.

Definition PAYMENT_METHODS : list string :=
  ["CASH"; "CASH"; "CASH"; "CASH"; "CASH"; "CASH"; "CASH"; "GCASH"; "GCASH"; "GCASH"]%string.

Definition START_DATE : datetime := mk_datetime 2024 1 1 0 0 0.

Definition END_DATE : datetime := mk_datetime 2026 1 3 0 0 0.

Definition CAMPAIGN_BRANDS : list string :=
  ["Coca-Cola"; "Pepsi"; "Nestle"; "Oishi"; "Alaska"; "Ariel"; "Joy"; "555"]%string.

Section Generator.
Context {F : Type} `{PyFloat F}.
Local Open Scope string_scope.
Local Open Scope Z_scope.

(** The built-in [hash] on strings, fixed for the run. *)
Variable hash : string -> Z.

Definition get_seasonality_multiplier (date : datetime) (category : string) : F :=
  let month := month date in
  if month =? 12 then dec 15 1
  else if month =? 11 then dec 12 1
  else if ((month =? 4) || (month =? 5)) && str_in category ["BEVERAGES"; "SODA"]
  then dec 14 1
  else if (month =? 3) || (month =? 4) then dec 11 1
  else if month =? 8 then dec 115 2
  else dec 10 1.

Definition get_day_of_week_multiplier (date : datetime) : F :=
  let day := weekday date in
  if day =? 5 then dec 13 1
  else if day =? 6 then dec 125 2
  else if day =? 4 then dec 115 2
  else dec 10 1.

Fixpoint is_within_campaign (date : datetime) (campaigns : list (BrandCampaign.t F))
    (brand : string) : bool * option (BrandCampaign.t F) :=
  match campaigns with
  | [] => (false, None)
  | campaign :: rest =>
      if String.eqb (BrandCampaign.brand campaign) brand
         && dt_leb (BrandCampaign.start_date campaign) date
         && dt_leb date (BrandCampaign.end_date campaign)
      then (true, Some campaign)
      else is_within_campaign date rest brand
  end.

Fixpoint is_within_store_promo (date : datetime) (promos : list (StorePromo.t F))
    (barcode : string) : bool * option (StorePromo.t F) :=
  match promos with
  | [] => (false, None)
  | promo :: rest =>
      if str_in barcode (StorePromo.product_barcodes promo)
         && dt_leb (StorePromo.start_date promo) date
         && dt_leb date (StorePromo.end_date promo)
      then (true, Some promo)
      else is_within_store_promo date rest barcode
  end.

Fixpoint is_within_holiday (date : datetime) (holidays : list (Holiday.t F))
    : bool * option (Holiday.t F) :=
  match holidays with
  | [] => (false, None)
  | holiday :: rest =>
      let end_date := add_days (Holiday.date holiday) (Holiday.duration_days holiday) in
      if dt_leb (Holiday.date holiday) date && dt_leb date end_date
      then (true, Some holiday)
      else is_within_holiday date rest
  end.

Definition generate_daily_sales (date : datetime) (product : Product.t F)
    (campaigns : list (BrandCampaign.t F)) (promos : list (StorePromo.t F))
    (holidays : list (Holiday.t F)) : rand (Sale.t F) :=
  _ <- seed_int (hash (Product.barcode product) + toordinal date) ;;
  base_velocity <- randint 5 15 ;;
  _ <- seed_os ;;
  let multiplier := dec 10 1 in
  let is_event := false in
  let event_source := NONE in
  let event_name := "" in
  (* 1. seasonality *)
  let seasonality_mult := get_seasonality_multiplier date (Product.category product) in
  let multiplier := multiplier ⊗ seasonality_mult in
  (* 2. day of week *)
  let dow_mult := get_day_of_week_multiplier date in
  let multiplier := multiplier ⊗ dow_mult in
  (* 3. brand campaign *)
  let '(in_campaign, campaign) :=
    is_within_campaign date campaigns (Product.brand product) in
  let '(multiplier, is_event, event_source, event_name) :=
    match in_campaign, campaign with
    | true, Some campaign =>
        (multiplier ⊗ BrandCampaign.multiplier campaign, true,
         MANUFACTURER_CAMPAIGN, BrandCampaign.name campaign)
    | _, _ => (multiplier, is_event, event_source, event_name)
    end in
  (* 4. store promo *)
  let '(in_promo, promo) :=
    is_within_store_promo date promos (Product.barcode product) in
  let '(multiplier, is_event, event_source, event_name) :=
    match in_promo, promo with
    | true, Some promo =>
        if is_NONE event_source
        then (multiplier ⊗ StorePromo.multiplier promo, true,
              STORE_DISCOUNT, StorePromo.name promo)
        else (multiplier ⊗ StorePromo.multiplier promo, true, event_source, event_name)
    | _, _ => (multiplier, is_event, event_source, event_name)
    end in
  (* 5. holiday *)
  let '(in_holiday, holiday) := is_within_holiday date holidays in
  let '(multiplier, is_event, event_source, event_name) :=
    match in_holiday, holiday with
    | true, Some holiday =>
        if is_NONE event_source
        then (multiplier ⊗ Holiday.multiplier holiday, true, HOLIDAY, Holiday.name holiday)
        else (multiplier ⊗ Holiday.multiplier holiday, is_event, event_source, event_name)
    | _, _ => (multiplier, is_event, event_source, event_name)
    end in
  quantity <- lift (to_int (of_int base_velocity ⊗ multiplier)) ;;
  noise <- randint (-2) 2 ;;
  let quantity := Z.max 1 (quantity + noise) in
  let subtotal := round_nd (of_int quantity ⊗ Product.retail_price product) 2 in
  let cost_total := round_nd (of_int quantity ⊗ Product.cost_price product) 2 in
  let profit := round_nd (subtotal ⊖ cost_total) 2 in
  payment_method <- choice PAYMENT_METHODS ;;
  ret (Sale.mk (strftime_Y_m_d date) (Product.barcode product) (Product.name product)
         (Product.brand product) (Product.category product) quantity
         (Product.retail_price product) (Product.cost_price product)
         subtotal cost_total profit payment_method is_event
         (EventSource_value event_source) event_name
         (round_nd seasonality_mult 2) (round_nd multiplier 2)).

(** *** Summary statistics: the numbers [print_summary_stats] prints. *)

(** [Counter(xs).most_common()]: the counts in order of first appearance,
    then sorted by decreasing count, ties kept in that order. *)
Definition counter (xs : list string) : list (string * Z) :=
  map (fun k => (k, Z.of_nat (count_occ string_dec xs k))) (nodup string_dec xs).

Fixpoint insert_by_count (x : string * Z) (xs : list (string * Z)) : list (string * Z) :=
  match xs with
  | [] => [x]
  | y :: ys => if snd y <=? snd x then x :: xs else y :: insert_by_count x ys
  end.

Definition most_common (xs : list string) : list (string * Z) :=
  fold_right insert_by_count [] (counter xs).

Record Summary : Type := {
  total_revenue : F;
  total_units : Z;
  total_cost : F;
  total_profit : F;
  profit_margin : F;
  event_records : Z;
  event_share : F;
  organic_records : Z;
  organic_share : F;
  event_revenue : option (F * F);
  event_sources : list (string * Z)
}.

Definition print_summary_stats (sales : list (Sale.t F)) : result Summary :=
  let total_revenue := sum (map Sale.subtotal sales) in
  let total_cost := sum (map Sale.cost_total sales) in
  let total_profit := sum (map Sale.profit sales) in
  let total_units := fold_left Z.add (map Sale.quantity sales) 0 in
  q <- truediv total_profit total_revenue ;;
  let profit_margin := q ⊗ of_int 100 in
  let event_sales := filter (fun s => Sale.is_event s) sales in
  let organic_sales := filter (fun s => negb (Sale.is_event s)) sales in
  let n := Z.of_nat (List.length sales) in
  e <- int_truediv (Z.of_nat (List.length event_sales)) n ;;
  o <- int_truediv (Z.of_nat (List.length organic_sales)) n ;;
  event_revenue <-
    match event_sales with
    | [] => ret None
    | _ :: _ =>
        let event_revenue := sum (map Sale.subtotal event_sales) in
        q <- truediv event_revenue total_revenue ;;
        ret (Some (event_revenue, q ⊗ of_int 100))
    end ;;
  let event_sources :=
    most_common
      (filter (fun src => negb (String.eqb src "")) (map Sale.event_source sales)) in
  ret {| total_revenue := total_revenue;
         total_units := total_units;
         total_cost := total_cost;
         total_profit := total_profit;
         profit_margin := profit_margin;
         event_records := Z.of_nat (List.length event_sales);
         event_share := e ⊗ of_int 100;
         organic_records := Z.of_nat (List.length organic_sales);
         organic_share := o ⊗ of_int 100;
         event_revenue := event_revenue;
         event_sources := event_sources |}.
(** *** Event generators *)

Definition campaign_names (brand : string) : list string :=
  [ brand ++ " TV Commercial Campaign";
    brand ++ " Summer Blitz";
    brand ++ " Back to School Promo";
    brand ++ " Holiday Special";
    brand ++ " Anniversary Sale";
    brand ++ " Product Launch" ].

Fixpoint campaigns_loop (year : Z) (n : nat) (campaigns : list (BrandCampaign.t F))
    (used_months : list Z) : rand (list (BrandCampaign.t F)) :=
  match n with
  | O => ret campaigns
  | S n' =>
      brand <- choice CAMPAIGN_BRANDS ;;
      let available_months :=
        filter (fun m => negb (set_mem m used_months))
          [1; 2; 3; 4; 5; 6; 7; 8; 9; 10; 11; 12] in
      match available_months with
      | [] => ret campaigns
      | _ :: _ =>
          month <- choice available_months ;;
          let used_months := set_add month used_months in
          day <- randint 1 21 ;;
          start_date <- lift (datetime_ymd year month day) ;;
          duration <- randint 5 10 ;;
          let end_date := add_days start_date duration in
          name <- choice (campaign_names brand) ;;
          multiplier <- uniform (dec 20 1) (dec 30 1) ;;
          campaigns_loop year n'
            (campaigns ++
             [BrandCampaign.mk name brand start_date end_date multiplier
                MANUFACTURER_CAMPAIGN])%list
            used_months
      end
  end.

Definition generate_brand_campaigns (year num_campaigns : Z)
    : rand (list (BrandCampaign.t F)) :=
  campaigns_loop year (Z.to_nat num_campaigns) [] [].

Definition generate_holidays (year : Z) : result (list (Holiday.t F)) :=
  d1 <- datetime_ymd year 1 1 ;;
  d2 <- datetime_ymd year 2 14 ;;
  d3 <- datetime_ymd year 3 28 ;;
  d4 <- datetime_ymd year 5 1 ;;
  d5 <- datetime_ymd year 6 12 ;;
  d6 <- datetime_ymd year 11 30 ;;
  d7 <- datetime_ymd year 12 24 ;;
  d8 <- datetime_ymd year 12 25 ;;
  d9 <- datetime_ymd year 12 31 ;;
  ret [ Holiday.mk "New Year's Day" d1 2 (dec 16 1) HOLIDAY;
        Holiday.mk "Valentine's Day" d2 2 (dec 14 1) HOLIDAY;
        Holiday.mk "Holy Week" d3 4 (dec 15 1) HOLIDAY;
        Holiday.mk "Labor Day" d4 1 (dec 13 1) HOLIDAY;
        Holiday.mk "Independence Day" d5 1 (dec 13 1) HOLIDAY;
        Holiday.mk "Bonifacio Day" d6 1 (dec 13 1) HOLIDAY;
        Holiday.mk "Christmas Eve" d7 2 (dec 20 1) HOLIDAY;
        Holiday.mk "Christmas Day" d8 2 (dec 18 1) HOLIDAY;
        Holiday.mk "New Year's Eve" d9 1 (dec 19 1) HOLIDAY ].

(** *** The catalogue and the day loop of [generate_all_sales] *)

Let mkProduct := @Product.mk F.

Definition PRODUCTS : list (Product.t F) := [
  mkProduct "544900000099" "Coca-Cola Mismo 295ml" "Coca-Cola" "SODA"
    (dec 2000 2) (dec 1800 2);
  mkProduct "480198112005" "Sprite 500ml" "Coca-Cola" "SOFTDRINKS_CASE"
    (dec 2500 2) (dec 2250 2);
  mkProduct "480198112010" "Royal Tru Orange 500ml" "Coca-Cola" "SOFTDRINKS_CASE"
    (dec 2500 2) (dec 2250 2);
  mkProduct "480198112000" "Coke 500ml" "Coca-Cola" "SOFTDRINKS_CASE"
    (dec 2500 2) (dec 2250 2);
  mkProduct "480392525114" "Mountain Dew 500ml" "Pepsi" "SOFTDRINKS_CASE"
    (dec 2200 2) (dec 2000 2);
  mkProduct "480392525110" "Pepsi 500ml" "Pepsi" "SOFTDRINKS_CASE"
    (dec 2200 2) (dec 2000 2);
  mkProduct "480198111607" "Coke 1.5L" "Coca-Cola" "SOFTDRINKS_CASE"
    (dec 6000 2) (dec 5400 2);
  mkProduct "480198118062" "Sprite 1.5L" "Coca-Cola" "SOFTDRINKS_CASE"
    (dec 6000 2) (dec 5400 2);
  mkProduct "480191198062" "Royal Tru Orange 1.5L" "Coca-Cola" "SOFTDRINKS_CASE"
    (dec 6000 2) (dec 5400 2);
  mkProduct "480392515114" "Mountain Dew 1.5L" "Pepsi" "SOFTDRINKS_CASE"
    (dec 5500 2) (dec 5000 2);
  mkProduct "480392515110" "Pepsi 1.5L" "Pepsi" "SOFTDRINKS_CASE"
    (dec 5500 2) (dec 5000 2);
  mkProduct "480198111664" "Coke Zero 1.5L" "Coca-Cola" "SOFTDRINKS_CASE"
    (dec 6000 2) (dec 5400 2);
  mkProduct "480392515112" "7-up 1.5L" "Pepsi" "SOFTDRINKS_CASE"
    (dec 5500 2) (dec 5000 2);
  mkProduct "480198109722" "Royal Tru Strawberry 1.5L" "Coca-Cola" "SOFTDRINKS_CASE"
    (dec 6000 2) (dec 5400 2);
  mkProduct "480392515116" "Mirinda Orange 1.5L" "Pepsi" "SOFTDRINKS_CASE"
    (dec 6000 2) (dec 5400 2);
  mkProduct "480198111696" "Coke Light" "Coca-Cola" "SOFTDRINKS_CASE"
    (dec 6500 2) (dec 5850 2);
  mkProduct "955600121722" "Milo 22g Sachet" "Nestle" "BEVERAGES"
    (dec 1200 2) (dec 1050 2);
  mkProduct "480036141081" "Nestle Bear Brand Fortified 33g" "Nestle" "BEVERAGES"
    (dec 1150 2) (dec 1000 2);
  mkProduct "480864731007" "Tang Orange 250g" "Tang" "BEVERAGES"
    (dec 21600 2) (dec 19500 2);
  mkProduct "965412919731" "Energen Cereal Milk Chocolate Drink 40g" "Energen" "BEVERAGES"
    (dec 900 2) (dec 800 2);
  mkProduct "965412919613" "Energen Cereal Drink Mix Vanilla Hanger 40g" "Energen" "BEVERAGES"
    (dec 860 2) (dec 750 2);
  mkProduct "489120804013" "Oishi Prawn Crackers 60g" "Oishi" "SNACK"
    (dec 1760 2) (dec 1550 2);
  mkProduct "893921341445" "San Sky Flakes Crackers Original 25g x 10s" "M.Y. San" "SNACK"
    (dec 5840 2) (dec 5250 2);
  mkProduct "893951811445" "Hansel Mocha Sandwich" "Rebisco" "SNACK"
    (dec 6020 2) (dec 5400 2);
  mkProduct "748485200019" "555 Sardines in Tomato Sauce 155g" "555" "CANNED_GOODS"
    (dec 2500 2) (dec 2200 2);
  mkProduct "748485800035" "Argentina Corned Beef 260g" "Argentina" "CANNED_GOODS"
    (dec 5750 2) (dec 5200 2);
  mkProduct "480002201028" "Hunts Pork & Beans 100g Doy" "Hunts" "CANNED_GOODS"
    (dec 1450 2) (dec 1300 2);
  mkProduct "480057511015" "Alaska Classic Evaporated Filled Milk 140ml" "Alaska" "DAIRY"
    (dec 2820 2) (dec 2550 2);
  mkProduct "480057513016" "Alaska Condensada Sweetened Condensed Creamer 168ml" "Alaska" "DAIRY"
    (dec 3900 2) (dec 3500 2);
  mkProduct "480864702009" "Eden Cheese 165g" "Mondelez" "DAIRY"
    (dec 7800 2) (dec 7000 2);
  mkProduct "480535824701" "Dari Creme Butter Milk 100g" "Dari Creme" "DAIRY"
    (dec 4100 2) (dec 3700 2);
  mkProduct "000008586780" "Datu Puti Patis 1L" "Datu Puti" "CONDIMENTS"
    (dec 8085 2) (dec 7300 2);
  mkProduct "642611907726" "Ajinomoto Seasoning Mix 50g" "Ajinomoto" "BEVERAGES"
    (dec 1300 2) (dec 1150 2);
  mkProduct "642647382226" "Sisters Night Plus Cottony Napkin" "Sisters" "PERSONAL_CARE"
    (dec 4450 2) (dec 4000 2);
  mkProduct "642321541122" "Sisters Overnight Dry" "Sisters" "PERSONAL_CARE"
    (dec 11700 2) (dec 10500 2);
  mkProduct "672329634182" "Whisper Cottony Soft Clean X-Long Overnight" "Whisper" "PERSONAL_CARE"
    (dec 12800 2) (dec 11500 2);
  mkProduct "480088814685" "Sunsilk Strong & Long 350ml" "Sunsilk" "PERSONAL_CARE"
    (dec 15000 2) (dec 13500 2);
  mkProduct "870021639476" "Downy Sunrise Fresh Fabric Conditioner Sachet 20ml" "Downy" "HOUSEHOLD"
    (dec 700 2) (dec 600 2);
  mkProduct "480004784003" "Zonrox Original Bleach 250ml" "Zonrox" "HOUSEHOLD"
    (dec 3800 2) (dec 3400 2);
  mkProduct "037000359562" "Ariel With a Touch of Downy Freshness Powder" "Ariel" "HOUSEHOLD"
    (dec 66000 2) (dec 59500 2);
  mkProduct "490243086729" "Joy Dishwashing Liquid Lemon 475ml" "Joy" "HOUSEHOLD"
    (dec 13400 2) (dec 12000 2);
  mkProduct "490243078997" "Joy Dishwashing Liquid Lemon Sachet 40ml" "Joy" "HOUSEHOLD"
    (dec 1200 2) (dec 1050 2)
].

(** [for product in PRODUCTS] *)
Fixpoint products_loop (current_date : datetime) (all_campaigns : list (BrandCampaign.t F))
    (all_promos : list (StorePromo.t F)) (all_holidays : list (Holiday.t F))
    (products : list (Product.t F)) (all_sales : list (Sale.t F))
    : rand (list (Sale.t F)) :=
  match products with
  | [] => ret all_sales
  | product :: rest =>
      sale <- generate_daily_sales current_date product all_campaigns all_promos
                all_holidays ;;
      products_loop current_date all_campaigns all_promos all_holidays rest
        (all_sales ++ [sale])%list
  end.

(** [while current_date <= END_DATE], one day per iteration. *)
Fixpoint days_loop (all_campaigns : list (BrandCampaign.t F))
    (all_promos : list (StorePromo.t F)) (all_holidays : list (Holiday.t F))
    (fuel : nat) (current_date : datetime) (all_sales : list (Sale.t F))
    : rand (list (Sale.t F)) :=
  match fuel with
  | O => ret all_sales
  | S fuel' =>
      if dt_leb current_date END_DATE then
        all_sales <- products_loop current_date all_campaigns all_promos all_holidays
                       PRODUCTS all_sales ;;
        days_loop all_campaigns all_promos all_holidays fuel' (add_days current_date 1)
          all_sales
      else ret all_sales
  end.

(** [generate_all_sales], from [current_date = START_DATE] on, for the
    event lists drawn before the loop. *)
Definition generate_all_sales_days (all_campaigns : list (BrandCampaign.t F))
    (all_promos : list (StorePromo.t F)) (all_holidays : list (Holiday.t F))
    : rand (list (Sale.t F)) :=
  days_loop all_campaigns all_promos all_holidays
    (Z.to_nat (ordinal END_DATE - ordinal START_DATE + 1)) START_DATE [].
End Generator.

End HistoryV2.

(** ** [scripts/generate_suppliers.py] *)

Module Suppliers.
Import Py.

Module Supplier.
Record t : Type := mk {
  id : Z;
  name : string;
  contact_person : string;
  contact_number : string;
  email : string;
  address : string;
  notes : string;
  status : string;
  categories : list string
}.
End Supplier.

Module InventoryBatch.
Record t {F : Type} : Type := mk {
  id : Z;
  product_barcode : string;
  product_name : string;
  quantity : Z;
  expiry_date : option datetime;
  received_date : datetime;
  supplier_ref : string;
  supplier_name : string;
  supplier_id : Z;
  cost_price : F;
  status : string
}.
Arguments t : clear implicits.
Arguments mk {F}.
End InventoryBatch.

Module StockMovementReturn.
Record t {F : Type} : Type := mk {
  id : Z;
  batch_id : Z;
  product_barcode : string;
  product_name : string;
  supplier_id : Z;
  supplier_name : string;
  movement_type : string;
  quantity_change : Z;
  reason : string;
  reference : string;
  cost_price : F;
  created_at : datetime
}.
Arguments t : clear implicits.
Arguments mk {F}.
End StockMovementReturn.

Module Product.
Record t {F : Type} : Type := mk {
  barcode : string;
  name : string;
  category : string;
  cost_price : F
}.
Arguments t : clear implicits.
Arguments mk {F}.
End Product.

Definition START_DATE : datetime := mk_datetime 2024 1 1 0 0 0.

Definition AVG_RESTOCK_FREQUENCY_DAYS : Z := 14.
Definition MIN_BATCH_QTY : Z := 10.
Definition MAX_BATCH_QTY : Z := 200.
Definition EXPIRY_DAYS_MIN : Z := 30.
Definition EXPIRY_DAYS_MAX : Z := 365.

Section Generator.
Context {F : Type} `{PyFloat F}.
Local Open Scope string_scope.
Local Open Scope Z_scope.

Definition RETURN_PROBABILITY : F := dec 8 2.
Definition RETURN_QTY_PERCENT_MIN : F := dec 1 1.
Definition RETURN_QTY_PERCENT_MAX : F := dec 5 1.
Definition ANNUAL_INFLATION_RATE : F := dec 45 3.

Let mkProduct := @Product.mk F.

Definition PRODUCTS : list (Product.t F) := [
  mkProduct "544900000099" "Coca-Cola Mismo 295ml"
    "SODA" (dec 1800 2);
  mkProduct "480198112005" "Sprite 500ml"
    "SODA" (dec 2250 2);
  mkProduct "480198112010" "Royal Tru Orange 500ml"
    "SODA" (dec 2250 2);
  mkProduct "480198112000" "Coke 500ml"
    "SODA" (dec 2250 2);
  mkProduct "480392525114" "Mountain Dew 500ml"
    "SODA" (dec 2000 2);
  mkProduct "480392525110" "Pepsi 500ml"
    "SODA" (dec 2000 2);
  mkProduct "480198111607" "Coke 1.5L"
    "SODA" (dec 5400 2);
  mkProduct "480198118062" "Sprite 1.5L"
    "SODA" (dec 5400 2);
  mkProduct "480191198062" "Royal Tru Orange 1.5L"
    "SODA" (dec 5400 2);
  mkProduct "480392515114" "Mountain Dew 1.5L"
    "SODA" (dec 5000 2);
  mkProduct "480392515110" "Pepsi 1.5L"
    "SODA" (dec 5000 2);
  mkProduct "480198111664" "Coke Zero 1.5L"
    "SODA" (dec 5400 2);
  mkProduct "480392515112" "7-up 1.5L"
    "SODA" (dec 5000 2);
  mkProduct "480198109722" "Royal Tru Strawberry 1.5L"
    "SODA" (dec 5400 2);
  mkProduct "480392515116" "Mirinda Orange 1.5L"
    "SODA" (dec 5400 2);
  mkProduct "480198111696" "Coke Light 1.5L"
    "SODA" (dec 5850 2);
  mkProduct "480198112717" "Coke Swakto 195ml (1 Case)"
    "SOFTDRINKS_CASE" (dec 11200 2);
  mkProduct "480198112720" "Royal Swakto 195ml (1 Case)"
    "SOFTDRINKS_CASE" (dec 11200 2);
  mkProduct "480198102719" "Sprite Swakto 195ml (1 Case)"
    "SOFTDRINKS_CASE" (dec 11200 2);
  mkProduct "480392513032" "Mountain Dew 290ml (1 Case)"
    "SOFTDRINKS_CASE" (dec 18000 2);
  mkProduct "480374937310" "Coke 1L (1 Case)"
    "SOFTDRINKS_CASE" (dec 31500 2);
  mkProduct "480611352020" "Juicy Lemon 237 ml (1 Bundle)"
    "SOFTDRINKS_CASE" (dec 12700 2);
  mkProduct "480732471900" "Sprite 1L (1 Case)"
    "SOFTDRINKS_CASE" (dec 31500 2);
  mkProduct "542353276241" "Royal 1L (1 Case)"
    "SOFTDRINKS_CASE" (dec 31500 2);
  mkProduct "955600121722" "Milo 22g Sachet"
    "BEVERAGES" (dec 1050 2);
  mkProduct "480036141081" "Nestle Bear Brand Fortified 33g"
    "BEVERAGES" (dec 1000 2);
  mkProduct "480864731007" "Tang Orange 250g"
    "BEVERAGES" (dec 19500 2);
  mkProduct "965412919731" "Energen Cereal Milk Chocolate Drink 40g"
    "BEVERAGES" (dec 800 2);
  mkProduct "965412919613" "Energen Cereal Drink Mix Vanilla Hanger 40g"
    "BEVERAGES" (dec 750 2);
  mkProduct "489120804013" "Oishi Prawn Crackers 60g"
    "SNACK" (dec 1550 2);
  mkProduct "893921341445" "San Sky Flakes Crackers Original 25g x 10s"
    "SNACK" (dec 5250 2);
  mkProduct "893951811445" "Hansel Mocha Sandwich"
    "SNACK" (dec 5400 2);
  mkProduct "748485200019" "555 Sardines in Tomato Sauce 155g"
    "CANNED_GOODS" (dec 2200 2);
  mkProduct "748485800035" "Argentina Corned Beef 260g"
    "CANNED_GOODS" (dec 5200 2);
  mkProduct "480002201028" "Hunts Pork & Beans 100g Doy"
    "CANNED_GOODS" (dec 1300 2);
  mkProduct "480057511015" "Alaska Classic Evaporated Filled Milk 140ml"
    "DAIRY" (dec 2550 2);
  mkProduct "480057513016" "Alaska Condensada Sweetened Condensed Creamer 168ml"
    "DAIRY" (dec 3500 2);
  mkProduct "480864702009" "Eden Cheese 165g"
    "DAIRY" (dec 7000 2);
  mkProduct "480535824701" "Dari Creme Butter Milk 100g"
    "DAIRY" (dec 3700 2);
  mkProduct "000008586780" "Datu Puti Patis 1L"
    "CONDIMENTS" (dec 7300 2);
  mkProduct "642611907726" "Ajinomoto Seasoning Mix 50g"
    "CONDIMENTS" (dec 1150 2);
  mkProduct "642647382226" "Sisters Night Plus Cottony Napkin"
    "PERSONAL_CARE" (dec 4000 2);
  mkProduct "642321541122" "Sisters Overnight Dry"
    "PERSONAL_CARE" (dec 10500 2);
  mkProduct "672329634182" "Whisper Cottony Soft Clean X-Long Overnight"
    "PERSONAL_CARE" (dec 11500 2);
  mkProduct "480088814685" "Sunsilk Strong & Long 350ml"
    "PERSONAL_CARE" (dec 13500 2);
  mkProduct "870021639476" "Downy Sunrise Fresh Fabric Conditioner Sachet 20ml"
    "HOUSEHOLD" (dec 600 2);
  mkProduct "480004784003" "Zonrox Original Bleach 250ml"
    "HOUSEHOLD" (dec 3400 2);
  mkProduct "037000359562" "Ariel With a Touch of Downy Freshness Powder"
    "HOUSEHOLD" (dec 59500 2);
  mkProduct "490243086729" "Joy Dishwashing Liquid Lemon 475ml"
    "HOUSEHOLD" (dec 12000 2);
  mkProduct "490243078997" "Joy Dishwashing Liquid Lemon Sachet 40ml"
    "HOUSEHOLD" (dec 1050 2);
  mkProduct "489310100015" "Lucky Me Pancit Canton with Kalamnsi 60g"
    "INSTANT_NOODLES" (dec 1100 2)
].

Definition get_inflation_factor (date : datetime) : F :=
  let days_from_start := days_between date START_DATE in
  let years_from_start := fdiv (of_int days_from_start) (dec 36525 2) in
  of_int 1 ⊕ (ANNUAL_INFLATION_RATE ⊗ years_from_start).

Definition get_inflated_cost (base_cost : F) (date : datetime) : F :=
  let factor := get_inflation_factor date in
  round_nd (base_cost ⊗ factor) 2.

Definition generate_supplier_ref (supplier_name : string) (date : datetime) (index : Z)
    : string :=
  let prefix :=
    upper (concat "" (map (substring 0 1) (firstn 3 (split supplier_name)))) in
  prefix ++ "-" ++ strftime_Ymd date ++ "-" ++ format_04d index.

(** [category_to_suppliers.get(category, [])]: the suppliers that list
    the category, in the order of [suppliers], once per listing. *)
Definition category_to_suppliers (suppliers : list Supplier.t) (category : string)
    : list Supplier.t :=
  flat_map
    (fun supplier =>
       flat_map (fun c => if String.eqb c category then [supplier] else [])
         (Supplier.categories supplier))
    suppliers.

Definition reasons : list string :=
  [ "Near expiry - supplier policy return";
    "Damaged packaging discovered during inventory check";
    "Product recall by manufacturer";
    "Quality issue reported by customers";
    "Expired stock - supplier credit agreement" ].

(** The mutable locals of [generate_batches_and_returns]. *)
Record gen_state : Type := {
  batches : list (InventoryBatch.t F);
  returns : list (StockMovementReturn.t F);
  batch_id : Z;
  return_id : Z;
  next_restock_date : list (string * datetime)
}.

(** [END_DATE] is [datetime.now().replace(hour=23, minute=59, second=59)],
    a value of the run. *)
Variable END_DATE : datetime.

(** The return that may follow a batch: [None] when the draw is not below
    [RETURN_PROBABILITY] or the return would fall after [END_DATE]. *)
Definition maybe_return (supplier : Supplier.t) (product : Product.t F)
    (current_date : datetime) (base_qty expiry_days : Z) (cost_price : F)
    (supplier_ref : string) (batch_id return_id : Z)
    : rand (option (StockMovementReturn.t F)) :=
  r <- random ;;
  if fltb r RETURN_PROBABILITY then
    let max_delay := Z.min (expiry_days - 5) 180 in
    let max_delay := if max_delay <? 30 then 30 else max_delay in
    return_delay_days <- randint 30 max_delay ;;
    let return_date := add_days current_date return_delay_days in
    if dt_leb return_date END_DATE then
      u <- uniform RETURN_QTY_PERCENT_MIN RETURN_QTY_PERCENT_MAX ;;
      return_qty <- lift (to_int (of_int base_qty ⊗ u)) ;;
      let return_qty := Z.max 1 return_qty in
      reason <- choice reasons ;;
      ret (Some (StockMovementReturn.mk return_id batch_id (Product.barcode product)
                   (Product.name product) (Supplier.id supplier) (Supplier.name supplier)
                   "SUPPLIER_RETURN" (- return_qty) reason ("RET-" ++ supplier_ref)
                   cost_price return_date))
    else ret None
  else ret None.

(** The body of [for product in PRODUCTS]. *)
Definition restock (suppliers : list Supplier.t) (current_date : datetime)
    (product : Product.t F) (st : gen_state) : rand gen_state :=
  let barcode := Product.barcode product in
  let category := Product.category product in
  match dict_get (next_restock_date st) barcode with
  | None => raise KeyError
  | Some next =>
      if dt_ltb current_date next then ret st
      else
        let available_suppliers := category_to_suppliers suppliers category in
        supplier <- match available_suppliers with
                    | [] => choice suppliers
                    | _ :: _ => choice available_suppliers
                    end ;;
        base_qty <- randint MIN_BATCH_QTY MAX_BATCH_QTY ;;
        base_qty <- (if str_in category ["SODA"; "SNACK"; "INSTANT_NOODLES"]
                     then lift (to_int (of_int base_qty ⊗ dec 15 1))
                     else if str_in category ["SOFTDRINKS_CASE"]
                     then randint 5 30
                     else ret base_qty) ;;
        base_qty <- (if month current_date =? 12
                     then lift (to_int (of_int base_qty ⊗ dec 18 1))
                     else if (month current_date =? 11) || (month current_date =? 3)
                             || (month current_date =? 4)
                     then lift (to_int (of_int base_qty ⊗ dec 13 1))
                     else ret base_qty) ;;
        expiry_days <- (if str_in category ["DAIRY"; "BEVERAGES"] then randint 30 180
                        else if str_in category ["CANNED_GOODS"] then randint 365 730
                        else if str_in category ["PERSONAL_CARE"; "HOUSEHOLD"]
                        then randint 365 1095
                        else if str_in category ["CONDIMENTS"] then randint 180 365
                        else randint EXPIRY_DAYS_MIN EXPIRY_DAYS_MAX) ;;
        let expiry_date := add_days current_date expiry_days in
        let cost_price := get_inflated_cost (Product.cost_price product) current_date in
        let supplier_ref :=
          generate_supplier_ref (Supplier.name supplier) current_date (batch_id st) in
        let batch :=
          InventoryBatch.mk (batch_id st) barcode (Product.name product) base_qty
            (Some expiry_date) current_date supplier_ref (Supplier.name supplier)
            (Supplier.id supplier) cost_price "ACTIVE" in
        let batches := (batches st ++ [batch])%list in
        return_record <- maybe_return supplier product current_date base_qty expiry_days
                           cost_price supplier_ref (batch_id st) (return_id st) ;;
        let '(returns, return_id) :=
          match return_record with
          | Some r => ((returns st ++ [r])%list, return_id st + 1)
          | None => (returns st, return_id st)
          end in
        let batch_id := batch_id st + 1 in
        restock_variance <- randint (-3) 7 ;;
        ret {| batches := batches;
               returns := returns;
               batch_id := batch_id;
               return_id := return_id;
               next_restock_date :=
                 dict_set (next_restock_date st) barcode
                   (add_days current_date (AVG_RESTOCK_FREQUENCY_DAYS + restock_variance)) |}
  end.

Fixpoint products_loop (suppliers : list Supplier.t) (current_date : datetime)
    (products : list (Product.t F)) (st : gen_state) : rand gen_state :=
  match products with
  | [] => ret st
  | product :: rest =>
      st' <- restock suppliers current_date product st ;;
      products_loop suppliers current_date rest st'
  end.

(** [while current_date <= END_DATE], one day per iteration. *)
Fixpoint days_loop (suppliers : list Supplier.t) (fuel : nat) (current_date : datetime)
    (st : gen_state) : rand gen_state :=
  match fuel with
  | O => ret st
  | S fuel' =>
      if dt_leb current_date END_DATE then
        st' <- products_loop suppliers current_date PRODUCTS st ;;
        days_loop suppliers fuel' (add_days current_date 1) st'
      else ret st
  end.

(** [{p["barcode"]: START_DATE + timedelta(days=random.randint(0, 14)) for p in PRODUCTS}] *)
Fixpoint initial_restock_dates (products : list (Product.t F))
    (d : list (string * datetime)) : rand (list (string * datetime)) :=
  match products with
  | [] => ret d
  | p :: rest =>
      k <- randint 0 14 ;;
      initial_restock_dates rest (dict_set d (Product.barcode p) (add_days START_DATE k))
  end.

Definition generate_batches_and_returns (suppliers : list Supplier.t)
    : rand (list (InventoryBatch.t F) * list (StockMovementReturn.t F)) :=
  next_restock_date <- initial_restock_dates PRODUCTS [] ;;
  st <- days_loop suppliers (Z.to_nat (ordinal END_DATE - ordinal START_DATE + 1))
          START_DATE
          {| batches := []; returns := []; batch_id := 1; return_id := 1;
             next_restock_date := next_restock_date |} ;;
  ret (batches st, returns st).
End Generator.

End Suppliers.

(** * Facts about the monads and the random generator *)

Module PyFacts.
Import Py.

(** *** Running a computation of [rand] *)

Lemma bind_Ok : forall {A B : Type} (c : rand A) (k : A -> rand B) g b g',
  bind c k g = Ok (b, g') ->
  exists a g1, c g = Ok (a, g1) /\ k a g1 = Ok (b, g').
Proof.
  intros A B c k g b g' Hrun. cbn in Hrun.
  destruct (c g) as [[a g1] | e]; [ | discriminate ].
  exists a, g1. split; [ reflexivity | exact Hrun ].
Qed.

Lemma ret_Ok : forall {A : Type} (a b : A) g g',
  ret (M := rand) a g = Ok (b, g') -> a = b /\ g = g'.
Proof. intros A a b g g' Hrun. cbn in Hrun. inversion Hrun. auto. Qed.

Lemma lift_Ok : forall {A : Type} (r : result A) g a g',
  lift r g = Ok (a, g') -> r = Ok a /\ g = g'.
Proof.
  intros A r g a g' Hrun. unfold lift in Hrun.
  destruct r; inversion Hrun; auto.
Qed.

Lemma raise_Ok : forall {A : Type} (e : exn) g (a : A) g',
  raise e g = Ok (a, g') -> False.
Proof. intros A e g a g' Hrun. discriminate Hrun. Qed.

(** Inverts a successful run, one bind at a time. *)
Ltac run_inv H :=
  repeat match type of H with
  | bind _ _ _ = Ok (_, _) =>
      let a := fresh "a" in let g := fresh "g" in
      let H1 := fresh "Hrun" in
      apply bind_Ok in H; destruct H as (a & g & H1 & H)
  end.

(** *** [random] *)

Lemma randbelow_range : forall n g x g',
  0 < n -> randbelow n g = Ok (x, g') -> 0 <= x < n.
Proof.
  intros n g x g' Hn Hrun. unfold randbelow in Hrun. cbn in Hrun.
  inversion Hrun; subst. apply Z.mod_pos_bound. exact Hn.
Qed.

Lemma randint_range : forall a b g x g',
  randint a b g = Ok (x, g') -> a <= x <= b.
Proof.
  intros a b g x g' Hrun. unfold randint in Hrun.
  destruct (0 <? b + 1 - a) eqn:Hw; [ | discriminate Hrun ].
  apply Z.ltb_lt in Hw.
  apply bind_Ok in Hrun. destruct Hrun as (j & g1 & Hj & Hret).
  apply ret_Ok in Hret. destruct Hret as [<- _].
  apply randbelow_range in Hj; lia.
Qed.

Lemma randint_total : forall a b g,
  a <= b -> exists x g', randint a b g = Ok (x, g') /\ a <= x <= b.
Proof.
  intros a b g Hab. unfold randint.
  destruct (0 <? b + 1 - a) eqn:Hw; [ | apply Z.ltb_ge in Hw; lia ].
  cbn. eexists. eexists. split; [ reflexivity | ].
  assert (0 <= draws g (cur g) (pos g) mod (b + 1 - a) < b + 1 - a)
    by (apply Z.mod_pos_bound; lia).
  lia.
Qed.

Lemma choice_In : forall {A : Type} (seq : list A) g x g',
  choice seq g = Ok (x, g') -> In x seq.
Proof.
  intros A seq g x g' Hrun. unfold choice in Hrun.
  destruct seq as [ | a seq' ]; [ discriminate Hrun | ].
  apply bind_Ok in Hrun. destruct Hrun as (j & g1 & _ & Hnth).
  destruct (nth_error (a :: seq') (Z.to_nat j)) as [ y | ] eqn:Hy;
    [ | discriminate Hnth ].
  apply ret_Ok in Hnth. destruct Hnth as [<- _].
  eapply nth_error_In. exact Hy.
Qed.

Lemma choice_total : forall {A : Type} (seq : list A) g,
  seq <> [] -> exists x g', choice seq g = Ok (x, g') /\ In x seq.
Proof.
  intros A seq g Hne. unfold choice.
  destruct seq as [ | a seq' ]; [ congruence | ].
  remember (a :: seq') as l eqn:Hl.
  assert (Hlen : 0 < Z.of_nat (List.length l)) by (subst l; cbn [List.length]; lia).
  pose proof (Z.mod_pos_bound (draws g (cur g) (pos g)) _ Hlen) as Hj.
  destruct (nth_error l (Z.to_nat (draws g (cur g) (pos g) mod Z.of_nat (List.length l))))
    as [ y | ] eqn:Hy.
  - exists y. eexists. split; [ | eapply nth_error_In; exact Hy ].
    unfold randbelow, next_draw. cbn [bind ret rand_monad]. rewrite Hy. reflexivity.
  - apply nth_error_None in Hy. lia.
Qed.

Lemma set_nth_Forall : forall {A : Type} (P : A -> Prop) i v (l : list A),
  P v -> Forall P l -> Forall P (set_nth i v l).
Proof.
  intros A P i v l Hv Hl. revert i.
  induction Hl as [ | h t Hh Ht IH ]; intros i.
  - destruct i; constructor.
  - destruct i; cbn; constructor; auto.
Qed.

Lemma nth_error_Forall : forall {A : Type} (P : A -> Prop) (l : list A) i x,
  Forall P l -> nth_error l i = Some x -> P x.
Proof.
  intros A P l i x Hl Hx. rewrite Forall_forall in Hl.
  apply Hl. eapply nth_error_In. exact Hx.
Qed.

Lemma swap_Forall : forall {A : Type} (P : A -> Prop) i j (l : list A),
  Forall P l -> Forall P (swap i j l).
Proof.
  intros A P i j l Hl. unfold swap.
  destruct (nth_error l i) as [ a | ] eqn:Ha; [ | exact Hl ].
  destruct (nth_error l j) as [ b | ] eqn:Hb; [ | exact Hl ].
  apply set_nth_Forall; [ eapply nth_error_Forall; eauto | ].
  apply set_nth_Forall; [ eapply nth_error_Forall; eauto | exact Hl ].
Qed.

Lemma shuffle_from_Forall : forall {A : Type} (P : A -> Prop) i (x : list A) g y g',
  Forall P x -> shuffle_from i x g = Ok (y, g') -> Forall P y.
Proof.
  intros A P i. induction i as [ | i IH ]; intros x g y g' Hx Hrun.
  - apply ret_Ok in Hrun. destruct Hrun as [<- _]. exact Hx.
  - cbn [shuffle_from] in Hrun.
    apply bind_Ok in Hrun. destruct Hrun as (j & g1 & _ & Hrest).
    eapply IH; [ | exact Hrest ]. apply swap_Forall. exact Hx.
Qed.

Lemma shuffle_Forall : forall {A : Type} (P : A -> Prop) (x : list A) g y g',
  Forall P x -> shuffle x g = Ok (y, g') -> Forall P y.
Proof. intros A P x g y g'. unfold shuffle. apply shuffle_from_Forall. Qed.

Lemma bind_step : forall {A B : Type} (c : rand A) (k : A -> rand B) g a g1,
  c g = Ok (a, g1) -> bind c k g = k a g1.
Proof. intros A B c k g a g1 Hc. cbn. rewrite Hc. reflexivity. Qed.

Lemma bind_Raise : forall {A B : Type} (c : rand A) (k : A -> rand B) g e,
  c g = Raise e -> bind c k g = Raise e.
Proof. intros A B c k g e Hc. cbn [bind rand_monad]. rewrite Hc. reflexivity. Qed.

Lemma lift_step : forall {A B : Type} (r : result A) (k : A -> rand B) g a,
  r = Ok a -> bind (lift r) k g = k a g.
Proof. intros A B r k g a ->. reflexivity. Qed.

Lemma lift_raise : forall {A B : Type} (r : result A) (k : A -> rand B) g e,
  r = Raise e -> bind (lift r) k g = Raise e.
Proof. intros A B r k g e ->. reflexivity. Qed.

Lemma random_total : forall {F : Type} `{PyFloat F} g,
  exists (r : F) g', random g = Ok (r, g').
Proof.
  intros F H g. unfold random, next_draw. cbn [bind ret rand_monad].
  eexists. eexists. reflexivity.
Qed.

Lemma uniform_total : forall {F : Type} `{PyFloat F} (a b : F) g,
  exists u g', uniform a b g = Ok (u, g').
Proof.
  intros F H a b g. unfold uniform.
  destruct (random_total g) as (r & g' & Hr).
  rewrite (bind_step _ _ _ _ _ Hr). eexists. eexists. reflexivity.
Qed.

Lemma NoDup_snoc : forall {A : Type} (l : list A) (x : A),
  NoDup l -> ~ In x l -> NoDup (l ++ [x]).
Proof.
  intros A l x Hl Hx. induction Hl as [ | y l Hy Hl IH ]; cbn.
  - constructor; [ intros [] | constructor ].
  - constructor.
    + rewrite in_app_iff. intros [Hin | [Heq | []]].
      * contradiction.
      * apply Hx. left. symmetry. exact Heq.
    + apply IH. intros Hin. apply Hx. right. exact Hin.
Qed.

Lemma result_bind_Ok : forall {A B : Type} (c : result A) (k : A -> result B) b,
  bind c k = Ok b -> exists a, c = Ok a /\ k a = Ok b.
Proof.
  intros A B c k b Hrun. destruct c as [ a | e ]; cbn in Hrun.
  - exists a. split; [ reflexivity | exact Hrun ].
  - discriminate Hrun.
Qed.

Lemma result_ret_Ok : forall {A : Type} (a b : A), ret (M := result) a = Ok b -> a = b.
Proof. intros A a b Hrun. cbn in Hrun. injection Hrun as <-. reflexivity. Qed.

(** A run returns a value on which [p] holds. *)
Definition run_satisfies {A : Type} (p : A -> bool) (r : result (A * rng_state)) : bool :=
  match r with
  | Ok (x, _) => p x
  | Raise _ => false
  end.

Definition nonempty {A : Type} (l : list A) : bool :=
  match l with
  | [] => false
  | _ :: _ => true
  end.

Lemma nonempty_spec : forall {A : Type} (l : list A), nonempty l = true -> l <> [].
Proof.
  intros A [ | x l ] Hl; [ discriminate Hl | discriminate ].
Qed.

End PyFacts.

(** * Selection pools *)

Module PoolFacts.
Import Py PyFacts HistoryV3.

Section Pools.
Context {F : Type} `{PyFloat F}.

(** A priced product comes from the catalogue and is not flagged
    [never_sell]. *)
Definition sellable (p : Priced.t F) : Prop :=
  In (Priced.product p) PRODUCTS /\ Product.never_sell (Priced.product p) = false.

Lemma price_pools_fold_sellable : forall (date : datetime) (l : list (Product.t F)) pools,
  incl l PRODUCTS ->
  Forall sellable (fst pools) -> Forall sellable (snd pools) ->
  let pools' :=
    fold_left
      (fun pools p =>
         let '(product_pool, wholesale_pool) := pools in
         if Product.never_sell p then pools
         else
           let '(retail, cost) := get_inflated_prices p date in
           let product_with_prices := Priced.mk p retail cost in
           if Product.wholesale_only p
           then (product_pool, (wholesale_pool ++ [product_with_prices])%list)
           else ((product_pool ++ [product_with_prices])%list, wholesale_pool))
      l pools in
  Forall sellable (fst pools') /\ Forall sellable (snd pools').
Proof.
  intros date l. induction l as [ | p l IH ]; intros pools Hincl Hpp Hwp.
  - cbn. split; assumption.
  - cbn [fold_left]. apply IH.
    + intros x Hx. apply Hincl. right. exact Hx.
    + destruct pools as [pp wp]. destruct (Product.never_sell p) eqn:Hns; [ exact Hpp | ].
      cbn [get_inflated_prices]. destruct (Product.wholesale_only p); cbn [fst]; [ exact Hpp | ].
      apply Forall_app. split; [ exact Hpp | ].
      constructor; [ | constructor ]. split; cbn; [ apply Hincl; left; reflexivity | exact Hns ].
    + destruct pools as [pp wp]. destruct (Product.never_sell p) eqn:Hns; [ exact Hwp | ].
      cbn [get_inflated_prices]. destruct (Product.wholesale_only p); cbn [snd]; [ | exact Hwp ].
      apply Forall_app. split; [ exact Hwp | ].
      constructor; [ | constructor ]. split; cbn; [ apply Hincl; left; reflexivity | exact Hns ].
Qed.

Lemma price_pools_sellable : forall date,
  Forall sellable (fst (price_pools date)) /\ Forall sellable (snd (price_pools date)).
Proof.
  intros date. unfold price_pools.
  apply (price_pools_fold_sellable date PRODUCTS ([], [])).
  - apply incl_refl.
  - constructor.
  - constructor.
Qed.

Lemma list_times_Forall : forall {A : Type} (P : A -> Prop) (xs : list A) n,
  Forall P xs -> Forall P (list_times xs n).
Proof.
  intros A P xs n Hxs. induction n as [ | n IH ]; cbn.
  - constructor.
  - apply Forall_app. split; assumption.
Qed.

Lemma filter_Forall : forall {A : Type} (P : A -> Prop) f (xs : list A),
  Forall P xs -> Forall P (filter f xs).
Proof.
  intros A P f xs Hxs. rewrite Forall_forall in *.
  intros x Hx. apply filter_In in Hx. apply Hxs. tauto.
Qed.

Lemma flat_map_Forall : forall {A B : Type} (P : A -> Prop) (Q : B -> Prop)
    (f : A -> list B) (xs : list A),
  (forall x, P x -> Forall Q (f x)) -> Forall P xs -> Forall Q (flat_map f xs).
Proof.
  intros A B P Q f xs Hf Hxs. induction Hxs as [ | x xs Hx Hxs IH ]; cbn.
  - constructor.
  - apply Forall_app. split; [ apply Hf; exact Hx | exact IH ].
Qed.

Lemma repeat_Forall : forall {A : Type} (P : A -> Prop) (x : A) n,
  P x -> Forall P (repeat x n).
Proof. intros A P x n Hx. induction n; cbn; constructor; auto. Qed.

Lemma weighted_pool_of_Forall : forall (P : Priced.t F -> Prop) product_pool weighted_pool,
  Forall P product_pool -> weighted_pool_of product_pool = Ok weighted_pool ->
  Forall P weighted_pool.
Proof.
  intros P product_pool. induction product_pool as [ | p rest IH ];
    intros weighted_pool Hpool Hrun; cbn [weighted_pool_of] in Hrun.
  - apply result_ret_Ok in Hrun. subst weighted_pool. constructor.
  - inversion Hpool as [ | ? ? Hp Hrest ]; subst.
    apply result_bind_Ok in Hrun. destruct Hrun as (hero_boost & _ & Hrun).
    apply result_bind_Ok in Hrun. destruct Hrun as (w & Hw & Hrun).
    apply result_ret_Ok in Hrun. subst weighted_pool.
    constructor; [ exact Hp | ].
    apply Forall_app. split; [ apply repeat_Forall; exact Hp | ].
    apply IH; assumption.
Qed.

Lemma hero_extras_Forall : forall (P : Priced.t F -> Prop) product_pool extras,
  Forall P product_pool -> hero_extras product_pool = Ok extras -> Forall P extras.
Proof.
  intros P product_pool. induction product_pool as [ | p rest IH ];
    intros extras Hpool Hrun; cbn [hero_extras] in Hrun.
  - apply result_ret_Ok in Hrun. subst extras. constructor.
  - inversion Hpool as [ | ? ? Hp Hrest ]; subst.
    apply result_bind_Ok in Hrun. destruct Hrun as (own & Hown & Hrun).
    apply result_bind_Ok in Hrun. destruct Hrun as (more & Hmore & Hrun).
    apply result_ret_Ok in Hrun. subst extras.
    apply Forall_app. split; [ | apply IH; assumption ].
    destruct (fltb _ _).
    + apply result_bind_Ok in Hown. destruct Hown as (hero_boost & _ & Hown).
      apply result_ret_Ok in Hown. subst own. apply repeat_Forall. exact Hp.
    + apply result_ret_Ok in Hown. subst own. constructor.
Qed.

(** What holds of the retail products, and of the wholesale products
    when the profile is neither SNACKER nor HOUSEHOLD, holds of the
    selection pool. *)
Lemma selection_pool_Forall : forall (P : Priced.t F -> Prop) profile date selection_pool,
  Forall P (fst (price_pools date)) ->
  (String.eqb profile "SNACKER" || String.eqb profile "HOUSEHOLD" = false ->
   Forall P (snd (price_pools date))) ->
  selection_pool_of profile date = Ok selection_pool ->
  Forall P selection_pool.
Proof.
  intros P profile date selection_pool Hpp Hwp Hrun. unfold selection_pool_of in Hrun.
  destruct (price_pools date) as [product_pool wholesale_pool]. cbn [fst snd] in *.
  apply result_bind_Ok in Hrun. destruct Hrun as (weighted_pool & Hweighted & Hrun).
  apply result_bind_Ok in Hrun. destruct Hrun as (extras & Hextras & Hrun).
  apply result_ret_Ok in Hrun. subst selection_pool.
  apply (weighted_pool_of_Forall P) in Hweighted; [ | exact Hpp ].
  apply (hero_extras_Forall P) in Hextras; [ | exact Hpp ].
  set (cheap := filter _ product_pool).
  set (mid := filter _ product_pool).
  set (expensive := filter _ product_pool).
  assert (Hcheap : Forall P cheap) by (apply filter_Forall; exact Hpp).
  assert (Hmid : Forall P mid) by (apply filter_Forall; exact Hpp).
  assert (Hexp : Forall P expensive) by (apply filter_Forall; exact Hpp).
  clearbody cheap mid expensive.
  apply Forall_app. split; [ | exact Hextras ].
  destruct (String.eqb profile "SNACKER").
  - destruct cheap as [ | c cs ]; [ exact Hweighted | ].
    apply Forall_app. split; [ apply list_times_Forall; exact Hcheap | exact Hmid ].
  - destruct (String.eqb profile "HOUSEHOLD").
    + apply Forall_app. split; [ apply list_times_Forall; exact Hcheap | ].
      apply Forall_app. split; [ apply list_times_Forall; exact Hmid | exact Hexp ].
    + apply Forall_app. split; [ exact Hweighted | ].
      apply list_times_Forall. apply Hwp. reflexivity.
Qed.

Lemma selection_pool_sellable : forall profile date selection_pool,
  selection_pool_of profile date = Ok selection_pool ->
  Forall sellable selection_pool.
Proof.
  intros profile date selection_pool Hrun.
  destruct (price_pools_sellable date) as [Hpp Hwp].
  eapply selection_pool_Forall; [ exact Hpp | intros _; exact Hwp | exact Hrun ].
Qed.
End Pools.

End PoolFacts.

(** * Baskets *)

Module BasketFacts.
Import Py PyFacts HistoryV3 PoolFacts.

Definition ctl_state {S : Type} (c : loop_ctl S) : S :=
  match c with Continue s => s | Break s => s end.

Section Basket.
Context {F : Type} `{PyFloat F}.

(** What one pass of the selection loop may do to the basket: nothing, or
    append one item drawn from the pool whose barcode is not yet in it. *)
Definition basket_step (selection_pool : list (Priced.t F))
    (st st' : list (Item.t F) * F) : Prop :=
  st' = st \/
  exists item,
    fst st' = (fst st ++ [item])%list /\
    In (Item.priced item) selection_pool /\
    existsb (fun it => String.eqb (item_barcode it) (item_barcode item)) (fst st) = false.

Lemma select_step_shape : forall profile date campaigns promos min_qty max_qty target_max
    selection_pool st g c g',
  select_step profile date campaigns promos min_qty max_qty target_max selection_pool st g
    = Ok (c, g') ->
  basket_step selection_pool st (ctl_state c).
Proof.
  intros profile date campaigns promos min_qty max_qty target_max selection_pool
    [selected_items current_total] g c g' Hrun.
  unfold select_step in Hrun.
  destruct selection_pool as [ | p0 pool' ].
  { apply ret_Ok in Hrun. destruct Hrun as [<- _]. left. reflexivity. }
  remember (p0 :: pool') as selection_pool eqn:Hpool.
  apply bind_Ok in Hrun. destruct Hrun as (product & g1 & Hchoice & Hrun).
  apply choice_In in Hchoice.
  apply bind_Ok in Hrun. destruct Hrun as (qty & g2 & _ & Hrun).
  destruct (is_within_campaign date campaigns _) as [in_campaign ?].
  destruct (is_within_store_promo date promos _) as [in_promo ?].
  apply bind_Ok in Hrun. destruct Hrun as (fitted & g3 & _ & Hrun).
  destruct fitted as [ [qty' item_total] | ].
  - destruct (existsb _ selected_items) eqn:Hdup.
    + apply ret_Ok in Hrun. destruct Hrun as [<- _]. left. reflexivity.
    + destruct (fleb target_max _);
        apply ret_Ok in Hrun; destruct Hrun as [<- _]; right;
        eexists; cbn [ctl_state fst]; (split; [ reflexivity | ]);
        (split; [ exact Hchoice | exact Hdup ]).
  - apply ret_Ok in Hrun. destruct Hrun as [<- _]. left. reflexivity.
Qed.

Lemma select_loop_invariant : forall (Inv : list (Item.t F) * F -> Prop)
    profile date campaigns promos min_qty max_qty target_max selection_pool num_items,
  (forall st st', Inv st -> Z.of_nat (List.length (fst st)) < num_items ->
                  basket_step selection_pool st st' -> Inv st') ->
  forall remaining st g st' g',
    Inv st ->
    select_loop profile date campaigns promos min_qty max_qty target_max selection_pool
      num_items remaining st g = Ok (st', g') ->
    Inv st'.
Proof.
  intros Inv profile date campaigns promos min_qty max_qty target_max selection_pool
    num_items Hstep remaining.
  induction remaining as [ | remaining IH ]; intros st g st' g' Hinv Hrun.
  - apply ret_Ok in Hrun. destruct Hrun as [<- _]. exact Hinv.
  - cbn [select_loop] in Hrun.
    destruct (Z.of_nat (List.length (fst st)) <? num_items) eqn:Hlen.
    + apply Z.ltb_lt in Hlen.
      apply bind_Ok in Hrun. destruct Hrun as (c & g1 & Hc & Hrun).
      apply select_step_shape in Hc.
      destruct c as [ st1 | st1 ]; cbn [ctl_state] in Hc.
      * eapply IH; [ | exact Hrun ]. eapply Hstep; eauto.
      * apply ret_Ok in Hrun. destruct Hrun as [<- _]. eapply Hstep; eauto.
    + apply ret_Ok in Hrun. destruct Hrun as [<- _]. exact Hinv.
Qed.

(** The invariant of the selection loop: the basket holds items of the
    pool, with pairwise distinct barcodes, at most [num_items] of them. *)
Definition basket_ok (selection_pool : list (Priced.t F)) (num_items : Z)
    (st : list (Item.t F) * F) : Prop :=
  Forall (fun item => In (Item.priced item) selection_pool) (fst st) /\
  NoDup (map item_barcode (fst st)) /\
  Z.of_nat (List.length (fst st)) <= num_items.

Lemma existsb_barcode_false : forall (items : list (Item.t F)) (item : Item.t F),
  existsb (fun it => String.eqb (item_barcode it) (item_barcode item)) items = false ->
  ~ In (item_barcode item) (map item_barcode items).
Proof.
  intros items item Hex Hin. apply in_map_iff in Hin. destruct Hin as (it & Heq & Hit).
  assert (Htrue : existsb (fun it => String.eqb (item_barcode it) (item_barcode item)) items
                  = true).
  { apply existsb_exists. exists it. split; [ exact Hit | ]. apply String.eqb_eq. exact Heq. }
  congruence.
Qed.

Lemma basket_ok_step : forall selection_pool num_items st st',
  basket_ok selection_pool num_items st ->
  Z.of_nat (List.length (fst st)) < num_items ->
  basket_step selection_pool st st' ->
  basket_ok selection_pool num_items st'.
Proof.
  intros selection_pool num_items st st' (Hin & Hnd & Hlen) Hlt [-> | (item & Hst' & Hitem & Hnew)].
  - repeat split; assumption.
  - unfold basket_ok. rewrite Hst'. repeat split.
    + apply Forall_app. split; [ exact Hin | constructor; [ exact Hitem | constructor ] ].
    + rewrite map_app. cbn [map]. apply NoDup_snoc; [ exact Hnd | ].
      apply existsb_barcode_false. exact Hnew.
    + rewrite length_app. cbn [List.length]. lia.
Qed.

(** The profiles' item ranges, as [get_products_for_profile] reads them. *)
Definition max_items_of (profile : string) : option Z :=
  option_map (fun config => snd (ProfileConfig.items_range config))
    (dict_get (CUSTOMER_PROFILES (F := F)) profile).

Lemma customer_profile_ranges : forall profile (config : ProfileConfig.t F),
  dict_get CUSTOMER_PROFILES profile = Some config ->
  1 <= fst (ProfileConfig.items_range config).
Proof.
  intros profile config Hget. unfold CUSTOMER_PROFILES in Hget. cbn [dict_get] in Hget.
  repeat match type of Hget with
  | (if ?b then _ else _) = _ => destruct b
  end;
  inversion Hget; subst; cbn; lia.
Qed.

Lemma basket_of_profile : forall profile date campaigns promos g items g',
  get_products_for_profile profile date campaigns promos g = Ok (items, g') ->
  exists max_items,
    max_items_of profile = Some max_items /\
    Forall (fun item => sellable (Item.priced item)) items /\
    NoDup (map item_barcode items) /\
    Z.of_nat (List.length items) <= max_items.
Proof.
  intros profile date campaigns promos g items g' Hrun.
  unfold get_products_for_profile in Hrun. unfold max_items_of.
  destruct (dict_get CUSTOMER_PROFILES profile) as [ config | ] eqn:Hconfig;
    [ | discriminate Hrun ].
  apply customer_profile_ranges in Hconfig.
  destruct config as [weight [min_items max_items] [target_min target_max] [min_qty max_qty]].
  cbn [ProfileConfig.items_range ProfileConfig.ticket_range ProfileConfig.qty_per_item fst]
    in Hrun, Hconfig.
  exists max_items. split; [ reflexivity | ].
  apply bind_Ok in Hrun. destruct Hrun as (num_items & g1 & Hnum & Hrun).
  apply randint_range in Hnum.
  apply bind_Ok in Hrun. destruct Hrun as (pool0 & g1' & Hpool & Hrun).
  apply lift_Ok in Hpool. destruct Hpool as [Hpool _].
  apply bind_Ok in Hrun. destruct Hrun as (pool & g2 & Hshuffle & Hrun).
  apply (shuffle_Forall sellable) in Hshuffle;
    [ | eapply selection_pool_sellable; exact Hpool ].
  apply bind_Ok in Hrun. destruct Hrun as (st & g3 & Hloop & Hrun).
  apply ret_Ok in Hrun. destruct Hrun as [<- _].
  eapply (select_loop_invariant (basket_ok pool num_items)) in Hloop.
  - destruct Hloop as (Hin & Hnd & Hlen). repeat split.
    + rewrite Forall_forall in *. intros item Hitem. apply Hshuffle. apply Hin. exact Hitem.
    + exact Hnd.
    + lia.
  - intros st0 st1. apply basket_ok_step.
  - repeat split; cbn; [ constructor | constructor | lia ].
Qed.
End Basket.
End BasketFacts.

(** * Transactions *)

Module TransactionFacts.
Import Py PyFacts HistoryV3 PoolFacts BasketFacts.

Section Transactions.
Context {F : Type} `{PyFloat F}.

(** [f"TX-{transaction_id_base}-{tx_counter:04d}"] *)
Definition tx_id (transaction_id_base : string) (tx_counter : Z) : string :=
  ("TX-" ++ transaction_id_base ++ "-" ++ format_04d tx_counter)%string.

Lemma transaction_row_fields : forall date campaigns promos in_holiday holiday
    transaction_id tx_time profile payment (item : Item.t F),
  let row := transaction_row date campaigns promos in_holiday holiday transaction_id
               tx_time profile payment item in
  Row.transaction_id row = transaction_id /\
  Row.date row = strftime_Y_m_d date /\
  Row.time row = strftime_HMS tx_time /\
  Row.customer_type row = profile /\
  Row.payment_method row = payment /\
  Row.barcode row = item_barcode item /\
  Row.subtotal row = Item.subtotal item /\
  Row.cost_total row = Item.cost_total item.
Proof.
  intros date campaigns promos in_holiday holiday transaction_id tx_time profile payment item.
  unfold transaction_row.
  destruct (is_within_campaign date campaigns _) as [in_campaign campaign].
  destruct (is_within_store_promo date promos _) as [in_promo promo].
  destruct in_campaign, in_promo, in_holiday; cbn; repeat split; reflexivity.
Qed.

(** What a transaction that was generated looks like. *)
Lemma generate_transaction_Some : forall date campaigns promos in_holiday holiday
    transaction_id_base tx_counter g tx g',
  generate_transaction date campaigns promos in_holiday holiday transaction_id_base
    tx_counter g = Ok (Some tx, g') ->
  exists items profile tx_time payment,
    items <> [] /\
    Forall (fun item => sellable (Item.priced item)) items /\
    Tx.tx_total tx = sum (map Item.subtotal items) /\
    Tx.tx_cost tx = sum (map Item.cost_total items) /\
    Tx.rows tx =
      map (transaction_row date campaigns promos in_holiday holiday
             (tx_id transaction_id_base tx_counter) tx_time profile payment) items.
Proof.
  intros date campaigns promos in_holiday holiday transaction_id_base tx_counter g tx g' Hrun.
  unfold generate_transaction in Hrun.
  apply bind_Ok in Hrun. destruct Hrun as (profile & g1 & _ & Hrun).
  apply bind_Ok in Hrun. destruct Hrun as (items & g2 & Hitems & Hrun).
  apply basket_of_profile in Hitems. destruct Hitems as (max_items & _ & Hsell & _ & _).
  destruct items as [ | item items' ].
  { apply ret_Ok in Hrun. destruct Hrun as [Hnone _]. discriminate Hnone. }
  apply bind_Ok in Hrun. destruct Hrun as (tx_time & g3 & _ & Hrun).
  apply bind_Ok in Hrun. destruct Hrun as (payment & g4 & _ & Hrun).
  apply ret_Ok in Hrun. destruct Hrun as [Htx _].
  injection Htx as <-.
  exists (item :: items'), profile, tx_time, payment.
  cbn [Tx.tx_total Tx.tx_cost Tx.rows].
  repeat split; try reflexivity; [ discriminate | exact Hsell ].
Qed.
End Transactions.

End TransactionFacts.

(** * Formatting and the calendar *)

Module FormatFacts.
Import Py PyFacts.

(** *** Decimal formatting *)

Lemma digit_inj : forall a b,
  0 <= a < 10 -> 0 <= b < 10 -> digit a = digit b -> a = b.
Proof.
  intros a b Ha Hb Heq. unfold digit in Heq.
  apply (f_equal nat_of_ascii) in Heq.
  rewrite !nat_ascii_embedding in Heq by lia. lia.
Qed.

Lemma zero_padded_inj : forall w a b acc1 acc2,
  zero_padded w a acc1 = zero_padded w b acc2 ->
  a mod 10 ^ Z.of_nat w = b mod 10 ^ Z.of_nat w /\ acc1 = acc2.
Proof.
  induction w as [ | w IH ]; intros a b acc1 acc2 Heq.
  - cbn in Heq. split; [ | exact Heq ]. cbn. rewrite !Z.mod_1_r. reflexivity.
  - cbn [zero_padded] in Heq. apply IH in Heq. destruct Heq as [Hhigh Hacc].
    injection Hacc as Hdigit Hacc.
    apply digit_inj in Hdigit; try (apply Z.mod_pos_bound; lia).
    split; [ | exact Hacc ].
    rewrite Nat2Z.inj_succ, Z.pow_succ_r by lia.
    rewrite !Z.rem_mul_r by lia. rewrite Hhigh, Hdigit. reflexivity.
Qed.

Lemma zero_padded_length : forall w n acc,
  String.length (zero_padded w n acc) = (w + String.length acc)%nat.
Proof.
  induction w as [ | w IH ]; intros n acc; cbn [zero_padded].
  - reflexivity.
  - rewrite IH. cbn [String.length]. lia.
Qed.

Lemma zero_padded_app : forall w n acc s,
  (zero_padded w n acc ++ s)%string = zero_padded w n (acc ++ s)%string.
Proof.
  induction w as [ | w IH ]; intros n acc s; cbn [zero_padded].
  - reflexivity.
  - rewrite IH. reflexivity.
Qed.

Lemma width_from_spec : forall fuel k n,
  n < 10 ^ Z.of_nat (k + fuel) -> n < 10 ^ Z.of_nat (width_from fuel k n).
Proof.
  induction fuel as [ | fuel IH ]; intros k n Hn; cbn [width_from].
  - rewrite Nat.add_0_r in Hn. exact Hn.
  - destruct (n <? 10 ^ Z.of_nat k) eqn:Hk.
    + apply Z.ltb_lt. exact Hk.
    + apply IH. replace (S k + fuel)%nat with (k + S fuel)%nat by lia. exact Hn.
Qed.

Lemma format_04d_inj : forall a b,
  0 <= a -> 0 <= b -> format_04d a = format_04d b -> a = b.
Proof.
  intros a b Ha Hb Heq. unfold format_04d in Heq.
  assert (Hwa : a < 10 ^ Z.of_nat (width_from (Z.to_nat a) 4 a)).
  { apply width_from_spec. rewrite Nat2Z.inj_add, Z2Nat.id by lia.
    pose proof (Z.pow_gt_lin_r 10 (4 + a)). cbn [Z.of_nat Pos.of_succ_nat Pos.succ]. lia. }
  assert (Hwb : b < 10 ^ Z.of_nat (width_from (Z.to_nat b) 4 b)).
  { apply width_from_spec. rewrite Nat2Z.inj_add, Z2Nat.id by lia.
    pose proof (Z.pow_gt_lin_r 10 (4 + b)). cbn [Z.of_nat Pos.of_succ_nat Pos.succ]. lia. }
  assert (Hw : width_from (Z.to_nat a) 4 a = width_from (Z.to_nat b) 4 b).
  { apply (f_equal String.length) in Heq. rewrite !zero_padded_length in Heq. lia. }
  rewrite Hw in Heq, Hwa. apply zero_padded_inj in Heq. destruct Heq as [Hmod _].
  rewrite !Z.mod_small in Hmod by lia. exact Hmod.
Qed.

(** *** The calendar *)

Lemma is_leap_shift : forall y q, is_leap (y + 400 * q) = is_leap y.
Proof.
  intros y q. unfold is_leap.
  replace ((y + 400 * q) mod 4) with (y mod 4) by (Z.div_mod_to_equations; lia).
  replace ((y + 400 * q) mod 100) with (y mod 100) by (Z.div_mod_to_equations; lia).
  replace ((y + 400 * q) mod 400) with (y mod 400) by (Z.div_mod_to_equations; lia).
  reflexivity.
Qed.

Lemma ymd2ord_shift : forall y m d q,
  ymd2ord (y + 400 * q) m d = ymd2ord y m d + 146097 * q.
Proof.
  intros y m d q. unfold ymd2ord, days_before_month, days_before_year.
  rewrite is_leap_shift. cbv zeta. Z.div_mod_to_equations. lia.
Qed.

Lemma ord2ymd_shift : forall n q,
  ord2ymd (n + 146097 * q) =
  (fst (fst (ord2ymd n)) + 400 * q, snd (fst (ord2ymd n)), snd (ord2ymd n)).
Proof.
  intros n q. unfold ord2ymd.
  replace (n + 146097 * q - 1) with (n - 1 + q * 146097) by lia.
  rewrite Z.div_add, Z.mod_add by lia.
  cbv zeta.
  repeat match goal with
  | |- context [if ?b then _ else _] => destruct b
  end; cbn [fst snd]; f_equal; try f_equal; lia.
Qed.

(** The checks below run over one cycle of 400 years. *)
Definition ordinal_ok (n : Z) : bool :=
  let '(y, m, d) := ord2ymd n in
  (ymd2ord y m d =? n) && (1 <=? y) && (y <=? 400)
  && (1 <=? m) && (m <=? 12) && (1 <=? d) && (d <=? 31).

Fixpoint all_from (check : Z -> bool) (count : nat) (n : Z) : bool :=
  match count with
  | O => true
  | S count' => check n && all_from check count' (n + 1)
  end.

Lemma all_from_spec : forall check count n,
  all_from check count n = true ->
  forall i, n <= i < n + Z.of_nat count -> check i = true.
Proof.
  induction count as [ | count IH ]; intros n Hall i Hi.
  - lia.
  - cbn [all_from] in Hall. apply andb_true_iff in Hall. destruct Hall as [Hn Hrest].
    destruct (Z.eq_dec i n) as [-> | Hne]; [ exact Hn | ].
    apply (IH (n + 1) Hrest). lia.
Qed.

Lemma first_cycle_ok : all_from ordinal_ok (Z.to_nat 146097) 1 = true.
Proof. vm_compute. reflexivity. Qed.

(** [ymd2ord] undoes [ord2ymd], and the fields are in range. *)
Lemma ord2ymd_spec : forall n, 1 <= n ->
  let '(y, m, d) := ord2ymd n in
  ymd2ord y m d = n /\ 1 <= y /\ 1 <= m <= 12 /\ 1 <= d <= 31.
Proof.
  intros n Hn.
  set (q := (n - 1) / 146097). set (r := (n - 1) mod 146097 + 1).
  assert (Hr : 1 <= r < 1 + Z.of_nat (Z.to_nat 146097)).
  { unfold r. rewrite Z2Nat.id by lia. pose proof (Z.mod_pos_bound (n - 1) 146097). lia. }
  assert (Hq : 0 <= q) by (unfold q; apply Z.div_pos; lia).
  assert (Hnr : n = r + 146097 * q).
  { unfold r, q. pose proof (Z.div_mod (n - 1) 146097). lia. }
  pose proof (all_from_spec _ _ _ first_cycle_ok r Hr) as Hok.
  unfold ordinal_ok in Hok.
  clearbody q r. subst n. rewrite ord2ymd_shift.
  destruct (ord2ymd r) as [[y m] d]. cbn [fst snd].
  repeat (apply andb_true_iff in Hok; destruct Hok as [Hok ?]).
  rewrite ymd2ord_shift. lia.
Qed.

Lemma days_before_month_nonneg : forall y m, 1 <= m <= 12 -> 0 <= days_before_month y m.
Proof.
  intros y m Hm. unfold days_before_month, DAYS_BEFORE_MONTH.
  assert (Hcases : m = 1 \/ m = 2 \/ m = 3 \/ m = 4 \/ m = 5 \/ m = 6 \/ m = 7 \/ m = 8
                   \/ m = 9 \/ m = 10 \/ m = 11 \/ m = 12) by lia.
  repeat (destruct Hcases as [-> | Hcases]); try subst m;
    destruct (is_leap y); vm_compute; discriminate.
Qed.

(** The range of a Python [datetime]: years 1 to 9999. *)
Definition MAX_ORDINAL : Z := 3652059.

Lemma year_range : forall n, 1 <= n <= MAX_ORDINAL ->
  1 <= fst (fst (ord2ymd n)) <= 9999.
Proof.
  intros n [Hlo Hhi]. pose proof (ord2ymd_spec n Hlo) as Hspec.
  destruct (ord2ymd n) as [[y m] d]. cbn [fst snd].
  destruct Hspec as (Hround & Hy & Hm & Hd).
  split; [ exact Hy | ].
  pose proof (days_before_month_nonneg y m Hm) as Hdbm.
  unfold ymd2ord, days_before_year in Hround. unfold MAX_ORDINAL in Hhi.
  cbv zeta in Hround. Z.div_mod_to_equations. lia.
Qed.

Lemma strftime_Ymd_app : forall d s,
  (strftime_Ymd d ++ s)%string =
  zero_padded 4 (year d) (zero_padded 2 (month d) (zero_padded 2 (day d) s)).
Proof.
  intros d s. unfold strftime_Ymd. rewrite !zero_padded_app. reflexivity.
Qed.

(** Two dates in range with the same [%Y%m%d] text, whatever follows it,
    are the same day. *)
Lemma strftime_Ymd_inj : forall d1 d2 s1 s2,
  1 <= ordinal d1 <= MAX_ORDINAL -> 1 <= ordinal d2 <= MAX_ORDINAL ->
  (strftime_Ymd d1 ++ s1)%string = (strftime_Ymd d2 ++ s2)%string ->
  ordinal d1 = ordinal d2 /\ s1 = s2.
Proof.
  intros d1 d2 s1 s2 H1 H2 Heq. rewrite !strftime_Ymd_app in Heq.
  pose proof (year_range _ H1) as Hy1. pose proof (year_range _ H2) as Hy2.
  pose proof (ord2ymd_spec (ordinal d1) (proj1 H1)) as Hs1.
  pose proof (ord2ymd_spec (ordinal d2) (proj1 H2)) as Hs2.
  unfold year, month, day in Heq.
  destruct (ord2ymd (ordinal d1)) as [[y1 m1] dd1].
  destruct (ord2ymd (ordinal d2)) as [[y2 m2] dd2].
  cbn [fst snd] in *.
  apply zero_padded_inj in Heq. destruct Heq as [Hy Heq].
  apply zero_padded_inj in Heq. destruct Heq as [Hm Heq].
  apply zero_padded_inj in Heq. destruct Heq as [Hd Heq].
  change (10 ^ Z.of_nat 4) with 10000 in Hy.
  change (10 ^ Z.of_nat 2) with 100 in Hm, Hd.
  rewrite !Z.mod_small in Hy, Hm, Hd by lia.
  destruct Hs1 as (Hr1 & _). destruct Hs2 as (Hr2 & _).
  split; [ | exact Heq ].
  rewrite <- Hr1, <- Hr2, Hy, Hm, Hd. reflexivity.
Qed.

End FormatFacts.

(** * Runs of the v3 generator *)

Module RunFacts.
Import Py PyFacts FormatFacts HistoryV3 PoolFacts BasketFacts TransactionFacts.

(** Transactions are keyed by the ordinal of their day and their counter,
    in lexicographic order. *)
Definition key_lt (k1 k2 : Z * Z) : Prop :=
  fst k1 < fst k2 \/ (fst k1 = fst k2 /\ snd k1 < snd k2).

Lemma StronglySorted_app : forall {A : Type} (R : A -> A -> Prop) (l1 l2 : list A),
  StronglySorted R l1 -> StronglySorted R l2 ->
  (forall x y, In x l1 -> In y l2 -> R x y) ->
  StronglySorted R (l1 ++ l2).
Proof.
  intros A R l1 l2 H1 H2 Hcross. induction H1 as [ | x l1 Hl1 IH Hx ]; cbn.
  - exact H2.
  - constructor.
    + apply IH. intros a b Ha Hb. apply Hcross; [ right; exact Ha | exact Hb ].
    + apply Forall_app. split; [ exact Hx | ].
      apply Forall_forall. intros y Hy. apply Hcross; [ left; reflexivity | exact Hy ].
Qed.

Lemma StronglySorted_map_pair : forall (o : Z) (counters : list Z),
  StronglySorted Z.lt counters -> StronglySorted key_lt (map (pair o) counters).
Proof.
  intros o counters Hs. induction Hs as [ | c counters Hs IH Hc ]; cbn.
  - constructor.
  - constructor; [ exact IH | ].
    apply Forall_forall. intros k Hk. apply in_map_iff in Hk.
    destruct Hk as (c' & <- & Hc'). rewrite Forall_forall in Hc.
    right. cbn. split; [ reflexivity | apply Hc; exact Hc' ].
Qed.

Section Run.
Context {F : Type} `{PyFloat F}.

(** Two lines carry the same transaction header. *)
Definition same_header (r1 r2 : Row.t F) : Prop :=
  Row.transaction_id r1 = Row.transaction_id r2 /\
  Row.date r1 = Row.date r2 /\
  Row.time r1 = Row.time r2 /\
  Row.customer_type r1 = Row.customer_type r2 /\
  Row.payment_method r1 = Row.payment_method r2.

(** The lines of the transaction with key [key]: there is at least one,
    each carries the id made of the day and the counter, and all carry the
    same header. *)
Definition transaction_lines (lines : list (Row.t F)) (key : Z * Z) : Prop :=
  lines <> [] /\
  (exists d, ordinal d = fst key /\
     forall r, In r lines -> Row.transaction_id r = tx_id (strftime_Ymd d) (snd key)) /\
  (forall r1 r2, In r1 lines -> In r2 lines -> same_header r1 r2).

Lemma generate_transaction_lines : forall date campaigns promos in_holiday holiday
    tx_counter g tx g',
  generate_transaction date campaigns promos in_holiday holiday (strftime_Ymd date)
    tx_counter g = Ok (Some tx, g') ->
  transaction_lines (Tx.rows tx) (ordinal date, tx_counter).
Proof.
  intros date campaigns promos in_holiday holiday tx_counter g tx g' Hrun.
  apply generate_transaction_Some in Hrun.
  destruct Hrun as (items & profile & tx_time & payment & Hne & _ & _ & _ & Hrows).
  rewrite Hrows. split; [ | split ].
  - destruct items; [ congruence | discriminate ].
  - exists date. split; [ reflexivity | ]. intros r Hr.
    apply in_map_iff in Hr. destruct Hr as (item & <- & _).
    apply transaction_row_fields.
  - intros r1 r2 Hr1 Hr2.
    apply in_map_iff in Hr1. destruct Hr1 as (i1 & <- & _).
    apply in_map_iff in Hr2. destruct Hr2 as (i2 & <- & _).
    pose proof (transaction_row_fields date campaigns promos in_holiday holiday
                  (tx_id (strftime_Ymd date) tx_counter) tx_time profile payment i1) as H1.
    pose proof (transaction_row_fields date campaigns promos in_holiday holiday
                  (tx_id (strftime_Ymd date) tx_counter) tx_time profile payment i2) as H2.
    cbv zeta in H1, H2. unfold same_header. intuition congruence.
Qed.

Lemma transactions_loop_blocks : forall date campaigns promos in_holiday holiday
    n tx_counter transactions g rows g',
  transactions_loop date campaigns promos in_holiday holiday (strftime_Ymd date)
    n tx_counter transactions g = Ok (rows, g') ->
  exists blocks counters,
    rows = (transactions ++ List.concat blocks)%list /\
    Forall2 (fun lines c => transaction_lines lines (ordinal date, c)) blocks counters /\
    StronglySorted Z.lt counters /\
    Forall (fun c => tx_counter <= c) counters.
Proof.
  intros date campaigns promos in_holiday holiday n.
  induction n as [ | n IH ]; intros tx_counter transactions g rows g' Hrun.
  - apply ret_Ok in Hrun. destruct Hrun as [<- _].
    exists [], []. cbn. rewrite app_nil_r. repeat split; constructor.
  - cbn [transactions_loop] in Hrun.
    apply bind_Ok in Hrun. destruct Hrun as (tx & g1 & Htx & Hrun).
    apply IH in Hrun. destruct Hrun as (blocks & counters & Hrows & Hblocks & Hsorted & Hlow).
    destruct tx as [ tx | ].
    + apply generate_transaction_lines in Htx.
      exists (Tx.rows tx :: blocks), (tx_counter :: counters).
      split; [ | split; [ | split ] ].
      * rewrite Hrows. cbn [List.concat]. rewrite app_assoc. reflexivity.
      * constructor; assumption.
      * constructor; [ exact Hsorted | ].
        eapply Forall_impl; [ | exact Hlow ]. intros c Hc. cbn in Hc. lia.
      * constructor; [ lia | ].
        eapply Forall_impl; [ | exact Hlow ]. intros c Hc. cbn in Hc. lia.
    + exists blocks, counters.
      split; [ exact Hrows | split; [ exact Hblocks | split; [ exact Hsorted | ] ] ].
      eapply Forall_impl; [ | exact Hlow ]. intros c Hc. cbn in Hc. lia.
Qed.

Lemma generate_daily_transactions_blocks : forall date campaigns promos holidays g rows g',
  generate_daily_transactions date campaigns promos holidays g = Ok (rows, g') ->
  exists blocks keys,
    rows = List.concat blocks /\
    Forall2 transaction_lines blocks keys /\
    StronglySorted key_lt keys /\
    Forall (fun k => fst k = ordinal date /\ 1 <= snd k) keys.
Proof.
  intros date campaigns promos holidays g rows g' Hrun.
  unfold generate_daily_transactions in Hrun.
  destruct (is_within_holiday date holidays) as [in_holiday holiday].
  apply bind_Ok in Hrun. destruct Hrun as (target & g1 & _ & Hrun).
  apply transactions_loop_blocks in Hrun.
  destruct Hrun as (blocks & counters & Hrows & Hblocks & Hsorted & Hlow).
  exists blocks, (map (pair (ordinal date)) counters).
  split; [ exact Hrows | split; [ | split ] ].
  - clear Hrows Hsorted Hlow. induction Hblocks; cbn; constructor; assumption.
  - apply StronglySorted_map_pair. exact Hsorted.
  - apply Forall_forall. intros k Hk. apply in_map_iff in Hk.
    destruct Hk as (c & <- & Hc). rewrite Forall_forall in Hlow. cbn.
    split; [ reflexivity | apply Hlow; exact Hc ].
Qed.

Variable END_DATE : datetime.

Lemma sales_loop_blocks : forall all_campaigns all_promos all_holidays fuel current_date
    all_sales g rows g',
  sales_loop END_DATE all_campaigns all_promos all_holidays fuel current_date all_sales g
    = Ok (rows, g') ->
  exists blocks keys,
    rows = (all_sales ++ List.concat blocks)%list /\
    Forall2 transaction_lines blocks keys /\
    StronglySorted key_lt keys /\
    Forall (fun k => ordinal current_date <= fst k <= ordinal END_DATE /\ 1 <= snd k) keys.
Proof.
  intros all_campaigns all_promos all_holidays fuel.
  induction fuel as [ | fuel IH ]; intros current_date all_sales g rows g' Hrun.
  - apply ret_Ok in Hrun. destruct Hrun as [<- _].
    exists [], []. cbn. rewrite app_nil_r. repeat split; constructor.
  - cbn [sales_loop] in Hrun.
    destruct (dt_leb current_date END_DATE) eqn:Hle.
    + apply bind_Ok in Hrun. destruct Hrun as (daily & g1 & Hdaily & Hrun).
      apply generate_daily_transactions_blocks in Hdaily.
      destruct Hdaily as (blocks1 & keys1 & Hrows1 & Hblocks1 & Hsorted1 & Hkeys1).
      apply IH in Hrun.
      destruct Hrun as (blocks2 & keys2 & Hrows2 & Hblocks2 & Hsorted2 & Hkeys2).
      cbn [add_days ordinal] in Hkeys2.
      assert (Hord : ordinal current_date <= ordinal END_DATE).
      { unfold dt_leb in Hle. apply orb_true_iff in Hle. destruct Hle as [Hlt | Heq].
        - apply Z.ltb_lt in Hlt. lia.
        - apply andb_true_iff in Heq. destruct Heq as [Heq _]. apply Z.eqb_eq in Heq. lia. }
      exists (blocks1 ++ blocks2)%list, (keys1 ++ keys2)%list.
      split; [ | split; [ | split ] ].
      * rewrite Hrows2, Hrows1, concat_app, app_assoc. reflexivity.
      * apply Forall2_app; assumption.
      * apply StronglySorted_app; [ exact Hsorted1 | exact Hsorted2 | ].
        intros k1 k2 Hk1 Hk2. rewrite Forall_forall in Hkeys1, Hkeys2.
        specialize (Hkeys1 k1 Hk1). specialize (Hkeys2 k2 Hk2). left. lia.
      * apply Forall_app. split.
        -- eapply Forall_impl; [ | exact Hkeys1 ]. intros k Hk. cbn in Hk. lia.
        -- eapply Forall_impl; [ | exact Hkeys2 ]. intros k Hk. cbn in Hk. lia.
    + apply ret_Ok in Hrun. destruct Hrun as [<- _].
      exists [], []. cbn. rewrite app_nil_r. repeat split; constructor.
Qed.

Lemma tx_id_inj : forall d1 d2 c1 c2,
  1 <= ordinal d1 <= MAX_ORDINAL -> 1 <= ordinal d2 <= MAX_ORDINAL ->
  0 <= c1 -> 0 <= c2 ->
  tx_id (strftime_Ymd d1) c1 = tx_id (strftime_Ymd d2) c2 ->
  ordinal d1 = ordinal d2 /\ c1 = c2.
Proof.
  intros d1 d2 c1 c2 Hd1 Hd2 Hc1 Hc2 Heq. unfold tx_id in Heq.
  remember (strftime_Ymd d1 ++ "-" ++ format_04d c1)%string as s1 eqn:Hs1.
  remember (strftime_Ymd d2 ++ "-" ++ format_04d c2)%string as s2 eqn:Hs2.
  cbn [append] in Heq. injection Heq as Heq. subst s1 s2.
  apply strftime_Ymd_inj in Heq; [ | assumption | assumption ].
  destruct Heq as [Hord Hrest]. split; [ exact Hord | ].
  remember (format_04d c1) as f1 eqn:Hf1. remember (format_04d c2) as f2 eqn:Hf2.
  cbn [append] in Hrest. injection Hrest as Hrest. subst f1 f2.
  apply format_04d_inj; assumption.
Qed.

Definition key_in_range (k : Z * Z) : Prop :=
  1 <= fst k <= MAX_ORDINAL /\ 1 <= snd k.

Definition disjoint_ids (t1 t2 : list (Row.t F)) : Prop :=
  forall r1 r2, In r1 t1 -> In r2 t2 -> Row.transaction_id r1 <> Row.transaction_id r2.

Lemma transaction_lines_disjoint : forall t1 t2 k1 k2,
  transaction_lines t1 k1 -> transaction_lines t2 k2 ->
  key_in_range k1 -> key_in_range k2 -> key_lt k1 k2 ->
  disjoint_ids t1 t2.
Proof.
  intros t1 t2 k1 k2 (_ & (d1 & Hd1 & Hid1) & _) (_ & (d2 & Hd2 & Hid2) & _)
    [Hr1 Hc1] [Hr2 Hc2] Hlt r1 r2 Hin1 Hin2 Heq.
  rewrite (Hid1 r1 Hin1), (Hid2 r2 Hin2) in Heq.
  apply tx_id_inj in Heq; try lia.
  unfold key_lt in Hlt. lia.
Qed.

Lemma head_disjoint : forall t k transactions keys,
  transaction_lines t k -> key_in_range k ->
  Forall2 transaction_lines transactions keys ->
  Forall key_in_range keys ->
  Forall (key_lt k) keys ->
  Forall (disjoint_ids t) transactions.
Proof.
  intros t k transactions keys Ht Hk Hblocks.
  induction Hblocks as [ | t' k' ts ks Ht' Hts IH ]; intros Hrange Hlt.
  - constructor.
  - inversion Hrange; subst. inversion Hlt; subst.
    constructor; [ | apply IH; assumption ].
    eapply transaction_lines_disjoint; eauto.
Qed.

Lemma distinct_transactions : forall transactions keys,
  Forall2 transaction_lines transactions keys ->
  Forall key_in_range keys ->
  StronglySorted key_lt keys ->
  ForallOrdPairs disjoint_ids transactions.
Proof.
  intros transactions keys Hblocks.
  induction Hblocks as [ | t k ts ks Ht Hts IH ]; intros Hrange Hsorted.
  - constructor.
  - inversion Hrange; subst. inversion Hsorted; subst.
    constructor; [ | apply IH; assumption ].
    eapply head_disjoint; eauto.
Qed.

(** Lines with one id belong to one transaction. *)
Lemma same_id_same_header : forall transactions,
  Forall (fun t => forall r1 r2, In r1 t -> In r2 t -> same_header r1 r2) transactions ->
  ForallOrdPairs disjoint_ids transactions ->
  forall r1 r2, In r1 (List.concat transactions) -> In r2 (List.concat transactions) ->
    Row.transaction_id r1 = Row.transaction_id r2 -> same_header r1 r2.
Proof.
  intros transactions Hunif Hdisj.
  induction Hdisj as [ | t ts Ht Hts IH ]; intros r1 r2 Hin1 Hin2 Heq.
  - destruct Hin1.
  - inversion Hunif as [ | ? ? Hu Hus ]; subst.
    cbn [List.concat] in Hin1, Hin2. apply in_app_iff in Hin1, Hin2.
    rewrite Forall_forall in Ht.
    destruct Hin1 as [Hin1 | Hin1], Hin2 as [Hin2 | Hin2].
    + apply Hu; assumption.
    + apply in_concat in Hin2. destruct Hin2 as (t2 & Ht2 & Hr2).
      exfalso. exact (Ht t2 Ht2 r1 r2 Hin1 Hr2 Heq).
    + apply in_concat in Hin1. destruct Hin1 as (t1 & Ht1 & Hr1).
      exfalso. exact (Ht t1 Ht1 r2 r1 Hin2 Hr1 (eq_sym Heq)).
    + apply IH; assumption.
Qed.
End Run.

(** A generator state for the examples: the [i]-th draw of every sequence
    is [a * i + b]. *)
Definition example_rng (a b : Z) : rng_state :=
  {| draws := fun _ i => a * Z.of_nat i + b; cur := SeedOS 0; pos := 0; reseeds := 1 |}.

End RunFacts.

(** * Products sold *)

Module SellableFacts.
Import Py PyFacts HistoryV3 PoolFacts BasketFacts TransactionFacts.

(** Pairwise distinct strings, decided. *)
Fixpoint distinctb (l : list string) : bool :=
  match l with
  | [] => true
  | x :: t => negb (existsb (String.eqb x) t) && distinctb t
  end.

Lemma distinctb_NoDup : forall l, distinctb l = true -> NoDup l.
Proof.
  induction l as [ | x t IH ]; intros Hd.
  - constructor.
  - cbn [distinctb] in Hd. apply andb_true_iff in Hd. destruct Hd as [Hx Ht].
    constructor; [ | apply IH; exact Ht ].
    intros Hin. apply negb_true_iff in Hx.
    assert (Hex : existsb (String.eqb x) t = true).
    { apply existsb_exists. exists x. split; [ exact Hin | apply String.eqb_refl ]. }
    congruence.
Qed.

Lemma NoDup_map_eq : forall {A B : Type} (f : A -> B) (l : list A) x y,
  NoDup (map f l) -> In x l -> In y l -> f x = f y -> x = y.
Proof.
  intros A B f l x y. induction l as [ | a l IH ]; intros Hnd Hx Hy Heq.
  - destruct Hx.
  - cbn [map] in Hnd. inversion Hnd as [ | ? ? Hnotin Hnd' ]; subst.
    destruct Hx as [-> | Hx], Hy as [-> | Hy].
    + reflexivity.
    + exfalso. apply Hnotin. rewrite Heq. apply in_map. exact Hy.
    + exfalso. apply Hnotin. rewrite <- Heq. apply in_map. exact Hx.
    + apply IH; assumption.
Qed.

Section Sellable.
Context {F : Type} `{PyFloat F}.

Lemma barcodes_distinct : NoDup (map Product.barcode (PRODUCTS (F := F))).
Proof. apply distinctb_NoDup. vm_compute. reflexivity. Qed.

(** A line sells a product of the catalogue that is not flagged
    [never_sell]. *)
Definition row_sellable (r : Row.t F) : Prop :=
  exists p, sellable p /\ Row.barcode r = Product.barcode (Priced.product p).

Lemma generate_transaction_sellable : forall date campaigns promos in_holiday holiday
    transaction_id_base tx_counter g tx g',
  generate_transaction date campaigns promos in_holiday holiday transaction_id_base
    tx_counter g = Ok (Some tx, g') ->
  Forall row_sellable (Tx.rows tx).
Proof.
  intros date campaigns promos in_holiday holiday transaction_id_base tx_counter g tx g' Hrun.
  apply generate_transaction_Some in Hrun.
  destruct Hrun as (items & profile & tx_time & payment & _ & Hsell & _ & _ & ->).
  apply Forall_forall. intros r Hr. apply in_map_iff in Hr. destruct Hr as (item & <- & Hitem).
  rewrite Forall_forall in Hsell. exists (Item.priced item).
  split; [ apply Hsell; exact Hitem | apply transaction_row_fields ].
Qed.

Lemma transactions_loop_sellable : forall date campaigns promos in_holiday holiday
    transaction_id_base n tx_counter transactions g rows g',
  Forall row_sellable transactions ->
  transactions_loop date campaigns promos in_holiday holiday transaction_id_base
    n tx_counter transactions g = Ok (rows, g') ->
  Forall row_sellable rows.
Proof.
  intros date campaigns promos in_holiday holiday transaction_id_base n.
  induction n as [ | n IH ]; intros tx_counter transactions g rows g' Hok Hrun.
  - apply ret_Ok in Hrun. destruct Hrun as [<- _]. exact Hok.
  - cbn [transactions_loop] in Hrun.
    apply bind_Ok in Hrun. destruct Hrun as (tx & g1 & Htx & Hrun).
    eapply IH; [ | exact Hrun ].
    destruct tx as [ tx | ]; [ | exact Hok ].
    apply Forall_app. split; [ exact Hok | ].
    eapply generate_transaction_sellable. exact Htx.
Qed.

Lemma generate_daily_transactions_sellable : forall date campaigns promos holidays g rows g',
  generate_daily_transactions date campaigns promos holidays g = Ok (rows, g') ->
  Forall row_sellable rows.
Proof.
  intros date campaigns promos holidays g rows g' Hrun.
  unfold generate_daily_transactions in Hrun.
  destruct (is_within_holiday date holidays) as [in_holiday holiday].
  apply bind_Ok in Hrun. destruct Hrun as (target & g1 & _ & Hrun).
  eapply transactions_loop_sellable; [ | exact Hrun ]. constructor.
Qed.

Lemma row_sellable_never_sell : forall r p,
  row_sellable r -> In p PRODUCTS -> Product.barcode p = Row.barcode r ->
  Product.never_sell p = false.
Proof.
  intros r p (p0 & [Hin Hflag] & Hbarcode) Hp Heq.
  rewrite Hbarcode in Heq.
  rewrite (NoDup_map_eq Product.barcode PRODUCTS p (Priced.product p0)
             barcodes_distinct Hp Hin Heq).
  exact Hflag.
Qed.
End Sellable.

End SellableFacts.

(** * The multiplier stack *)

Module StackFacts.
Import Py PyFacts.

Section Stack.
Context {F : Type} `{PyFloat F}.

(** The multiplier an event lookup contributes: the multiplier of the
    event found, or none. *)
Definition active_multiplier {E : Type} (multiplier : E -> F) (found : bool * option E)
    : list F :=
  match found with
  | (true, Some e) => [multiplier e]
  | _ => []
  end.

(** The stack applied to [base], from the bottom up. *)
Definition stacked (base : F) (stack : list F) : F := fold_left fmul stack base.

(** The multiplier stack of a daily sale of v2. *)
Definition v2_stack (date : datetime) (product : HistoryV2.Product.t F)
    (campaigns : list (HistoryV2.BrandCampaign.t F))
    (promos : list (HistoryV2.StorePromo.t F))
    (holidays : list (HistoryV2.Holiday.t F)) : list F :=
  ([ HistoryV2.get_seasonality_multiplier date (HistoryV2.Product.category product);
     HistoryV2.get_day_of_week_multiplier date ]
   ++ active_multiplier HistoryV2.BrandCampaign.multiplier
        (HistoryV2.is_within_campaign date campaigns (HistoryV2.Product.brand product))
   ++ active_multiplier HistoryV2.StorePromo.multiplier
        (HistoryV2.is_within_store_promo date promos (HistoryV2.Product.barcode product))
   ++ active_multiplier HistoryV2.Holiday.multiplier
        (HistoryV2.is_within_holiday date holidays))%list.

(** The multipliers of the daily transaction count of v3, the noise
    apart; without a holiday the holiday multiplier is [1.0]. *)
Definition v3_holiday_multiplier (date : datetime)
    (holidays : list (HistoryV3.Holiday.t F)) : F :=
  match HistoryV3.is_within_holiday date holidays with
  | (true, Some h) => HistoryV3.Holiday.multiplier h
  | _ => dec 10 1
  end.

Definition v3_stack (date : datetime) (holidays : list (HistoryV3.Holiday.t F)) : list F :=
  [ HistoryV3.get_seasonality_multiplier date "";
    HistoryV3.get_day_of_week_multiplier date;
    v3_holiday_multiplier date holidays;
    HistoryV3.get_payday_multiplier date ].

(** The event a daily sale of v2 is attributed to: the brand campaign
    if one is active, else the store promotion, else the holiday. *)
Definition v2_event (date : datetime) (product : HistoryV2.Product.t F)
    (campaigns : list (HistoryV2.BrandCampaign.t F))
    (promos : list (HistoryV2.StorePromo.t F))
    (holidays : list (HistoryV2.Holiday.t F)) : bool * HistoryV2.EventSource * string :=
  match HistoryV2.is_within_campaign date campaigns (HistoryV2.Product.brand product) with
  | (true, Some c) =>
      (true, HistoryV2.MANUFACTURER_CAMPAIGN, HistoryV2.BrandCampaign.name c)
  | _ =>
      match HistoryV2.is_within_store_promo date promos
              (HistoryV2.Product.barcode product) with
      | (true, Some p) => (true, HistoryV2.STORE_DISCOUNT, HistoryV2.StorePromo.name p)
      | _ =>
          match HistoryV2.is_within_holiday date holidays with
          | (true, Some h) => (true, HistoryV2.HOLIDAY, HistoryV2.Holiday.name h)
          | _ => (false, HistoryV2.NONE, ""%string)
          end
      end
  end.

(** [generate_daily_sales] draws a base velocity in 5..15 and takes
    [int()] of the velocity times the stacked multipliers.  Where [int()]
    raises, so does the call; otherwise it returns a record whose quantity
    is that integer plus noise, floored at 1, and whose multiplier and
    event fields are functions of the date, the product and the events. *)
Lemma generate_daily_sales_spec : forall hash date product campaigns promos holidays g,
  exists base_velocity,
    5 <= base_velocity <= 15 /\
    match to_int (of_int base_velocity
                  ⊗ stacked (dec 10 1) (v2_stack date product campaigns promos holidays)) with
    | Raise e =>
        HistoryV2.generate_daily_sales hash date product campaigns promos holidays g = Raise e
    | Ok q =>
        exists sale g' noise,
          (HistoryV2.generate_daily_sales hash date product campaigns promos holidays g
             = Ok (sale, g')) /\
          (-2 <= noise <= 2) /\
          (HistoryV2.Sale.quantity sale = Z.max 1 (q + noise)) /\
          (HistoryV2.Sale.total_multiplier sale =
             round_nd (stacked (dec 10 1)
                         (v2_stack date product campaigns promos holidays)) 2) /\
          (HistoryV2.Sale.seasonality_multiplier sale =
             round_nd (HistoryV2.get_seasonality_multiplier date
                         (HistoryV2.Product.category product)) 2) /\
          ((HistoryV2.Sale.is_event sale, HistoryV2.Sale.event_source sale,
            HistoryV2.Sale.event_name sale) =
             (let '(is_event, source, name) :=
                v2_event date product campaigns promos holidays in
              (is_event, HistoryV2.EventSource_value source, name)))
    end.
Proof.
  intros hash date product campaigns promos holidays g.
  unfold HistoryV2.generate_daily_sales.
  rewrite (bind_step _ _ g tt _ eq_refl). cbv beta.
  assert (Hvel : 5 <= 15) by lia. assert (Hnz : -2 <= 2) by lia.
  match goal with |- context [@bind _ _ _ _ (randint 5 15) _ ?g1] =>
    pose proof (randint_total 5 15 g1 Hvel) as Hbase end.
  destruct Hbase as (base & g2 & Hbase & Hb).
  rewrite (bind_step _ _ _ _ _ Hbase). cbv beta.
  rewrite (bind_step _ _ g2 tt _ eq_refl). cbv beta.
  exists base. split; [ exact Hb | ].
  unfold v2_stack, v2_event, stacked, active_multiplier.
  destruct (HistoryV2.is_within_campaign date campaigns _) as [in_campaign campaign].
  destruct (HistoryV2.is_within_store_promo date promos _) as [in_promo promo].
  destruct (HistoryV2.is_within_holiday date holidays) as [in_holiday holiday].
  destruct (randint_total (-2) 2
              {| draws := draws g2; cur := SeedOS (reseeds g2); pos := 0;
                 reseeds := S (reseeds g2) |} Hnz) as (noise & g4 & Hnoise & Hn).
  assert (Hpm : HistoryV2.PAYMENT_METHODS <> []) by discriminate.
  destruct (choice_total HistoryV2.PAYMENT_METHODS g4 Hpm) as (payment & g5 & Hpay & _).
  destruct in_campaign, campaign as [ campaign | ], in_promo, promo as [ promo | ],
    in_holiday, holiday as [ holiday | ];
    cbn [HistoryV2.is_NONE app fold_left];
    (match goal with |- match to_int ?x with _ => _ end =>
       destruct (to_int x) as [ q | e ] eqn:Hint end;
     [ rewrite (lift_step (Ok q) _ _ q eq_refl)
     | rewrite (lift_raise (Raise e) _ _ e eq_refl); reflexivity ]);
    rewrite (bind_step _ _ _ _ _ Hnoise); cbv beta; rewrite (bind_step _ _ _ _ _ Hpay);
    eexists; eexists; exists noise;
    (split; [ reflexivity | ]); (split; [ exact Hn | ]);
    repeat split.
Qed.

(** The multiplier and event fields of a record [generate_daily_sales]
    returned. *)
Lemma generate_daily_sales_Ok : forall hash date product campaigns promos holidays g sale g',
  HistoryV2.generate_daily_sales hash date product campaigns promos holidays g
    = Ok (sale, g') ->
  HistoryV2.Sale.total_multiplier sale =
    round_nd (stacked (dec 10 1) (v2_stack date product campaigns promos holidays)) 2 /\
  HistoryV2.Sale.seasonality_multiplier sale =
    round_nd (HistoryV2.get_seasonality_multiplier date
                (HistoryV2.Product.category product)) 2 /\
  (HistoryV2.Sale.is_event sale, HistoryV2.Sale.event_source sale,
   HistoryV2.Sale.event_name sale) =
    (let '(is_event, source, name) := v2_event date product campaigns promos holidays in
     (is_event, HistoryV2.EventSource_value source, name)).
Proof.
  intros hash date product campaigns promos holidays g sale g' Hrun.
  destruct (generate_daily_sales_spec hash date product campaigns promos holidays g)
    as (base_velocity & _ & Hspec).
  destruct (to_int _) as [ q | e ].
  - destruct Hspec as (sale0 & g0 & noise & Hrun0 & _ & _ & Hfields).
    rewrite Hrun in Hrun0. injection Hrun0 as <- <-. exact Hfields.
  - rewrite Hrun in Hspec. discriminate Hspec.
Qed.

(** [get_daily_transaction_count] draws one number in [0, 1) and takes
    [int()] of the base count times the stacked multipliers and the noise.
    Where [int()] raises, so does the call; otherwise the count is that
    integer, floored at 50. *)
Lemma get_daily_transaction_count_stack : forall date holidays g,
  exists r g',
    random g = Ok (r, g') /\
    let noise := dec 85 2 ⊕ (dec 115 2 ⊖ dec 85 2) ⊗ r in
    match to_int (stacked (of_int HistoryV3.BASE_DAILY_TRANSACTIONS)
                    (v3_stack date holidays ++ [noise])) with
    | Raise e => HistoryV3.get_daily_transaction_count date holidays g = Raise e
    | Ok q => HistoryV3.get_daily_transaction_count date holidays g = Ok (Z.max 50 q, g')
    end.
Proof.
  intros date holidays g.
  unfold HistoryV3.get_daily_transaction_count, v3_stack, v3_holiday_multiplier, stacked.
  destruct (HistoryV3.is_within_holiday date holidays) as [in_holiday holiday].
  eexists. eexists. split; [ reflexivity | ]. cbv zeta.
  destruct in_holiday, holiday as [ holiday | ];
    cbn [app fold_left];
    match goal with |- match to_int ?x with _ => _ end =>
      destruct (to_int x) as [ q | e ] eqn:Hint end;
    unfold uniform, random, next_draw, bind, ret, rand_monad, lift;
    rewrite Hint; reflexivity.
Qed.
End Stack.

(** Over the rationals the stack is the product of its multipliers. *)
Lemma stacked_product : forall (stack : list Q) (base : Q),
  (stacked base stack == base * fold_right Qmult 1 stack)%Q.
Proof.
  induction stack as [ | m stack IH ]; intros base; cbn [stacked fold_left fold_right].
  - ring.
  - unfold stacked in IH. rewrite IH. cbn [fmul Q_float]. rewrite Qred_correct. ring.
Qed.

End StackFacts.

(** * Summary statistics *)

Module SummaryFacts.
Import Py PyFacts.

(** What the guards of the summary rely on: a float that is greater than
    [0] is not equal to [0]. *)
Class PyFloatLaws (F : Type) `{PyFloat F} : Prop := {
  positive_nonzero : forall x : F, fltb (of_int 0) x = true -> feqb x (of_int 0) = false
}.

#[export] Instance Q_laws : PyFloatLaws Q.
Proof.
  constructor. intros x Hpos. cbn [fltb feqb of_int Q_float] in *.
  apply negb_true_iff in Hpos.
  destruct (Qeq_bool x (inject_Z 0)) eqn:Heq; [ | reflexivity ].
  apply Qeq_bool_iff in Heq.
  assert (Hle : Qle_bool x (inject_Z 0) = true).
  { apply Qle_bool_iff. rewrite Heq. apply Qle_refl. }
  congruence.
Qed.

#[export] Instance b64_laws : PyFloatLaws float.
Proof.
  constructor. intros x Hpos. cbn [fltb feqb of_int b64_float] in *.
  change (b64_of_int 0) with 0%float in *.
  rewrite FloatAxioms.ltb_spec in Hpos. rewrite FloatAxioms.eqb_spec.
  change (Prim2SF 0) with (S754_zero false) in *.
  destruct (Prim2SF x) as [ s | s | | s m e ]; try destruct s; cbn in *;
    congruence.
Qed.

Section Guards.
Context {F : Type} `{PyFloatLaws F}.

Lemma truediv_positive : forall x y : F,
  fltb (of_int 0) y = true -> truediv x y = Ok (fdiv x y).
Proof.
  intros x y Hpos. unfold truediv. rewrite (positive_nonzero y Hpos). reflexivity.
Qed.

Lemma truediv_zero : forall x y : F,
  feqb y (of_int 0) = true -> truediv x y = Raise ZeroDivisionError.
Proof. intros x y Hzero. unfold truediv. rewrite Hzero. reflexivity. Qed.

(** The guarded quotients of the tables. *)
Lemma guarded_truediv : forall x y : F,
  exists q, (if fltb (of_int 0) y
             then (q <- truediv x y ;; ret (q ⊗ of_int 100))
             else ret (of_int 0)) = Ok q.
Proof.
  intros x y. destruct (fltb (of_int 0) y) eqn:Hpos.
  - rewrite (truediv_positive x y Hpos). eexists. reflexivity.
  - eexists. reflexivity.
Qed.

Lemma guarded_truediv_int : forall (x : F) (n : Z),
  exists q, (if 0 <? n then truediv_int x n else ret (of_int 0)) = Ok q.
Proof.
  intros x n. unfold truediv_int. destruct (0 <? n) eqn:Hpos.
  - apply Z.ltb_lt in Hpos. destruct (n =? 0) eqn:Hz.
    + apply Z.eqb_eq in Hz. lia.
    + eexists. reflexivity.
  - eexists. reflexivity.
Qed.

Lemma guarded_int_truediv : forall a n : Z,
  exists q : F, (if 0 <? n
                 then (q <- int_truediv a n ;; ret (q ⊗ of_int 100))
                 else ret (of_int 0)) = Ok q.
Proof.
  intros a n. unfold int_truediv. destruct (0 <? n) eqn:Hpos.
  - apply Z.ltb_lt in Hpos. destruct (n =? 0) eqn:Hz.
    + apply Z.eqb_eq in Hz. lia.
    + eexists. reflexivity.
  - eexists. reflexivity.
Qed.

Lemma year_stats_total : forall prev_revenue (year_sales : list (HistoryV3.Row.t F)),
  exists line, HistoryV3.year_stats prev_revenue year_sales = Ok line.
Proof.
  intros prev_revenue year_sales. unfold HistoryV3.year_stats. cbv zeta.
  destruct (guarded_truediv (sum (map HistoryV3.Row.profit year_sales))
              (sum (map HistoryV3.Row.subtotal year_sales))) as (margin & ->).
  cbn [bind result_monad].
  destruct (guarded_truediv_int (sum (map HistoryV3.Row.subtotal year_sales))
              (count_distinct (map HistoryV3.Row.transaction_id year_sales)))
    as (avg_tx & ->).
  cbn [bind result_monad].
  destruct prev_revenue as [ prev | ]; [ | eexists; reflexivity ].
  unfold truediv. destruct (feqb prev (of_int 0)); eexists; reflexivity.
Qed.

Lemma profile_stats_total : forall (sales : list (HistoryV3.Row.t F)) total_transactions
    total_revenue profile,
  exists line,
    HistoryV3.profile_stats sales total_transactions total_revenue profile = Ok line.
Proof.
  intros sales total_transactions total_revenue profile. unfold HistoryV3.profile_stats.
  cbv zeta.
  match goal with |- context [int_truediv ?a _] =>
    destruct (guarded_int_truediv a total_transactions) as (tx_pct & Htx) end.
  match goal with |- context [truediv ?rev total_revenue] =>
    destruct (guarded_truediv rev total_revenue) as (rev_pct & Hrev) end.
  match goal with |- context [truediv_int ?rev ?n] =>
    destruct (guarded_truediv_int rev n) as (avg_ticket & Havg) end.
  rewrite Htx, Hrev, Havg. eexists. reflexivity.
Qed.

Lemma profile_table_total : forall (sales : list (HistoryV3.Row.t F)) total_transactions
    total_revenue profiles,
  exists lines,
    HistoryV3.profile_table sales total_transactions total_revenue profiles = Ok lines.
Proof.
  intros sales total_transactions total_revenue profiles.
  induction profiles as [ | profile rest IH ].
  - eexists. reflexivity.
  - cbn [HistoryV3.profile_table].
    destruct (profile_stats_total sales total_transactions total_revenue profile)
      as (line & ->).
    cbn [bind result_monad]. destruct IH as (lines & ->).
    eexists. reflexivity.
Qed.

Lemma year_table_total : forall (sales : list (HistoryV3.Row.t F)) years prev_revenue,
  exists lines, HistoryV3.year_table sales years prev_revenue = Ok lines.
Proof.
  intros sales years. induction years as [ | year rest IH ]; intros prev_revenue.
  - eexists. reflexivity.
  - cbn [HistoryV3.year_table].
    destruct (year_stats_total prev_revenue (HistoryV3.by_year_get sales year))
      as (line & ->).
    cbn [bind result_monad].
    destruct line as [[[[[[revenue cost] profit] margin] unique_tx] avg_tx] growth].
    destruct (IH (Some revenue)) as (lines & ->).
    eexists. reflexivity.
Qed.

(** With a total revenue of zero, the statistics of v3 stop at the
    average margin. *)
Lemma v3_zero_revenue_raises : forall sales : list (HistoryV3.Row.t F),
  feqb (sum (map HistoryV3.Row.subtotal sales)) (of_int 0) = true ->
  HistoryV3.print_summary_stats sales = Raise ZeroDivisionError.
Proof.
  intros sales Hzero. unfold HistoryV3.print_summary_stats.
  destruct (year_table_total sales (sorted (HistoryV3.by_year_keys sales)) None)
    as (lines & ->).
  cbn [bind result_monad].
  rewrite (truediv_zero _ _ Hzero). reflexivity.
Qed.

Lemma v2_zero_revenue_raises : forall sales : list (HistoryV2.Sale.t F),
  feqb (sum (map HistoryV2.Sale.subtotal sales)) (of_int 0) = true ->
  HistoryV2.print_summary_stats sales = Raise ZeroDivisionError.
Proof.
  intros sales Hzero. unfold HistoryV2.print_summary_stats.
  rewrite (truediv_zero _ _ Hzero). reflexivity.
Qed.
End Guards.

End SummaryFacts.

(** * Rational arithmetic *)

Module RationalFacts.
Import Py PyFacts.

(** *** [int(x)] and the arithmetic of the exact instance *)

Lemma Q_to_int_floor : forall x : Q, (0 <= x)%Q -> Q_to_int x = Ok (Qfloor x).
Proof.
  intros [n d] Hx. unfold Q_to_int, Qfloor. cbn [Qnum Qden].
  f_equal. apply Z.quot_div_nonneg; [ | lia ].
  unfold Qle in Hx. cbn in Hx. lia.
Qed.

Lemma Qscale_up : forall x c : Q, (0 <= x)%Q -> (1 <= c)%Q -> (x <= x * c)%Q.
Proof.
  intros x c Hx Hc. pose proof (Qmult_le_compat_r 1 c x Hc Hx) as Hm.
  rewrite Qmult_1_l, (Qmult_comm c x) in Hm. exact Hm.
Qed.

Lemma Qscale_down : forall x u : Q, (0 <= x)%Q -> (u <= 1)%Q -> (x * u <= x)%Q.
Proof.
  intros x u Hx Hu. pose proof (Qmult_le_compat_r u 1 x Hu Hx) as Hm.
  rewrite Qmult_1_l, (Qmult_comm u x) in Hm. exact Hm.
Qed.

Lemma inject_Z_nonneg : forall q : Z, 0 <= q -> (0 <= inject_Z q)%Q.
Proof. intros q Hq. unfold Qle. cbn. lia. Qed.

Lemma to_int_scale_up : forall (q : Z) (c : Q),
  0 <= q -> (1 <= c)%Q ->
  exists n, to_int (of_int q ⊗ c) = Ok n /\ q <= n.
Proof.
  intros q c Hq Hc. cbn [to_int of_int fmul Q_float].
  pose proof (inject_Z_nonneg q Hq) as Hq'.
  pose proof (Qscale_up _ c Hq' Hc) as Hle.
  rewrite Q_to_int_floor by (rewrite Qred_correct; eapply Qle_trans; eassumption).
  eexists. split; [ reflexivity | ].
  rewrite (Qfloor_comp _ _ (Qred_correct _)).
  rewrite <- (Qfloor_Z q) at 1. apply Qfloor_resp_le. exact Hle.
Qed.

Lemma to_int_scale_down : forall (q : Z) (u : Q),
  0 <= q -> (0 <= u)%Q -> (u <= 1)%Q ->
  exists n, to_int (of_int q ⊗ u) = Ok n /\ n <= q.
Proof.
  intros q u Hq Hu0 Hu1. cbn [to_int of_int fmul Q_float].
  pose proof (inject_Z_nonneg q Hq) as Hq'.
  pose proof (Qscale_down _ u Hq' Hu1) as Hle.
  assert (Hnonneg : (0 <= inject_Z q * u)%Q) by (apply Qmult_le_0_compat; assumption).
  rewrite Q_to_int_floor by (rewrite Qred_correct; exact Hnonneg).
  eexists. split; [ reflexivity | ].
  rewrite (Qfloor_comp _ _ (Qred_correct _)).
  rewrite <- (Qfloor_Z q) at 2. apply Qfloor_resp_le. exact Hle.
Qed.

(** [random.random()] lies in [[0, 1)], and [random.uniform(a, b)] between
    [a] and [b]. *)
Lemma random_range : forall g (r : Q) g',
  random g = Ok (r, g') -> (0 <= r)%Q /\ (r < 1)%Q.
Proof.
  intros g r g' Hrun. unfold random in Hrun.
  apply bind_Ok in Hrun. destruct Hrun as (x & g1 & _ & Hret).
  apply ret_Ok in Hret. destruct Hret as [<- _].
  cbn [fdiv of_int Q_float]. rewrite Qred_correct.
  assert (Hk : 0 <= x mod 2 ^ 53 < 2 ^ 53) by (apply Z.mod_pos_bound; lia).
  set (k := x mod 2 ^ 53) in *. set (n := 2 ^ 53) in *.
  assert (Hk0 : (0 <= inject_Z k)%Q) by (apply inject_Z_nonneg; lia).
  assert (Hk1 : (inject_Z k < inject_Z n)%Q) by (rewrite <- Zlt_Qlt; lia).
  assert (Hpos : (0 < inject_Z n)%Q) by (eapply Qle_lt_trans; eassumption).
  split.
  - apply Qle_shift_div_l; [ exact Hpos | ]. rewrite Qmult_0_l. exact Hk0.
  - apply Qlt_shift_div_r; [ exact Hpos | ]. rewrite Qmult_1_l. exact Hk1.
Qed.

Lemma uniform_range : forall (a b : Q) g u g',
  (a <= b)%Q -> uniform a b g = Ok (u, g') -> (a <= u)%Q /\ (u <= b)%Q.
Proof.
  intros a b g u g' Hab Hrun. unfold uniform in Hrun.
  apply bind_Ok in Hrun. destruct Hrun as (r & g1 & Hr & Hret).
  apply ret_Ok in Hret. destruct Hret as [<- _].
  apply random_range in Hr. destruct Hr as [Hr0 Hr1].
  cbn [fadd fsub fmul Q_float]. rewrite !Qred_correct.
  assert (Hba : (0 <= b - a)%Q) by lra.
  pose proof (Qmult_le_0_compat _ _ Hba Hr0) as Hlo.
  pose proof (Qscale_down _ r Hba (Qlt_le_weak _ _ Hr1)) as Hhi.
  split; lra.
Qed.

End RationalFacts.

(** * Batches and returns *)

Module SupplierFacts.
Import Py PyFacts RationalFacts Suppliers.

Lemma days_between_add_days : forall d k, days_between (add_days d k) d = k.
Proof.
  intros d k. unfold days_between, add_days. cbn [ordinal seconds].
  replace ((ordinal d + k - ordinal d) * 86400 + (seconds d - seconds d)) with (k * 86400)
    by lia.
  apply Z.div_mul. lia.
Qed.

(** What the bound of a return by its batch needs of the arithmetic: a
    batch quantity scaled up by one of the seasonal factors does not
    shrink, and a quantity scaled by a return share does not grow. *)
Class BatchArith (F : Type) `{PyFloat F} : Prop := {
  scaled_up : forall (q : Z) (c : F) (n : Z),
    5 <= q <= 400 -> In c [dec 15 1; dec 18 1; dec 13 1] ->
    to_int (of_int q ⊗ c) = Ok n -> q <= n <= 2 * q;
  scaled_share : forall (q : Z) (u : F) (n : Z) g g',
    1 <= q <= 800 ->
    uniform RETURN_QTY_PERCENT_MIN RETURN_QTY_PERCENT_MAX g = Ok (u, g') ->
    to_int (of_int q ⊗ u) = Ok n -> n <= q
}.

Section Returns.
Context {F : Type} `{PyFloat F}.
Variable END_DATE : datetime.

(** A return refers to a batch: same identifiers and cost, a negative
    quantity change of at least one unit, created at least 30 days after
    the delivery and not after [END_DATE]; where the arithmetic keeps
    scaled quantities in bounds, no more is returned than was delivered. *)
Definition return_of_batch (r : StockMovementReturn.t F) (b : InventoryBatch.t F) : Prop :=
  StockMovementReturn.batch_id r = InventoryBatch.id b /\
  StockMovementReturn.product_barcode r = InventoryBatch.product_barcode b /\
  StockMovementReturn.product_name r = InventoryBatch.product_name b /\
  StockMovementReturn.supplier_id r = InventoryBatch.supplier_id b /\
  StockMovementReturn.supplier_name r = InventoryBatch.supplier_name b /\
  StockMovementReturn.cost_price r = InventoryBatch.cost_price b /\
  StockMovementReturn.quantity_change r < 0 /\
  1 <= - StockMovementReturn.quantity_change r /\
  (BatchArith F -> - StockMovementReturn.quantity_change r <= InventoryBatch.quantity b) /\
  30 <= days_between (StockMovementReturn.created_at r) (InventoryBatch.received_date b) /\
  dt_leb (StockMovementReturn.created_at r) END_DATE = true.

Lemma maybe_return_Some : forall supplier (product : Product.t F) current_date base_qty
    expiry_days (cost_price : F) supplier_ref batch_id return_id g
    (r : StockMovementReturn.t F) g',
  (BatchArith F -> 1 <= base_qty <= 800) ->
  maybe_return END_DATE supplier product current_date base_qty expiry_days cost_price
    supplier_ref batch_id return_id g = Ok (Some r, g') ->
  StockMovementReturn.batch_id r = batch_id /\
  StockMovementReturn.product_barcode r = Product.barcode product /\
  StockMovementReturn.product_name r = Product.name product /\
  StockMovementReturn.supplier_id r = Supplier.id supplier /\
  StockMovementReturn.supplier_name r = Supplier.name supplier /\
  StockMovementReturn.cost_price r = cost_price /\
  StockMovementReturn.quantity_change r < 0 /\
  1 <= - StockMovementReturn.quantity_change r /\
  (BatchArith F -> - StockMovementReturn.quantity_change r <= base_qty) /\
  30 <= days_between (StockMovementReturn.created_at r) current_date /\
  dt_leb (StockMovementReturn.created_at r) END_DATE = true.
Proof.
  intros supplier product current_date base_qty expiry_days cost_price supplier_ref
    batch_id return_id g r g' Hqty Hrun.
  unfold maybe_return in Hrun.
  apply bind_Ok in Hrun. destruct Hrun as (p & g1 & _ & Hrun).
  destruct (fltb p RETURN_PROBABILITY);
    [ | apply ret_Ok in Hrun; destruct Hrun as [Hnone _]; discriminate Hnone ].
  apply bind_Ok in Hrun. destruct Hrun as (delay & g2 & Hdelay & Hrun).
  apply randint_range in Hdelay.
  destruct (dt_leb (add_days current_date delay) END_DATE) eqn:Hend;
    [ | apply ret_Ok in Hrun; destruct Hrun as [Hnone _]; discriminate Hnone ].
  apply bind_Ok in Hrun. destruct Hrun as (u & g3 & Hu & Hrun).
  apply bind_Ok in Hrun. destruct Hrun as (n & g3' & Hn & Hrun).
  apply lift_Ok in Hn. destruct Hn as [Hn _].
  apply bind_Ok in Hrun. destruct Hrun as (reason & g4 & _ & Hrun).
  apply ret_Ok in Hrun. destruct Hrun as [Hr _]. injection Hr as <-.
  cbn [StockMovementReturn.batch_id StockMovementReturn.product_barcode
       StockMovementReturn.product_name StockMovementReturn.supplier_id
       StockMovementReturn.supplier_name StockMovementReturn.cost_price
       StockMovementReturn.quantity_change StockMovementReturn.created_at].
  rewrite days_between_add_days.
  do 6 (split; [ reflexivity | ]).
  split; [ lia | ]. split; [ lia | ].
  split; [ | split; [ lia | exact Hend ] ].
  intros Harith. specialize (Hqty Harith).
  pose proof (scaled_share base_qty u n _ _ Hqty Hu Hn). lia.
Qed.

(** What one pass of the product loop does to the state: nothing, or one
    more batch, numbered [batch_id], with at most one return of it. *)
Definition restock_step (st st' : gen_state (F := F)) : Prop :=
  st' = st \/
  exists b,
    batches st' = (batches st ++ [b])%list /\
    InventoryBatch.id b = batch_id st /\
    batch_id st' = batch_id st + 1 /\
    (returns st' = returns st \/
     exists r, returns st' = (returns st ++ [r])%list /\ return_of_batch r b).

Lemma restock_shape : forall suppliers current_date (product : Product.t F) st g st' g',
  restock END_DATE suppliers current_date product st g = Ok (st', g') ->
  restock_step st st'.
Proof.
  intros suppliers current_date product st g st' g' Hrun.
  unfold restock in Hrun.
  destruct (dict_get (next_restock_date st) (Product.barcode product)) as [ next | ];
    [ | discriminate Hrun ].
  destruct (dt_ltb current_date next).
  { apply ret_Ok in Hrun. destruct Hrun as [<- _]. left. reflexivity. }
  apply bind_Ok in Hrun. destruct Hrun as (supplier & g1 & _ & Hrun).
  apply bind_Ok in Hrun. destruct Hrun as (qty0 & g2 & Hqty0 & Hrun).
  apply randint_range in Hqty0. unfold MIN_BATCH_QTY, MAX_BATCH_QTY in Hqty0.
  apply bind_Ok in Hrun. destruct Hrun as (qty1 & g3 & Hqty1 & Hrun).
  assert (Hq1 : BatchArith F -> 5 <= qty1 <= 400).
  { intros Harith. destruct (str_in (Product.category product) _).
    - apply lift_Ok in Hqty1. destruct Hqty1 as [Hqty1 _].
      apply (scaled_up qty0 (dec 15 1) qty1) in Hqty1;
        [ lia | lia | left; reflexivity ].
    - destruct (str_in (Product.category product) _).
      + apply randint_range in Hqty1. lia.
      + apply ret_Ok in Hqty1. destruct Hqty1 as [<- _]. lia. }
  clear Hqty1.
  apply bind_Ok in Hrun. destruct Hrun as (base_qty & g3' & Hbase & Hrun).
  assert (Hqty : BatchArith F -> 1 <= base_qty <= 800).
  { intros Harith. specialize (Hq1 Harith). destruct (month current_date =? 12).
    - apply lift_Ok in Hbase. destruct Hbase as [Hbase _].
      apply (scaled_up qty1 (dec 18 1) base_qty) in Hbase;
        [ lia | lia | right; left; reflexivity ].
    - destruct ((month current_date =? 11) || (month current_date =? 3)
                || (month current_date =? 4)).
      + apply lift_Ok in Hbase. destruct Hbase as [Hbase _].
        apply (scaled_up qty1 (dec 13 1) base_qty) in Hbase;
          [ lia | lia | right; right; left; reflexivity ].
      + apply ret_Ok in Hbase. destruct Hbase as [<- _]. lia. }
  clear Hbase.
  apply bind_Ok in Hrun. destruct Hrun as (expiry_days & g4 & _ & Hrun).
  apply bind_Ok in Hrun. destruct Hrun as (return_record & g5 & Hret & Hrun).
  destruct return_record as [ r | ].
  - apply (maybe_return_Some _ _ _ _ _ _ _ _ _ _ _ _ Hqty) in Hret.
    apply bind_Ok in Hrun. destruct Hrun as (variance & g6 & _ & Hrun).
    apply ret_Ok in Hrun. destruct Hrun as [<- _].
    right. eexists. cbn [batches returns batch_id InventoryBatch.id].
    split; [ reflexivity | ]. split; [ reflexivity | ]. split; [ reflexivity | ].
    right. exists r. split; [ reflexivity | ].
    unfold return_of_batch.
    cbn [InventoryBatch.id InventoryBatch.product_barcode InventoryBatch.product_name
         InventoryBatch.supplier_id InventoryBatch.supplier_name InventoryBatch.cost_price
         InventoryBatch.quantity InventoryBatch.received_date].
    exact Hret.
  - apply bind_Ok in Hrun. destruct Hrun as (variance & g6 & _ & Hrun).
    apply ret_Ok in Hrun. destruct Hrun as [<- _].
    right. eexists. cbn [batches returns batch_id InventoryBatch.id].
    split; [ reflexivity | ]. split; [ reflexivity | ]. split; [ reflexivity | ].
    left. reflexivity.
Qed.

(** The invariant of the generation: batch ids are below the counter and
    pairwise distinct, and every return is the return of a batch. *)
Definition returns_ok (st : gen_state (F := F)) : Prop :=
  Forall (fun b => InventoryBatch.id b < batch_id st) (batches st) /\
  NoDup (map InventoryBatch.id (batches st)) /\
  Forall (fun r => exists b, In b (batches st) /\ return_of_batch r b) (returns st).

Lemma returns_ok_step : forall st st',
  returns_ok st -> restock_step st st' -> returns_ok st'.
Proof.
  intros st st' (Hids & Hnodup & Hreturns) [-> | (b & Hb & Hid & Hnext & Hret)].
  - repeat split; assumption.
  - assert (Hold : Forall (fun r => exists b0, In b0 (batches st') /\ return_of_batch r b0)
                     (returns st)).
    { eapply Forall_impl; [ | exact Hreturns ]. intros r (b0 & Hin & Hr).
      exists b0. split; [ rewrite Hb; apply in_or_app; left; exact Hin | exact Hr ]. }
    unfold returns_ok. rewrite Hb, Hnext. split; [ | split ].
    + apply Forall_app. split.
      * eapply Forall_impl; [ | exact Hids ]. intros b0 Hb0. cbn in Hb0. lia.
      * constructor; [ lia | constructor ].
    + rewrite map_app. cbn [map]. apply NoDup_snoc; [ exact Hnodup | ].
      intros Hin. apply in_map_iff in Hin. destruct Hin as (b0 & Heq & Hb0).
      rewrite Forall_forall in Hids. specialize (Hids b0 Hb0). lia.
    + rewrite <- Hb. destruct Hret as [-> | (r & -> & Hr)]; [ exact Hold | ].
      apply Forall_app. split; [ exact Hold | ].
      constructor; [ | constructor ].
      exists b. split; [ rewrite Hb; apply in_or_app; right; left; reflexivity | exact Hr ].
Qed.

Lemma products_loop_ok : forall suppliers current_date (products : list (Product.t F))
    st g st' g',
  returns_ok st ->
  products_loop END_DATE suppliers current_date products st g = Ok (st', g') ->
  returns_ok st'.
Proof.
  intros suppliers current_date products.
  induction products as [ | product rest IH ]; intros st g st' g' Hok Hrun.
  - apply ret_Ok in Hrun. destruct Hrun as [<- _]. exact Hok.
  - cbn [products_loop] in Hrun.
    apply bind_Ok in Hrun. destruct Hrun as (st1 & g1 & Hstep & Hrun).
    apply restock_shape in Hstep.
    eapply IH; [ | exact Hrun ]. eapply returns_ok_step; eassumption.
Qed.

Lemma days_loop_ok : forall suppliers fuel current_date st g st' g',
  returns_ok st ->
  days_loop END_DATE suppliers fuel current_date st g = Ok (st', g') ->
  returns_ok st'.
Proof.
  intros suppliers fuel.
  induction fuel as [ | fuel IH ]; intros current_date st g st' g' Hok Hrun.
  - apply ret_Ok in Hrun. destruct Hrun as [<- _]. exact Hok.
  - cbn [days_loop] in Hrun.
    destruct (dt_leb current_date END_DATE).
    + apply bind_Ok in Hrun. destruct Hrun as (st1 & g1 & Hday & Hrun).
      eapply IH; [ | exact Hrun ]. eapply products_loop_ok; eassumption.
    + apply ret_Ok in Hrun. destruct Hrun as [<- _]. exact Hok.
Qed.

(** The body of [generate_batches_and_returns]. *)
Lemma batches_and_returns_run : forall suppliers g batches returns g',
  (next_restock_date <- initial_restock_dates (F := F) PRODUCTS [] ;;
   st <- days_loop (F := F) END_DATE suppliers
           (Z.to_nat (ordinal END_DATE - ordinal START_DATE + 1)) START_DATE
           {| batches := []; returns := []; batch_id := 1; return_id := 1;
              next_restock_date := next_restock_date |} ;;
   ret (Suppliers.batches st, Suppliers.returns st)) g = Ok ((batches, returns), g') ->
  NoDup (map InventoryBatch.id batches) /\
  forall r, In r returns -> exists b, In b batches /\ return_of_batch r b.
Proof.
  intros suppliers g batches0 returns0 g' Hrun.
  apply bind_Ok in Hrun. destruct Hrun as (dates & g1 & _ & Hrun).
  apply bind_Ok in Hrun. destruct Hrun as (st & g2 & Hloop & Hrun).
  apply ret_Ok in Hrun. destruct Hrun as [Hst _]. injection Hst as <- <-.
  assert (Hinit : returns_ok {| batches := []; returns := []; batch_id := 1;
                                 return_id := 1; next_restock_date := dates |}).
  { unfold returns_ok. cbn [Suppliers.batches Suppliers.returns map].
    repeat split; constructor. }
  pose proof (days_loop_ok suppliers
                (Z.to_nat (ordinal END_DATE - ordinal START_DATE + 1)) START_DATE
                {| batches := []; returns := []; batch_id := 1; return_id := 1;
                   next_restock_date := dates |} g1 st g2 Hinit Hloop)
    as (_ & Hnodup & Hreturns).
  split; [ exact Hnodup | ].
  rewrite Forall_forall in Hreturns. exact Hreturns.
Qed.

Lemma generate_batches_and_returns_ok : forall suppliers g batches returns g',
  generate_batches_and_returns (F := F) END_DATE suppliers g = Ok ((batches, returns), g') ->
  NoDup (map InventoryBatch.id batches) /\
  forall r, In r returns -> exists b, In b batches /\ return_of_batch r b.
Proof.
  unfold generate_batches_and_returns. exact batches_and_returns_run.
Qed.
End Returns.

(** The exact instance keeps scaled quantities in bounds. *)
#[export] Instance Q_batch_arith : BatchArith Q.
Proof.
  split.
  - intros q c n Hq Hc Hn.
    assert (Hc1 : (1 <= c)%Q /\ (c <= 2)%Q).
    { cbn [In] in Hc. destruct Hc as [<- | [<- | [<- | []]]];
        split; vm_compute; discriminate. }
    destruct Hc1 as [Hc1 Hc2].
    assert (Hq0 : 0 <= q) by lia.
    destruct (to_int_scale_up q c Hq0 Hc1) as (n' & Hn' & Hle).
    rewrite Hn in Hn'. injection Hn' as <-. split; [ exact Hle | ].
    cbn [to_int of_int fmul Q_float] in Hn.
    pose proof (inject_Z_nonneg q Hq0) as Hq'.
    rewrite Q_to_int_floor in Hn
      by (rewrite Qred_correct; apply Qmult_le_0_compat; [ exact Hq' | lra ]).
    apply (f_equal (fun r => match r with Ok z => z | Raise _ => 0 end)) in Hn.
    cbv beta iota in Hn. subst n.
    rewrite (Qfloor_comp _ _ (Qred_correct _)).
    rewrite <- (Qfloor_Z (2 * q)). apply Qfloor_resp_le.
    rewrite inject_Z_mult, (Qmult_comm (inject_Z 2)).
    apply Qmult_le_l; [ | exact Hc2 ].
    change 0%Q with (inject_Z 0). rewrite <- Zlt_Qlt. lia.
  - intros q u n g g' Hq Hu Hn.
    assert (Hab : (RETURN_QTY_PERCENT_MIN <= RETURN_QTY_PERCENT_MAX)%Q)
      by (vm_compute; discriminate).
    destruct (uniform_range _ _ _ _ _ Hab Hu) as [Hu0 Hu1].
    assert (Hq0 : 0 <= q) by lia.
    destruct (to_int_scale_down q u Hq0) as (n' & Hn' & Hle).
    + eapply Qle_trans; [ | exact Hu0 ]. vm_compute. discriminate.
    + eapply Qle_trans; [ exact Hu1 | ]. vm_compute. discriminate.
    + rewrite Hn in Hn'. injection Hn' as <-. exact Hle.
Qed.

End SupplierFacts.

(** * Day loops *)

Module LoopFacts.
Import Py PyFacts.

(** The day loops are given as many iterations as there are days from
    their first date to [END_DATE]; with these the guard
    [current_date <= END_DATE] fails when they are used up, and further
    iterations change nothing. *)
Lemma dt_leb_after : forall a b, ordinal b < ordinal a -> dt_leb a b = false.
Proof.
  intros a b Hlt. unfold dt_leb.
  destruct (Z.ltb_spec (ordinal a) (ordinal b)) as [Hab | _]; [ lia | ].
  destruct (Z.eqb_spec (ordinal a) (ordinal b)) as [Hab | _]; [ lia | reflexivity ].
Qed.

Section Loops.
Context {F : Type} `{PyFloat F}.
Variable END_DATE : datetime.

Lemma sales_loop_fuel : forall campaigns promos holidays fuel extra current_date all_sales g,
  ordinal END_DATE - ordinal current_date < Z.of_nat fuel ->
  HistoryV3.sales_loop END_DATE campaigns promos holidays (fuel + extra) current_date
    all_sales g
  = HistoryV3.sales_loop END_DATE campaigns promos holidays fuel current_date all_sales g.
Proof.
  intros campaigns promos holidays fuel extra.
  induction fuel as [ | fuel IH ]; intros current_date all_sales g Hfuel.
  - cbn [Nat.add HistoryV3.sales_loop].
    destruct extra as [ | extra ]; [ reflexivity | ].
    cbn [HistoryV3.sales_loop]. rewrite dt_leb_after by lia. reflexivity.
  - cbn [Nat.add HistoryV3.sales_loop].
    destruct (dt_leb current_date END_DATE); [ | reflexivity ].
    cbn [bind rand_monad].
    destruct (HistoryV3.generate_daily_transactions current_date campaigns promos holidays g)
      as [ [rows g1] | e ]; [ | reflexivity ].
    apply IH. cbn [add_days ordinal]. lia.
Qed.

Lemma days_loop_fuel : forall suppliers fuel extra current_date st g,
  ordinal END_DATE - ordinal current_date < Z.of_nat fuel ->
  Suppliers.days_loop END_DATE suppliers (fuel + extra) current_date st g
  = Suppliers.days_loop END_DATE suppliers fuel current_date st g.
Proof.
  intros suppliers fuel extra.
  induction fuel as [ | fuel IH ]; intros current_date st g Hfuel.
  - cbn [Nat.add Suppliers.days_loop].
    destruct extra as [ | extra ]; [ reflexivity | ].
    cbn [Suppliers.days_loop]. rewrite dt_leb_after by lia. reflexivity.
  - cbn [Nat.add Suppliers.days_loop].
    destruct (dt_leb current_date END_DATE); [ | reflexivity ].
    cbn [bind rand_monad].
    destruct (Suppliers.products_loop END_DATE suppliers current_date Suppliers.PRODUCTS st g)
      as [ [st1 g1] | e ]; [ | reflexivity ].
    apply IH. cbn [add_days ordinal]. lia.
Qed.
End Loops.

(** *** One iteration per day *)

(** The [n] days from [d] on. *)
Fixpoint days_from (d : datetime) (n : nat) : list datetime :=
  match n with
  | O => []
  | S n' => d :: days_from (add_days d 1) n'
  end.

(** [for day in days: st = body(day, st)] *)
Fixpoint for_days {S : Type} (body : datetime -> S -> rand S) (days : list datetime) (st : S)
    : rand S :=
  match days with
  | [] => ret st
  | day :: rest => st' <- body day st ;; for_days body rest st'
  end.

Lemma add_days_0 : forall d, add_days d 0 = d.
Proof. intros [o s]. unfold add_days. cbn [ordinal seconds]. f_equal. lia. Qed.

Lemma add_days_add_days : forall d a b, add_days (add_days d a) b = add_days d (a + b).
Proof. intros [o s] a b. unfold add_days. cbn [ordinal seconds]. f_equal. lia. Qed.

Lemma length_days_from : forall n d, List.length (days_from d n) = n.
Proof. induction n as [ | n IH ]; intros d; cbn; [ reflexivity | rewrite IH; reflexivity ]. Qed.

Lemma nth_days_from : forall n d i,
  (i < n)%nat -> nth_error (days_from d n) i = Some (add_days d (Z.of_nat i)).
Proof.
  induction n as [ | n IH ]; intros d i Hi; [ lia | ].
  destruct i as [ | i ]; cbn [days_from nth_error].
  - rewrite add_days_0. reflexivity.
  - rewrite IH by lia. rewrite add_days_add_days. do 2 f_equal. lia.
Qed.

(** The guard of the day loops on the [i]-th day after [d], for a [d] not
    later in its day than [e] in its own. *)
Lemma dt_leb_add_days : forall d e i,
  seconds d <= seconds e ->
  dt_leb (add_days d i) e = (i <=? ordinal e - ordinal d).
Proof.
  intros d e i Hs. unfold dt_leb, add_days. cbn [ordinal seconds].
  destruct (Z.ltb_spec (ordinal d + i) (ordinal e));
    destruct (Z.eqb_spec (ordinal d + i) (ordinal e));
    destruct (Z.leb_spec (seconds d) (seconds e));
    destruct (Z.leb_spec i (ordinal e - ordinal d)); cbn; lia || reflexivity.
Qed.

Section Days.
Context {F : Type} `{PyFloat F}.
Variable END_DATE : datetime.

(** The body of the day loop of [generate_all_sales]. *)
Definition sales_day (campaigns : list (HistoryV3.BrandCampaign.t F))
    (promos : list (HistoryV3.StorePromo.t F)) (holidays : list (HistoryV3.Holiday.t F))
    (day : datetime) (all_sales : list (HistoryV3.Row.t F))
    : rand (list (HistoryV3.Row.t F)) :=
  daily_transactions <- HistoryV3.generate_daily_transactions day campaigns promos holidays ;;
  ret (all_sales ++ daily_transactions)%list.

Lemma sales_loop_days : forall campaigns promos holidays n d all_sales g,
  (forall i, (i < n)%nat -> dt_leb (add_days d (Z.of_nat i)) END_DATE = true) ->
  HistoryV3.sales_loop END_DATE campaigns promos holidays n d all_sales g
  = for_days (sales_day campaigns promos holidays) (days_from d n) all_sales g.
Proof.
  intros campaigns promos holidays n.
  induction n as [ | n IH ]; intros d all_sales g Hguard; [ reflexivity | ].
  cbn [HistoryV3.sales_loop days_from for_days].
  pose proof (Hguard O ltac:(lia)) as H0. cbn [Z.of_nat] in H0.
  rewrite add_days_0 in H0. rewrite H0.
  unfold sales_day at 1. cbn [bind rand_monad].
  destruct (HistoryV3.generate_daily_transactions d campaigns promos holidays g)
    as [ [rows g1] | e ]; [ | reflexivity ].
  cbn [ret rand_monad]. apply IH.
  intros i Hi. rewrite add_days_add_days.
  replace (1 + Z.of_nat i) with (Z.of_nat (S i)) by lia. apply Hguard. lia.
Qed.

Lemma days_loop_days : forall suppliers n d st g,
  (forall i, (i < n)%nat -> dt_leb (add_days d (Z.of_nat i)) END_DATE = true) ->
  Suppliers.days_loop END_DATE suppliers n d st g
  = for_days (fun day st => Suppliers.products_loop END_DATE suppliers day
                              Suppliers.PRODUCTS st)
      (days_from d n) st g.
Proof.
  intros suppliers n.
  induction n as [ | n IH ]; intros d st g Hguard; [ reflexivity | ].
  cbn [Suppliers.days_loop days_from for_days].
  pose proof (Hguard O ltac:(lia)) as H0. cbn [Z.of_nat] in H0.
  rewrite add_days_0 in H0. rewrite H0.
  cbn [bind rand_monad].
  destruct (Suppliers.products_loop END_DATE suppliers d Suppliers.PRODUCTS st g)
    as [ [st1 g1] | e ]; [ | reflexivity ].
  apply IH.
  intros i Hi. rewrite add_days_add_days.
  replace (1 + Z.of_nat i) with (Z.of_nat (S i)) by lia. apply Hguard. lia.
Qed.
End Days.

(** The number of passes of a day loop from [d] to [e]. *)
Definition day_count (d e : datetime) : nat := Z.to_nat (ordinal e - ordinal d + 1).

Lemma guard_within : forall d e i,
  seconds d <= seconds e -> (i < day_count d e)%nat ->
  dt_leb (add_days d (Z.of_nat i)) e = true.
Proof.
  intros d e i Hs Hi. unfold day_count in Hi.
  rewrite dt_leb_add_days by exact Hs. apply Z.leb_le. lia.
Qed.

Lemma guard_after : forall d e,
  seconds d <= seconds e ->
  dt_leb (add_days d (Z.of_nat (day_count d e))) e = false.
Proof.
  intros d e Hs. unfold day_count.
  rewrite dt_leb_add_days by exact Hs. apply Z.leb_gt. lia.
Qed.

End LoopFacts.

(** * The claims *)

Module Claims.
Import Py PyFacts FormatFacts PoolFacts BasketFacts TransactionFacts RunFacts SellableFacts
  StackFacts SummaryFacts RationalFacts SupplierFacts LoopFacts.

(** C1.  The demand multiplier stack is the product of the individual
    multipliers.  In v2, [generate_daily_sales] draws a base velocity
    between 5 and 15 and takes [int()] of the velocity times the stack of
    seasonality, day-of-week and the multipliers of the active campaign,
    promotion and holiday; where [int()] raises (a product of multipliers
    that is infinite or not a number) the call raises the same exception,
    and otherwise it returns a record whose quantity is that integer plus a
    noise between -2 and 2, floored at 1.  In v3,
    [get_daily_transaction_count] draws one number [r] and takes [int()] of
    the base count 110 times seasonality, day-of-week, holiday and payday
    multipliers and the noise factor [0.85 + (1.15 - 0.85) * r]; where
    [int()] raises so does the call, and otherwise the count is that
    integer floored at 50.  Over the rationals the stack applied to a base
    is the base times the product of the multipliers. *)
Theorem C1_multiplier_stack :
  (forall (F : Type) (H : PyFloat F) hash date product campaigns promos holidays g,
     exists base_velocity,
       5 <= base_velocity <= 15 /\
       match to_int (of_int base_velocity
                     ⊗ stacked (dec 10 1)
                         (v2_stack date product campaigns promos holidays)) with
       | Raise e =>
           HistoryV2.generate_daily_sales hash date product campaigns promos holidays g
             = Raise e
       | Ok q =>
           exists sale g' noise,
             (HistoryV2.generate_daily_sales hash date product campaigns promos holidays g
                = Ok (sale, g')) /\
             (-2 <= noise <= 2) /\
             (HistoryV2.Sale.quantity sale = Z.max 1 (q + noise)) /\
             (1 <= HistoryV2.Sale.quantity sale)
       end) /\
  (forall (F : Type) (H : PyFloat F) date holidays g,
     exists (r : F) g',
       random g = Ok (r, g') /\
       match to_int (stacked (of_int HistoryV3.BASE_DAILY_TRANSACTIONS)
                       (v3_stack date holidays
                        ++ [dec 85 2 ⊕ (dec 115 2 ⊖ dec 85 2) ⊗ r])) with
       | Raise e => HistoryV3.get_daily_transaction_count date holidays g = Raise e
       | Ok q =>
           (HistoryV3.get_daily_transaction_count date holidays g = Ok (Z.max 50 q, g')) /\
           (50 <= Z.max 50 q)
       end) /\
  (forall (stack : list Q) (base : Q),
     (stacked base stack == base * fold_right Qmult 1 stack)%Q).
Proof.
  split; [ | split ].
  - intros F H hash date product campaigns promos holidays g.
    destruct (generate_daily_sales_spec hash date product campaigns promos holidays g)
      as (base_velocity & Hbase & Hrun).
    exists base_velocity. split; [ exact Hbase | ].
    destruct (to_int _) as [ q | e ]; [ | exact Hrun ].
    destruct Hrun as (sale & g' & noise & Hrun & Hnoise & Hqty & _).
    exists sale, g', noise.
    repeat (split; [ assumption | ]). rewrite Hqty. apply Z.le_max_l.
  - intros F H date holidays g.
    destruct (get_daily_transaction_count_stack date holidays g) as (r & g' & Hr & Hrun).
    exists r, g'. split; [ exact Hr | ]. cbv zeta in Hrun.
    destruct (to_int _) as [ q | e ]; [ | exact Hrun ].
    split; [ exact Hrun | apply Z.le_max_l ].
  - exact stacked_product.
Qed.

(** C2 fails on the code.  The summary of v3 guards its quotients by a
    revenue or a count greater than [0] (for floats on which a value
    greater than [0] is not equal to [0], as on both instances, the year
    table with its margin, average transaction and growth, and the profile
    table, always return), but the overall profit margin is computed
    without a guard: on a sales list whose total revenue is zero
    [print_summary_stats] raises [ZeroDivisionError], in v3 and in v2. *)
Theorem C2_margin_guards : forall (F : Type) (H : PyFloat F) (L : PyFloatLaws F),
  (forall (sales : list (HistoryV3.Row.t F)) years prev_revenue,
     exists lines, HistoryV3.year_table sales years prev_revenue = Ok lines) /\
  (forall (sales : list (HistoryV3.Row.t F)) total_transactions total_revenue profiles,
     exists lines,
       HistoryV3.profile_table sales total_transactions total_revenue profiles = Ok lines) /\
  (forall sales : list (HistoryV3.Row.t F),
     feqb (sum (map HistoryV3.Row.subtotal sales)) (of_int 0) = true ->
     HistoryV3.print_summary_stats sales = Raise ZeroDivisionError) /\
  (forall sales : list (HistoryV2.Sale.t F),
     feqb (sum (map HistoryV2.Sale.subtotal sales)) (of_int 0) = true ->
     HistoryV2.print_summary_stats sales = Raise ZeroDivisionError).
Proof.
  intros F H L. split; [ | split; [ | split ] ].
  - apply year_table_total.
  - apply profile_table_total.
  - apply v3_zero_revenue_raises.
  - apply v2_zero_revenue_raises.
Qed.

(** A line of v3 with a subtotal of zero. *)
Definition zero_row : HistoryV3.Row.t float :=
  HistoryV3.Row.mk "TX-20240101-0001" "2024-01-01" "08:00:00" "SNACKER" "544900000099"
    "Coca-Cola Mismo 295ml" "Coca-Cola" "SODA" 0 20%float 18%float 0%float 0%float 0%float
    "CASH" false "" "" 1%float.

Lemma C2_margin_guards_witness :
  feqb (F := float) (sum (map HistoryV3.Row.subtotal [zero_row])) (of_int 0) = true /\
  HistoryV3.print_summary_stats [zero_row] = Raise ZeroDivisionError /\
  HistoryV3.print_summary_stats (F := float) [] = Raise ZeroDivisionError /\
  HistoryV2.print_summary_stats (F := float) [] = Raise ZeroDivisionError.
Proof.
  split; [ vm_compute; reflexivity | ]. split; [ | split ].
  - apply (proj1 (proj2 (proj2 (C2_margin_guards float b64_float b64_laws)))).
    vm_compute. reflexivity.
  - apply (proj1 (proj2 (proj2 (C2_margin_guards float b64_float b64_laws)))).
    vm_compute. reflexivity.
  - apply (proj2 (proj2 (proj2 (C2_margin_guards float b64_float b64_laws)))).
    vm_compute. reflexivity.
Defined.

(** A generator state under which a HOUSEHOLD customer of 2024-01-01 picks
    three items to buy, leaves the pool in its order, then draws the
    detergent (660.00) twice and the juice powder (216.00) once. *)
Definition household_rng : rng_state :=
  {| draws := fun _ i =>
       if (i =? 0)%nat then 0
       else if (i <=? 81)%nat then 82 - Z.of_nat i
       else nth (i - 82) [77; 1; 72; 0] 0;
     cur := SeedOS 0; pos := 0; reseeds := 1 |}.

(** C3 fails on the code.  On binary64, the basket of a HOUSEHOLD customer
    on [START_DATE] under [household_rng] holds two items with subtotals
    1320.00 and 216.00: their sum 1536.00 exceeds the ticket maximum
    1500 * 1.0.  (The fitted quantity is [max(1, int(180 / 216))], which is 1
    where 0 fits.) *)
Theorem C3_basket_exceeds_budget :
  exists items g',
    HistoryV3.get_products_for_profile (F := float) "HOUSEHOLD" HistoryV3.START_DATE [] []
      household_rng = Ok (items, g') /\
    map (fun item => (HistoryV3.Item.quantity item, HistoryV3.Item.subtotal item)) items
      = [(2, 1320%float); (1, 216%float)] /\
    of_int 1500 ⊗ HistoryV3.get_inflation_factor HistoryV3.START_DATE = 1500%float /\
    sum (map HistoryV3.Item.subtotal items) = 1536%float /\
    fltb (of_int 1500 ⊗ HistoryV3.get_inflation_factor HistoryV3.START_DATE)
         (sum (map HistoryV3.Item.subtotal items)) = true.
Proof.
  destruct (HistoryV3.get_products_for_profile (F := float) "HOUSEHOLD"
              HistoryV3.START_DATE [] [] household_rng) as [ [items g'] | e ] eqn:Hrun.
  - exists items, g'. split; [ reflexivity | ].
    vm_compute in Hrun. injection Hrun as <- _.
    repeat split; vm_compute; reflexivity.
  - vm_compute in Hrun. discriminate Hrun.
Qed.

(** C4.  No line produced by [generate_daily_transactions] sells a
    product whose catalogue entry is flagged [never_sell], whatever the
    date, the events and the random draws; such products are in no
    selection pool. *)
Theorem C4_never_sell_excluded : forall (F : Type) (H : PyFloat F),
  (forall profile date selection_pool,
     HistoryV3.selection_pool_of profile date = Ok selection_pool ->
     Forall (fun p => HistoryV3.Product.never_sell (HistoryV3.Priced.product p) = false)
       selection_pool) /\
  (forall date campaigns promos holidays g rows g',
     HistoryV3.generate_daily_transactions date campaigns promos holidays g = Ok (rows, g') ->
     forall r p, In r rows -> In p HistoryV3.PRODUCTS ->
       HistoryV3.Product.barcode p = HistoryV3.Row.barcode r ->
       HistoryV3.Product.never_sell p = false).
Proof.
  intros F H. split.
  - intros profile date selection_pool Hpool.
    eapply Forall_impl; [ | eapply selection_pool_sellable; exact Hpool ].
    intros p [_ Hflag]. exact Hflag.
  - intros date campaigns promos holidays g rows g' Hrun r p Hr Hp Hbarcode.
    apply generate_daily_transactions_sellable in Hrun.
    rewrite Forall_forall in Hrun.
    eapply row_sellable_never_sell; eauto.
Qed.

Lemma C4_never_sell_excluded_witness :
  exists rows g',
    HistoryV3.generate_daily_transactions (F := float) HistoryV3.START_DATE [] [] []
      (example_rng 7919 13) = Ok (rows, g') /\
    forall r p, In r rows -> In p HistoryV3.PRODUCTS ->
      HistoryV3.Product.barcode p = HistoryV3.Row.barcode r ->
      HistoryV3.Product.never_sell p = false.
Proof.
  assert (Hok : run_satisfies (fun _ => true)
                  (HistoryV3.generate_daily_transactions (F := float) HistoryV3.START_DATE
                     [] [] [] (example_rng 7919 13)) = true)
    by (vm_compute; reflexivity).
  destruct (HistoryV3.generate_daily_transactions (F := float) HistoryV3.START_DATE [] [] []
              (example_rng 7919 13)) as [ [rows g'] | e ] eqn:Hrun.
  - exists rows, g'. split; [ reflexivity | ].
    exact (proj2 (C4_never_sell_excluded float b64_float) _ _ _ _ _ _ _ Hrun).
  - discriminate Hok.
Defined.

(** C5.  For a date [d] on or after [START_DATE], the inflation factor is
    [1 + 0.045 * (days / 365.25)] with [days] the whole days from
    [START_DATE] to [d]; the inflated retail and cost prices are the base
    prices times the factor rounded to two decimals, and the daily revenue
    target is the base target times the factor, not rounded.  The same
    holds of the supplier script's [get_inflated_cost]. *)
Theorem C5_inflation_linear : forall (F : Type) (H : PyFloat F) (d : datetime)
    (product : HistoryV3.Product.t F) (base_cost : F),
  dt_leb HistoryV3.START_DATE d = true ->
  0 <= seconds d < 86400 ->
  let days := ordinal d - ordinal HistoryV3.START_DATE in
  let factor := of_int 1 ⊕ dec 45 3 ⊗ fdiv (of_int days) (dec 36525 2) in
  0 <= days /\
  HistoryV3.get_inflation_factor d = factor /\
  HistoryV3.get_inflated_prices product d =
    (round_nd (HistoryV3.Product.base_retail product ⊗ factor) 2,
     round_nd (HistoryV3.Product.base_cost product ⊗ factor) 2) /\
  HistoryV3.get_daily_revenue_target d = of_int 82500 ⊗ factor /\
  Suppliers.get_inflation_factor d = factor /\
  Suppliers.get_inflated_cost base_cost d = round_nd (base_cost ⊗ factor) 2.
Proof.
  intros F H d product base_cost Hstart Hsec days factor.
  assert (Hdays : days_between d HistoryV3.START_DATE = days).
  { unfold days_between, days. change (seconds HistoryV3.START_DATE) with 0.
    rewrite Z.sub_0_r, Z.div_add_l by lia. rewrite (Z.div_small (seconds d)) by lia. lia. }
  assert (Hnonneg : 0 <= days).
  { unfold days. unfold dt_leb in Hstart.
    apply orb_true_iff in Hstart. destruct Hstart as [Hlt | Heq].
    - apply Z.ltb_lt in Hlt. lia.
    - apply andb_true_iff in Heq. destruct Heq as [Heq _]. apply Z.eqb_eq in Heq. lia. }
  unfold HistoryV3.get_inflated_prices, HistoryV3.get_daily_revenue_target,
    Suppliers.get_inflated_cost, HistoryV3.get_inflation_factor,
    Suppliers.get_inflation_factor.
  change Suppliers.START_DATE with HistoryV3.START_DATE.
  rewrite Hdays. repeat split; assumption || reflexivity.
Qed.

Lemma C5_inflation_linear_witness :
  HistoryV3.get_inflation_factor (F := Q) (add_days HistoryV3.START_DATE 487) = (53 # 50)%Q /\
  HistoryV3.get_daily_revenue_target (F := Q) (add_days HistoryV3.START_DATE 487)
    = fmul (of_int 82500) (of_int 1 ⊕ dec 45 3 ⊗ fdiv (of_int 487) (dec 36525 2)).
Proof.
  assert (Hstart : dt_leb HistoryV3.START_DATE (add_days HistoryV3.START_DATE 487) = true)
    by reflexivity.
  assert (Hsec : 0 <= seconds (add_days HistoryV3.START_DATE 487) < 86400)
    by (cbn; lia).
  destruct (C5_inflation_linear Q Q_float (add_days HistoryV3.START_DATE 487)
              (HistoryV3.Product.mk "544900000099" "Coca-Cola Mismo 295ml" "Coca-Cola" "SODA"
                 (dec 2000 2) (dec 1800 2) false false None)
              (dec 1800 2) Hstart Hsec) as (_ & Hfactor & _ & Htarget & _).
  split.
  - rewrite Hfactor. vm_compute. reflexivity.
  - rewrite Htarget. reflexivity.
Defined.

(** C6.  For every generated transaction, the total computed during
    generation is the sum of the subtotals of the lines appended for it,
    and the cost the sum of their cost totals. *)
Theorem C6_transaction_totals : forall (F : Type) (H : PyFloat F) date campaigns promos
    in_holiday holiday transaction_id_base tx_counter g tx g',
  HistoryV3.generate_transaction date campaigns promos in_holiday holiday
    transaction_id_base tx_counter g = Ok (Some tx, g') ->
  HistoryV3.Tx.tx_total tx = sum (map HistoryV3.Row.subtotal (HistoryV3.Tx.rows tx)) /\
  HistoryV3.Tx.tx_cost tx = sum (map HistoryV3.Row.cost_total (HistoryV3.Tx.rows tx)).
Proof.
  intros F H date campaigns promos in_holiday holiday transaction_id_base tx_counter g tx g'
    Hrun.
  apply generate_transaction_Some in Hrun.
  destruct Hrun as (items & profile & tx_time & payment & _ & _ & Htotal & Hcost & Hrows).
  rewrite Htotal, Hcost, Hrows, !map_map. split; f_equal; apply map_ext; intros item.
  - symmetry. apply transaction_row_fields.
  - symmetry. apply transaction_row_fields.
Qed.

Lemma C6_transaction_totals_witness :
  exists tx g',
    HistoryV3.generate_transaction (F := float) HistoryV3.START_DATE [] [] false None
      "20240101" 1 (example_rng 7919 13) = Ok (Some tx, g') /\
    HistoryV3.Tx.tx_total tx = sum (map HistoryV3.Row.subtotal (HistoryV3.Tx.rows tx)) /\
    HistoryV3.Tx.tx_cost tx = sum (map HistoryV3.Row.cost_total (HistoryV3.Tx.rows tx)).
Proof.
  assert (Hok : run_satisfies (fun tx => match tx with Some _ => true | None => false end)
                  (HistoryV3.generate_transaction (F := float) HistoryV3.START_DATE [] []
                     false None "20240101" 1 (example_rng 7919 13)) = true)
    by (vm_compute; reflexivity).
  destruct (HistoryV3.generate_transaction (F := float) HistoryV3.START_DATE [] [] false None
              "20240101" 1 (example_rng 7919 13)) as [ [[tx | ] g'] | e ] eqn:Hrun.
  - exists tx, g'. split; [ reflexivity | ].
    exact (C6_transaction_totals float b64_float _ _ _ _ _ _ _ _ _ _ Hrun).
  - discriminate Hok.
  - discriminate Hok.
Defined.

(** C7.  [get_inflation_factor(START_DATE)] is exactly [1.0] on binary64:
    the elapsed days are [0], and [1 + 0.045 * (0 / 365.25)] is computed
    without rounding error; in the history generator and in the supplier
    generator alike. *)
Theorem C7_inflation_factor_at_start :
  days_between HistoryV3.START_DATE HistoryV3.START_DATE = 0 /\
  HistoryV3.get_inflation_factor (F := float) HistoryV3.START_DATE = 1%float /\
  Suppliers.get_inflation_factor (F := float) Suppliers.START_DATE = 1%float /\
  HistoryV3.get_inflation_factor (F := Q) HistoryV3.START_DATE = 1%Q /\
  Suppliers.get_inflation_factor (F := Q) Suppliers.START_DATE = 1%Q.
Proof.
  split; [ reflexivity | ].
  unfold HistoryV3.get_inflation_factor, Suppliers.get_inflation_factor.
  change (days_between Suppliers.START_DATE Suppliers.START_DATE) with 0.
  change (days_between HistoryV3.START_DATE HistoryV3.START_DATE) with 0.
  repeat split; vm_compute; reflexivity.
Qed.

(** The multiplier fields a v2 sale records. *)
Definition v2_multiplier_fields {F : Type} (sale : HistoryV2.Sale.t F)
    : F * F * bool * string * string :=
  (HistoryV2.Sale.total_multiplier sale, HistoryV2.Sale.seasonality_multiplier sale,
   HistoryV2.Sale.is_event sale, HistoryV2.Sale.event_source sale,
   HistoryV2.Sale.event_name sale).

(** C8.  The multiplier and event functions of both history generators
    return equal results on equal arguments; the seasonality multiplier
    reads the date through its month only, the day-of-week multiplier
    through its weekday, the payday multiplier through its day of the
    month.  They consume no randomness: whatever the state of the random
    generator, two runs of the v2 [generate_daily_sales] on the same
    arguments that return record the same multipliers and event, and two
    runs of the v3 [get_daily_transaction_count] that draw the same noise
    and return, return the same count. *)
Theorem C8_multipliers_deterministic : forall (F : Type) (H : PyFloat F),
  (forall d1 d2 c1 c2, month d1 = month d2 -> c1 = c2 ->
     HistoryV3.get_seasonality_multiplier (F := F) d1 c1
       = HistoryV3.get_seasonality_multiplier d2 c2) /\
  (forall d1 d2, weekday d1 = weekday d2 ->
     HistoryV3.get_day_of_week_multiplier (F := F) d1
       = HistoryV3.get_day_of_week_multiplier d2) /\
  (forall d1 d2, day d1 = day d2 ->
     HistoryV3.get_payday_multiplier (F := F) d1 = HistoryV3.get_payday_multiplier d2) /\
  (forall d1 d2 (l1 l2 : list (HistoryV3.BrandCampaign.t F)) b1 b2,
     d1 = d2 -> l1 = l2 -> b1 = b2 ->
     HistoryV3.is_within_campaign d1 l1 b1 = HistoryV3.is_within_campaign d2 l2 b2) /\
  (forall d1 d2 (l1 l2 : list (HistoryV3.StorePromo.t F)) b1 b2,
     d1 = d2 -> l1 = l2 -> b1 = b2 ->
     HistoryV3.is_within_store_promo d1 l1 b1 = HistoryV3.is_within_store_promo d2 l2 b2) /\
  (forall d1 d2 (l1 l2 : list (HistoryV3.Holiday.t F)),
     d1 = d2 -> l1 = l2 ->
     HistoryV3.is_within_holiday d1 l1 = HistoryV3.is_within_holiday d2 l2) /\
  (forall d1 d2 c1 c2, month d1 = month d2 -> c1 = c2 ->
     HistoryV2.get_seasonality_multiplier (F := F) d1 c1
       = HistoryV2.get_seasonality_multiplier d2 c2) /\
  (forall d1 d2, weekday d1 = weekday d2 ->
     HistoryV2.get_day_of_week_multiplier (F := F) d1
       = HistoryV2.get_day_of_week_multiplier d2) /\
  (forall d1 d2 (l1 l2 : list (HistoryV2.BrandCampaign.t F)) b1 b2,
     d1 = d2 -> l1 = l2 -> b1 = b2 ->
     HistoryV2.is_within_campaign d1 l1 b1 = HistoryV2.is_within_campaign d2 l2 b2) /\
  (forall d1 d2 (l1 l2 : list (HistoryV2.StorePromo.t F)) b1 b2,
     d1 = d2 -> l1 = l2 -> b1 = b2 ->
     HistoryV2.is_within_store_promo d1 l1 b1 = HistoryV2.is_within_store_promo d2 l2 b2) /\
  (forall d1 d2 (l1 l2 : list (HistoryV2.Holiday.t F)),
     d1 = d2 -> l1 = l2 ->
     HistoryV2.is_within_holiday d1 l1 = HistoryV2.is_within_holiday d2 l2) /\
  (forall hash date product campaigns promos holidays g1 g2 sale1 g1' sale2 g2',
     HistoryV2.generate_daily_sales hash date product campaigns promos holidays g1
       = Ok (sale1, g1') ->
     HistoryV2.generate_daily_sales hash date product campaigns promos holidays g2
       = Ok (sale2, g2') ->
     v2_multiplier_fields sale1 = v2_multiplier_fields sale2) /\
  (forall date holidays g1 g2 n1 n2 r g1' g2',
     random g1 = Ok (r, g1') -> random g2 = Ok (r, g2') ->
     HistoryV3.get_daily_transaction_count date holidays g1 = Ok (n1, g1') ->
     HistoryV3.get_daily_transaction_count date holidays g2 = Ok (n2, g2') ->
     n1 = n2).
Proof.
  intros F H.
  repeat match goal with |- _ /\ _ => split end.
  - intros d1 d2 c1 c2 Hmonth <-. unfold HistoryV3.get_seasonality_multiplier.
    rewrite Hmonth. reflexivity.
  - intros d1 d2 Hweekday. unfold HistoryV3.get_day_of_week_multiplier.
    rewrite Hweekday. reflexivity.
  - intros d1 d2 Hday. unfold HistoryV3.get_payday_multiplier. rewrite Hday. reflexivity.
  - intros d1 d2 l1 l2 b1 b2 <- <- <-. reflexivity.
  - intros d1 d2 l1 l2 b1 b2 <- <- <-. reflexivity.
  - intros d1 d2 l1 l2 <- <-. reflexivity.
  - intros d1 d2 c1 c2 Hmonth <-. unfold HistoryV2.get_seasonality_multiplier.
    rewrite Hmonth. reflexivity.
  - intros d1 d2 Hweekday. unfold HistoryV2.get_day_of_week_multiplier.
    rewrite Hweekday. reflexivity.
  - intros d1 d2 l1 l2 b1 b2 <- <- <-. reflexivity.
  - intros d1 d2 l1 l2 b1 b2 <- <- <-. reflexivity.
  - intros d1 d2 l1 l2 <- <-. reflexivity.
  - intros hash date product campaigns promos holidays g1 g2 sale1 g1' sale2 g2' Hrun1 Hrun2.
    pose proof (generate_daily_sales_Ok hash date product campaigns promos holidays
                  g1 sale1 g1' Hrun1) as (Htotal1 & Hseason1 & Hevent1).
    pose proof (generate_daily_sales_Ok hash date product campaigns promos holidays
                  g2 sale2 g2' Hrun2) as (Htotal2 & Hseason2 & Hevent2).
    unfold v2_multiplier_fields.
    rewrite <- Hevent2 in Hevent1. injection Hevent1 as -> -> ->.
    rewrite Htotal1, Htotal2, Hseason1, Hseason2. reflexivity.
  - intros date holidays g1 g2 n1 n2 r g1' g2' Hr1 Hr2 Hn1 Hn2.
    destruct (get_daily_transaction_count_stack date holidays g1)
      as (r1 & h1 & Hdraw1 & Hcount1).
    destruct (get_daily_transaction_count_stack date holidays g2)
      as (r2 & h2 & Hdraw2 & Hcount2).
    rewrite Hr1 in Hdraw1. rewrite Hr2 in Hdraw2.
    injection Hdraw1 as <- <-. injection Hdraw2 as <- <-.
    cbv zeta in Hcount1, Hcount2.
    destruct (to_int _) as [ q | e ].
    + rewrite Hn1 in Hcount1. rewrite Hn2 in Hcount2.
      injection Hcount1 as ->. injection Hcount2 as ->. reflexivity.
    + rewrite Hn1 in Hcount1. discriminate Hcount1.
Qed.

Lemma C8_multipliers_deterministic_witness :
  HistoryV3.get_seasonality_multiplier (F := float) (mk_datetime 2024 12 25 0 0 0) "SODA"
    = HistoryV3.get_seasonality_multiplier (mk_datetime 2025 12 3 0 0 0) "SODA" /\
  HistoryV3.get_day_of_week_multiplier (F := float) (mk_datetime 2024 1 6 0 0 0)
    = HistoryV3.get_day_of_week_multiplier (mk_datetime 2025 3 15 0 0 0) /\
  HistoryV3.get_payday_multiplier (F := float) (mk_datetime 2024 1 15 0 0 0)
    = HistoryV3.get_payday_multiplier (mk_datetime 2025 6 15 0 0 0).
Proof.
  destruct (C8_multipliers_deterministic float b64_float)
    as (Hseason & Hweekday & Hpayday & _).
  split; [ | split ].
  - apply Hseason; reflexivity.
  - apply Hweekday; reflexivity.
  - apply Hpayday; reflexivity.
Defined.

(** C9.  Every return produced by [generate_batches_and_returns] refers to
    a batch of the same run, and batch ids are distinct, so to one batch
    only: the return carries the batch's id, product barcode and name,
    supplier id and name, and cost price; its quantity change is negative,
    of magnitude at least 1; it is created at least 30 days after the batch
    was received and not after [END_DATE].  This holds for every float
    type.  Where the arithmetic keeps scaled quantities in bounds
    ([BatchArith]), the magnitude is at most the batch's quantity. *)
Theorem C9_return_references_batch : forall (F : Type) (H : PyFloat F) END_DATE suppliers g
    batches returns g',
  Suppliers.generate_batches_and_returns END_DATE suppliers g
    = Ok ((batches, returns), g') ->
  NoDup (map Suppliers.InventoryBatch.id batches) /\
  (forall r, In r returns ->
     exists b, In b batches /\ return_of_batch END_DATE r b) /\
  (BatchArith F ->
   forall r, In r returns ->
     exists b, In b batches /\
       Suppliers.StockMovementReturn.batch_id r = Suppliers.InventoryBatch.id b /\
       1 <= - Suppliers.StockMovementReturn.quantity_change r
         <= Suppliers.InventoryBatch.quantity b).
Proof.
  intros F H END_DATE suppliers g batches returns g' Hrun.
  destruct (generate_batches_and_returns_ok END_DATE suppliers g batches returns g' Hrun)
    as [Hnodup Hreturns].
  split; [ exact Hnodup | ]. split; [ exact Hreturns | ].
  intros Harith r Hr. destruct (Hreturns r Hr) as (b & Hb & Hof).
  exists b. split; [ exact Hb | ].
  destruct Hof as (Hid & _ & _ & _ & _ & _ & _ & Hlo & Hhi & _).
  split; [ exact Hid | ]. split; [ exact Hlo | exact (Hhi Harith) ].
Qed.

(** The first supplier [generate_suppliers] builds from its templates. *)
Definition example_supplier : Suppliers.Supplier.t :=
  Suppliers.Supplier.mk 1 "San Miguel Corporation" "Juan dela Cruz" "+63 2 8632 2000"
    "orders@sanmiguel.com.ph" "40 San Miguel Avenue, Ortigas Center, Pasig City"
    "Primary distributor for BEVERAGES, SODA" "ACTIVE"
    ["BEVERAGES"%string; "SODA"%string; "SOFTDRINKS_CASE"%string].

Lemma C9_return_references_batch_witness :
  exists batches returns g',
    Suppliers.generate_batches_and_returns (F := float)
      (add_days Suppliers.START_DATE 30) [example_supplier] (example_rng 0 0)
      = Ok ((batches, returns), g') /\
    returns <> [] /\
    NoDup (map Suppliers.InventoryBatch.id batches) /\
    forall r, In r returns ->
      exists b, In b batches /\ return_of_batch (add_days Suppliers.START_DATE 30) r b.
Proof.
  assert (Hok : run_satisfies (fun '(_, returns) => nonempty returns)
                  (Suppliers.generate_batches_and_returns (F := float)
                     (add_days Suppliers.START_DATE 30) [example_supplier]
                     (example_rng 0 0)) = true)
    by (vm_compute; reflexivity).
  destruct (Suppliers.generate_batches_and_returns (F := float)
              (add_days Suppliers.START_DATE 30) [example_supplier] (example_rng 0 0))
    as [ [[batches returns] g'] | e ] eqn:Hrun.
  - exists batches, returns, g'. split; [ reflexivity | ]. split.
    + apply nonempty_spec. exact Hok.
    + destruct (C9_return_references_batch float b64_float _ _ _ _ _ _ Hrun)
        as (Hnodup & Hreturns & _).
      split; [ exact Hnodup | exact Hreturns ].
  - discriminate Hok.
Defined.

(** C10.  In one run of the v3 generator the lines come in transactions,
    one per pair of a day and a counter, in strictly increasing order of
    the pairs; the lines of a transaction carry the id [TX-YYYYMMDD-NNNN]
    of its day and counter, and lines of different transactions carry
    different ids.  Lines with the same id carry the same id, date, time,
    customer type and payment method.  ([END_DATE] is a [datetime], hence
    not after year 9999.) *)
Theorem C10_transaction_ids : forall (F : Type) (H : PyFloat F) END_DATE campaigns promos
    holidays g rows g',
  ordinal END_DATE <= MAX_ORDINAL ->
  HistoryV3.generate_all_sales_days END_DATE campaigns promos holidays g = Ok (rows, g') ->
  (exists transactions keys,
     rows = List.concat transactions /\
     Forall2 transaction_lines transactions keys /\
     StronglySorted key_lt keys /\
     ForallOrdPairs disjoint_ids transactions) /\
  (forall r1 r2, In r1 rows -> In r2 rows ->
     HistoryV3.Row.transaction_id r1 = HistoryV3.Row.transaction_id r2 ->
     same_header r1 r2).
Proof.
  intros F H END_DATE campaigns promos holidays g rows g' Hend Hrun.
  unfold HistoryV3.generate_all_sales_days in Hrun.
  apply sales_loop_blocks in Hrun.
  destruct Hrun as (transactions & keys & Hrows & Hlines & Hsorted & Hkeys).
  cbn [app] in Hrows.
  assert (Hrange : Forall key_in_range keys).
  { eapply Forall_impl; [ | exact Hkeys ].
    intros k [[Hlo Hhi] Hcounter]. unfold key_in_range.
    change (ordinal HistoryV3.START_DATE) with 738886 in Hlo. lia. }
  pose proof (distinct_transactions _ _ Hlines Hrange Hsorted) as Hdistinct.
  split.
  - exists transactions, keys. repeat split; assumption.
  - subst rows. apply same_id_same_header; [ | exact Hdistinct ].
    clear - Hlines. induction Hlines as [ | t k ts ks Ht _ IH ]; constructor.
    + destruct Ht as (_ & _ & Hsame). exact Hsame.
    + exact IH.
Qed.

Lemma C10_transaction_ids_witness :
  exists rows g',
    HistoryV3.generate_all_sales_days (F := float) (add_days HistoryV3.START_DATE 1)
      [] [] [] (example_rng 7919 13) = Ok (rows, g') /\
    rows <> [] /\
    forall r1 r2, In r1 rows -> In r2 rows ->
      HistoryV3.Row.transaction_id r1 = HistoryV3.Row.transaction_id r2 ->
      same_header r1 r2.
Proof.
  assert (Hend : ordinal (add_days HistoryV3.START_DATE 1) <= MAX_ORDINAL)
    by (vm_compute; discriminate).
  assert (Hok : run_satisfies nonempty
                  (HistoryV3.generate_all_sales_days (F := float)
                     (add_days HistoryV3.START_DATE 1) [] [] [] (example_rng 7919 13)) = true)
    by (vm_compute; reflexivity).
  destruct (HistoryV3.generate_all_sales_days (F := float) (add_days HistoryV3.START_DATE 1)
              [] [] [] (example_rng 7919 13)) as [ [rows g'] | e ] eqn:Hrun.
  - exists rows, g'. split; [ reflexivity | ]. split.
    + apply nonempty_spec. exact Hok.
    + exact (proj2 (C10_transaction_ids float b64_float _ _ _ _ _ _ _ Hend Hrun)).
  - discriminate Hok.
Defined.

(** X1.  The basket returned by [get_products_for_profile] holds at most
    the profile's maximum item count of items, of pairwise distinct
    barcodes, each a catalogue product that is not flagged [never_sell]. *)
Theorem X1_basket_size : forall (F : Type) (H : PyFloat F) profile date campaigns promos
    g items g',
  HistoryV3.get_products_for_profile profile date campaigns promos g = Ok (items, g') ->
  exists max_items,
    max_items_of profile = Some max_items /\
    Forall (fun item => sellable (HistoryV3.Item.priced item)) items /\
    NoDup (map HistoryV3.item_barcode items) /\
    Z.of_nat (List.length items) <= max_items.
Proof.
  intros F H profile date campaigns promos g items g' Hrun.
  exact (basket_of_profile profile date campaigns promos g items g' Hrun).
Qed.

Lemma X1_basket_size_witness :
  exists items g',
    HistoryV3.get_products_for_profile (F := float) "HOUSEHOLD" HistoryV3.START_DATE
      [] [] household_rng = Ok (items, g') /\
    NoDup (map HistoryV3.item_barcode items) /\ Z.of_nat (List.length items) <= 8.
Proof.
  assert (Hok : run_satisfies (fun _ => true)
                  (HistoryV3.get_products_for_profile (F := float) "HOUSEHOLD"
                     HistoryV3.START_DATE [] [] household_rng) = true)
    by (vm_compute; reflexivity).
  destruct (HistoryV3.get_products_for_profile (F := float) "HOUSEHOLD"
              HistoryV3.START_DATE [] [] household_rng) as [ [items g'] | e ] eqn:Hrun.
  - destruct (X1_basket_size float b64_float _ _ _ _ _ _ _ Hrun)
      as (max_items & Hmax & _ & Hnodup & Hlength).
    vm_compute in Hmax. injection Hmax as <-.
    exists items, g'. split; [ reflexivity | ]. split; [ exact Hnodup | exact Hlength ].
  - discriminate Hok.
Defined.

(** X2.  The day loops [while current_date <= END_DATE] of the v3 history
    generator and of the supplier generator run their body once for each
    day from [START_DATE] to [END_DATE], in order: [days_from d n] lists
    the [n] consecutive days from [d], the guard holds on each of the
    [day_count] days and fails on the day after the last, and the loops are
    the passes of their bodies over these days.  Further iterations return
    the same result. *)
Theorem X2_day_loops_end : forall (F : Type) (H : PyFloat F) END_DATE,
  0 <= seconds END_DATE ->
  (forall d n i, (i < n)%nat ->
     nth_error (days_from d n) i = Some (add_days d (Z.of_nat i))) /\
  (forall d n, List.length (days_from d n) = n) /\
  (forall i, (i < day_count HistoryV3.START_DATE END_DATE)%nat ->
     dt_leb (add_days HistoryV3.START_DATE (Z.of_nat i)) END_DATE = true) /\
  dt_leb (add_days HistoryV3.START_DATE
            (Z.of_nat (day_count HistoryV3.START_DATE END_DATE))) END_DATE = false /\
  (forall campaigns promos holidays g,
     HistoryV3.generate_all_sales_days END_DATE campaigns promos holidays g
     = for_days (sales_day campaigns promos holidays)
         (days_from HistoryV3.START_DATE (day_count HistoryV3.START_DATE END_DATE)) [] g) /\
  (forall i, (i < day_count Suppliers.START_DATE END_DATE)%nat ->
     dt_leb (add_days Suppliers.START_DATE (Z.of_nat i)) END_DATE = true) /\
  dt_leb (add_days Suppliers.START_DATE
            (Z.of_nat (day_count Suppliers.START_DATE END_DATE))) END_DATE = false /\
  (forall suppliers st g,
     Suppliers.days_loop END_DATE suppliers (day_count Suppliers.START_DATE END_DATE)
       Suppliers.START_DATE st g
     = for_days (fun day st => Suppliers.products_loop END_DATE suppliers day
                                 Suppliers.PRODUCTS st)
         (days_from Suppliers.START_DATE (day_count Suppliers.START_DATE END_DATE)) st g) /\
  (forall extra campaigns promos holidays g,
     HistoryV3.sales_loop END_DATE campaigns promos holidays
       (day_count HistoryV3.START_DATE END_DATE + extra) HistoryV3.START_DATE [] g
     = HistoryV3.generate_all_sales_days END_DATE campaigns promos holidays g) /\
  (forall extra suppliers st g,
     Suppliers.days_loop END_DATE suppliers
       (day_count Suppliers.START_DATE END_DATE + extra) Suppliers.START_DATE st g
     = Suppliers.days_loop END_DATE suppliers (day_count Suppliers.START_DATE END_DATE)
         Suppliers.START_DATE st g).
Proof.
  intros F H END_DATE Hsec.
  assert (H3 : seconds HistoryV3.START_DATE <= seconds END_DATE) by exact Hsec.
  assert (Hs : seconds Suppliers.START_DATE <= seconds END_DATE) by exact Hsec.
  split; [ intros d n i Hi; apply nth_days_from; exact Hi | ].
  split; [ intros d n; apply length_days_from | ].
  split; [ intros i Hi; apply guard_within; assumption | ].
  split; [ apply guard_after; exact H3 | ].
  split.
  { intros campaigns promos holidays g. unfold HistoryV3.generate_all_sales_days.
    apply sales_loop_days. intros i Hi. apply guard_within; assumption. }
  split; [ intros i Hi; apply guard_within; assumption | ].
  split; [ apply guard_after; exact Hs | ].
  split.
  { intros suppliers st g. apply days_loop_days.
    intros i Hi. apply guard_within; assumption. }
  split.
  - intros extra campaigns promos holidays g. unfold HistoryV3.generate_all_sales_days.
    apply sales_loop_fuel. unfold day_count. lia.
  - intros extra suppliers st g. apply days_loop_fuel. unfold day_count. lia.
Qed.

Lemma X2_day_loops_end_witness :
  day_count Suppliers.START_DATE (mk_datetime 2024 1 3 23 59 59) = 3%nat /\
  dt_leb (add_days Suppliers.START_DATE 2) (mk_datetime 2024 1 3 23 59 59) = true /\
  dt_leb (add_days Suppliers.START_DATE 3) (mk_datetime 2024 1 3 23 59 59) = false.
Proof.
  assert (Hsec : 0 <= seconds (mk_datetime 2024 1 3 23 59 59)) by (vm_compute; discriminate).
  destruct (X2_day_loops_end float b64_float (mk_datetime 2024 1 3 23 59 59) Hsec)
    as (_ & _ & _ & _ & _ & Hin & Hout & _).
  split; [ vm_compute; reflexivity | ]. split.
  - apply (Hin 2%nat). vm_compute. lia.
  - exact Hout.
Defined.

End Claims.
